(** * Poker trainer: hand evaluator, board texture, strategy normalisation
      and action grading

    A shallow embedding of [poker-trainer/poker-engine.js], of the solver
    classes of [poker-trainer/gto-solver-advanced.js] and
    [poker-trainer/gto-solver.js], of the class [PreflopRanges] of the
    latter file, and of the session and scenario logic of the main
    application, the class [PokerTrainer].

    Modelling conventions.
    - A card is a record of a rank and a suit; ranks and suits are the
      thirteen and four symbols the engine's constructor lists.
    - The integer-valued numbers of the evaluator are [Z]; the fractional
      numbers of the solvers (weights, wetness, EV loss) are exact rationals
      [Q], so rounding of IEEE doubles is abstracted away.
    - [rankCounts], an object keyed by integers, is a [gmap Z nat]; a
      strategy, an object keyed by action labels whose enumeration order
      matters, is an association list in insertion order.
    - The results of the calls of [Math.random()] are read off a list of
      rationals, each at least 0 and less than 1; a function that calls it
      takes the list and returns what it has not used.
    - A call that may throw returns a [completion]; a number that may be
      [NaN] is an [option Q].  A string whose characters are taken apart
      is the list of its UTF-16 code units. *)

From Stdlib Require Import ZArith QArith Qminmax Qround Lqa String Ascii.
From stdpp Require Import base decidable option list sorting gmap strings.

Local Open Scope Z_scope.

(** ** Cards *)

Inductive Rank : Set :=
  | R2 | R3 | R4 | R5 | R6 | R7 | R8 | R9 | RT | RJ | RQ | RK | RA.

Inductive Suit : Set := Spades | Hearts | Diamonds | Clubs.

Record Card : Set := mkCard { card_rank : Rank; card_suit : Suit }.

Global Instance Rank_eq_dec : EqDecision Rank.
Proof. solve_decision. Defined.

Global Instance Suit_eq_dec : EqDecision Suit.
Proof. solve_decision. Defined.

Global Instance Card_eq_dec : EqDecision Card.
Proof. solve_decision. Defined.

(** [this.ranks] and [this.suits] of the constructor. *)
Definition ranks : list Rank :=
  [R2; R3; R4; R5; R6; R7; R8; R9; RT; RJ; RQ; RK; RA].

Definition suits : list Suit := [Spades; Hearts; Diamonds; Clubs].

(** [this.rankValues]. *)
Definition rankValues (r : Rank) : Z :=
  match r with
  | R2 => 2 | R3 => 3 | R4 => 4 | R5 => 5 | R6 => 6 | R7 => 7 | R8 => 8
  | R9 => 9 | RT => 10 | RJ => 11 | RQ => 12 | RK => 13 | RA => 14
  end.

(** ** Hand values *)

(** The object [evaluateHand] and [evaluateFiveCards] return.  The early
    return of [evaluateHand] carries no [kickers] property, every other
    return does: the field is optional. *)
Record HandValue : Set := mkHandValue {
  rank : Z;
  value : Z;
  description : string;
  kickers : option (list Z)
}.

Global Instance HandValue_eq_dec : EqDecision HandValue.
Proof. solve_decision. Defined.

(** The comparison every caller performs on two hand values: [rank] first,
    then [value]. *)
Definition compareHandValue (a b : HandValue) : comparison :=
  match rank a ?= rank b with
  | Eq => value a ?= value b
  | c => c
  end.

(** ** Array helpers *)

(** [arr.sort((a, b) => b - a)] on numbers. *)
Definition sortDesc (l : list Z) : list Z := merge_sort (flip Z.le) l.

Definition sortDescNat (l : list nat) : list nat := merge_sort (flip le) l.

(** [Math.max(...l)].  On an empty spread JavaScript answers [-Infinity];
    the evaluator only spreads the five ranks of a hand, and the texture
    analyser the gaps or suit counts of a board of at least three cards. *)
Definition Math_max (l : list Z) : Z :=
  match l with
  | [] => 0
  | x :: l' => foldl Z.max x l'
  end.

Definition Math_min (l : list Z) : Z :=
  match l with
  | [] => 0
  | x :: l' => foldl Z.min x l'
  end.

(** [l.reduce((acc, r, i) => acc + r * Math.pow(100, top - i), 0)].  The
    exponent stays non-negative as long as [l] has at most [top + 1]
    elements, which is the case at every call. *)
Definition reducePow100 (top : Z) (l : list Z) : Z :=
  foldl (λ acc ir, acc + ir.2 * 100 ^ (top - Z.of_nat ir.1)) 0
        (zip (seq 0 (length l)) l).

(** A number read out of [find] or out of an array index.  JavaScript
    yields [undefined] when there is none; the guards on [counts] make
    sure that a five-card hand never gets there (see [kickers_defined]). *)
Definition num (o : option Z) : Z := default 0 o.

(** ** The five-card classifier *)

(** [ranks.forEach(r => rankCounts[r] = (rankCounts[r] || 0) + 1)]. *)
Definition countRank (rankCounts : gmap Z nat) (r : Z) : gmap Z nat :=
  <[r := (default 0 (rankCounts !! r) + 1)%nat]> rankCounts.

Definition rankCountsOf (rs : list Z) : gmap Z nat := foldl countRank ∅ rs.

Definition isWheel (sortedRanks : list Z) : bool :=
  bool_decide (sortedRanks !! 0%nat = Some 14) &&
  bool_decide (sortedRanks !! 1%nat = Some 5) &&
  bool_decide (sortedRanks !! 2%nat = Some 4) &&
  bool_decide (sortedRanks !! 3%nat = Some 3) &&
  bool_decide (sortedRanks !! 4%nat = Some 2).

(** The loop of [checkStraight]: [rest] is the part of the array from
    index [i] on. *)
Fixpoint checkStraight_from (sortedRanks rest : list Z) : bool :=
  match rest with
  | a :: (b :: _) as rest' =>
      if bool_decide (a - b ≠ 1) then isWheel sortedRanks
      else checkStraight_from sortedRanks rest'
  | _ => true
  end.

Definition checkStraight (sortedRanks : list Z) : bool :=
  checkStraight_from sortedRanks sortedRanks.

(** [suits.every(s => s === suits[0])]. *)
Definition allSameSuit (ss : list Suit) : bool :=
  match ss with
  | [] => true
  | s0 :: _ => forallb (λ s, bool_decide (s = s0)) ss
  end.

(** The body of [evaluateFiveCards] after the first two [map]s: everything
    below depends on the cards only through their rank values and on
    whether they share a suit. *)
Definition classify (rs : list Z) (isFlush : bool) : HandValue :=
  let rankCounts := rankCountsOf rs in
  let counts := sortDescNat (map_to_list rankCounts).*2 in
  let uniqueRanks := sortDesc (map_to_list rankCounts).*1 in
  let has (n : nat) (r : Z) := bool_decide (rankCounts !! r = Some n) in
  let sortedRanks := sortDesc rs in
  let isStraight := checkStraight sortedRanks in
  if isFlush && isStraight then
    {| rank := 8;
       value := Math_max sortedRanks;
       description :=
         if bool_decide (sortedRanks !! 0%nat = Some 14)
         then "Royal Flush" else "Straight Flush";
       kickers := Some sortedRanks |}
  else if bool_decide (counts !! 0%nat = Some 4%nat) then
    let quad := num (find (has 4%nat) uniqueRanks) in
    let kicker := num (find (has 1%nat) uniqueRanks) in
    {| rank := 7;
       value := quad * 1000 + kicker;
       description := "Four of a Kind";
       kickers := Some [quad; kicker] |}
  else if bool_decide (counts !! 0%nat = Some 3%nat) &&
          bool_decide (counts !! 1%nat = Some 2%nat) then
    let trips := num (find (has 3%nat) uniqueRanks) in
    let pair := num (find (has 2%nat) uniqueRanks) in
    {| rank := 6;
       value := trips * 1000 + pair;
       description := "Full House";
       kickers := Some [trips; pair] |}
  else if isFlush then
    {| rank := 5;
       value := reducePow100 4 sortedRanks;
       description := "Flush";
       kickers := Some sortedRanks |}
  else if isStraight then
    {| rank := 4;
       value := Math_max sortedRanks;
       description := "Straight";
       kickers := Some sortedRanks |}
  else if bool_decide (counts !! 0%nat = Some 3%nat) then
    let trips := num (find (has 3%nat) uniqueRanks) in
    let ks := filter (λ r, has 1%nat r = true) uniqueRanks in
    {| rank := 3;
       value := trips * 10000 + num (ks !! 0%nat) * 100 + num (ks !! 1%nat);
       description := "Three of a Kind";
       kickers := Some (trips :: ks) |}
  else if bool_decide (counts !! 0%nat = Some 2%nat) &&
          bool_decide (counts !! 1%nat = Some 2%nat) then
    let pairs := sortDesc (filter (λ r, has 2%nat r = true) uniqueRanks) in
    let kicker := num (find (has 1%nat) uniqueRanks) in
    {| rank := 2;
       value := num (pairs !! 0%nat) * 10000 + num (pairs !! 1%nat) * 100
                + kicker;
       description := "Two Pair";
       kickers := Some (pairs ++ [kicker]) |}
  else if bool_decide (counts !! 0%nat = Some 2%nat) then
    let pair := num (find (has 2%nat) uniqueRanks) in
    let ks := filter (λ r, has 1%nat r = true) uniqueRanks in
    {| rank := 1;
       value := pair * 1000000 + reducePow100 2 ks;
       description := "One Pair";
       kickers := Some (pair :: ks) |}
  else
    {| rank := 0;
       value := reducePow100 4 sortedRanks;
       description := "High Card";
       kickers := Some sortedRanks |}.

Definition evaluateFiveCards (cards : list Card) : HandValue :=
  let rs := map (λ c, rankValues (card_rank c)) cards in
  let ss := map card_suit cards in
  classify rs (allSameSuit ss).

(** ** Best five of up to seven *)

(** [getCombinations(arr, size)].  The source is only ever called with
    [size = 5]; with [size = 0] on a non-empty array it would recurse on
    negative sizes without end, a case the model leaves empty. *)
Fixpoint getCombinations {A} (arr : list A) (size : nat) : list (list A) :=
  if decide (length arr < size)%nat then []
  else if decide (size = length arr) then [arr]
  else
    match size with
    | O => []
    | S O => map (λ item, [item]) arr
    | S size' =>
        flat_map
          (λ i, match arr !! i with
                | Some head =>
                    map (cons head) (getCombinations (drop (S i) arr) size')
                | None => []
                end)
          (seq 0 (S (length arr - size)))
    end.

(** The test of the loop of [evaluateHand]. *)
Definition beats (evaluation bestHand : HandValue) : bool :=
  bool_decide (rank bestHand < rank evaluation) ||
  (bool_decide (rank evaluation = rank bestHand) &&
   bool_decide (value bestHand < value evaluation)).

Definition keepBest (bestHand : HandValue) (combo : list Card) : HandValue :=
  let evaluation := evaluateFiveCards combo in
  if beats evaluation bestHand then evaluation else bestHand.

Definition evaluateHand (cards : list Card) : HandValue :=
  if decide (length cards < 5)%nat then
    {| rank := 0; value := 0; description := "High Card"; kickers := None |}
  else
    foldl keepBest
      {| rank := 0; value := 0; description := "High Card";
         kickers := Some [] |}
      (getCombinations cards 5).

(** * Strategies and grading results *)

(** A strategy object: action labels with their weights, in the order the
    properties were created ([Object.values], [Object.entries] and
    [for..in] enumerate string keys in that order).  A JavaScript object
    holds each key once: [isObject] says so of an association list. *)
Definition Strategy : Type := list (string * Q).

Definition isObject (strategy : Strategy) : Prop := NoDup strategy.*1.

(** [strategy[action]]: the value stored under the key, if any.  Only the
    object's own properties are looked at: an action label is never the
    name of a member inherited from [Object.prototype]. *)
Fixpoint getProp (strategy : Strategy) (action : string) : option Q :=
  match strategy with
  | [] => None
  | (k, w) :: rest => if String.eqb k action then Some w else getProp rest action
  end.

(** [x || 0]: [undefined] and [0] are both falsy. *)
Definition orZero (x : option Q) : Q :=
  match x with
  | Some w => if Qeq_bool w 0 then 0%Q else w
  | None => 0%Q
  end.

(** [Object.values(strategy).reduce((a, b) => a + b, 0)]. *)
Definition totalWeight (strategy : Strategy) : Q :=
  foldl Qplus 0%Q strategy.*2.

(** [arr.sort((a, b) => b[1] - a[1])] on entries: a stable sort by
    decreasing weight.  The entry [x], which stood before all of [sorted]
    in the input, stays in front of the entries that weigh the same. *)
Fixpoint insertEntry (x : string * Q) (sorted : list (string * Q))
  : list (string * Q) :=
  match sorted with
  | [] => [x]
  | y :: rest =>
      if Qle_bool y.2 x.2 then x :: y :: rest else y :: insertEntry x rest
  end.

Definition sortEntries (entries : list (string * Q)) : list (string * Q) :=
  foldr insertEntry [] entries.

(** How a call ends: with a value, or with an exception thrown. *)
Inductive completion (A : Type) : Type :=
  | Returned (a : A)
  | Thrown (error : string).
Arguments Returned {A} a.
Arguments Thrown {A} error.

(** The five feedback categories, ['best'] to ['blunder']. *)
Inductive Category : Set := Best | Correct | Inaccuracy | Wrong | Blunder.

(** ** PokerEngine, continued *)

(** The strings of [this.ranks]: the [rank] property of a card. *)
Definition rankSymbol (r : Rank) : string :=
  match r with
  | R2 => "2" | R3 => "3" | R4 => "4" | R5 => "5" | R6 => "6" | R7 => "7"
  | R8 => "8" | R9 => "9" | RT => "T" | RJ => "J" | RQ => "Q" | RK => "K"
  | RA => "A"
  end.

(** [createDeck()]: suits in the outer loop, ranks in the inner one. *)
Definition createDeck : list Card :=
  flat_map (λ suit, map (λ rank, mkCard rank suit) ranks) suits.

(** [used.rank === card.rank && used.suit === card.suit]. *)
Definition sameCard (used card : Card) : bool :=
  bool_decide (card_rank used = card_rank card) &&
  bool_decide (card_suit used = card_suit card).

(** [deck.filter(card => !usedCards.some(used => ...))]. *)
Definition withoutCards (usedCards deck : list Card) : list Card :=
  filter (λ card, existsb (λ used, sameCard used card) usedCards = false) deck.

(** [compareHands(hand1, hand2)]: the comparator used to sort two-card
    hands, higher hands first.  Reading [.rank] of a missing card throws. *)
Definition compareHands (hand1 hand2 : list Card) : completion Z :=
  match hand1 !! 0%nat, hand1 !! 1%nat, hand2 !! 0%nat, hand2 !! 1%nat with
  | Some a0, Some a1, Some b0, Some b1 =>
      let r1 := Z.max (rankValues (card_rank a0)) (rankValues (card_rank a1)) in
      let r2 := Z.min (rankValues (card_rank a0)) (rankValues (card_rank a1)) in
      let r3 := Z.max (rankValues (card_rank b0)) (rankValues (card_rank b1)) in
      let r4 := Z.min (rankValues (card_rank b0)) (rankValues (card_rank b1)) in
      Returned (if bool_decide (r1 ≠ r3) then r3 - r1 else r4 - r2)
  | _, _, _, _ => Thrown "TypeError"
  end.

(** [this.ranks[v - 2]] inside a template literal: a negative or too large
    index reads [undefined]. *)
Definition rankAt (v : Z) : string :=
  if bool_decide (v - 2 < 0) then "undefined"
  else match ranks !! Z.to_nat (v - 2) with
       | Some r => rankSymbol r
       | None => "undefined"
       end.

(** [getHandCategory(cards)] of the engine: "AA", "AKs", "AKo".  The suits
    of [cards[0]] and [cards[1]] are read first, which throws when one of
    them is missing. *)
Definition getHandCategory (cards : list Card) : completion string :=
  let rs := sortDesc (map (λ c, rankValues (card_rank c)) cards) in
  match cards !! 0%nat, cards !! 1%nat with
  | Some c0, Some c1 =>
      let suited := bool_decide (card_suit c0 = card_suit c1) in
      if bool_decide (rs !! 0%nat = rs !! 1%nat) then
        Returned (String.append (rankSymbol (card_rank c0))
                                (rankSymbol (card_rank c0)))
      else
        let highCard := rankAt (num (rs !! 0%nat)) in
        let lowCard := rankAt (num (rs !! 1%nat)) in
        Returned (String.append highCard
                    (String.append lowCard (if suited then "s" else "o")))
  | _, _ => Thrown "TypeError"
  end.

(** [calculateHandStrength(heroCards, board)].  Without hero cards the
    average is [0 / 0], and the [NaN] goes through [Math.min] and
    [Math.max]: [None]. *)
Definition calculateHandStrength (heroCards board : list Card) : option Q :=
  let handEval := evaluateHand (heroCards ++ board) in
  let strength := (inject_Z (rank handEval) / 8)%Q in
  let heroRanks := map (λ c, rankValues (card_rank c)) heroCards in
  if bool_decide (length heroRanks = 0%nat) then None
  else
    let avgHeroRank :=
      (inject_Z (foldl Z.add 0%Z heroRanks)
       / inject_Z (Z.of_nat (length heroRanks)))%Q in
    let strength := (strength + (avgHeroRank - 7.5) / 100)%Q in
    Some (Qmax 0 (Qmin 1 strength))%Q.

(** [calculateDrawStrength(heroCards, board)]: the share of the unseen
    cards that improve the hand.  With no unseen card left the quotient is
    [0 / 0]: [None]. *)
Definition calculateDrawStrength (heroCards board : list Card) : option Q :=
  if bool_decide (5 ≤ length board)%nat then Some 0%Q
  else
    let deck := createDeck in
    let usedCards := heroCards ++ board in
    let remainingDeck := withoutCards usedCards deck in
    let currentEval := evaluateHand (heroCards ++ board) in
    let outs :=
      length (filter (λ card,
                beats (evaluateHand (heroCards ++ (board ++ [card])))
                      currentEval = true) remainingDeck) in
    let totalRemaining := length remainingDeck in
    if bool_decide (totalRemaining = 0%nat) then None
    else Some (inject_Z (Z.of_nat outs)
               / inject_Z (Z.of_nat totalRemaining))%Q.

(** [arr.sort((a, b) => a - b)] on numbers. *)
Definition sortAsc (l : list Z) : list Z := merge_sort Z.le l.

(** The object [analyzeBoardTexture] returns.  The early return for fewer
    than three cards has a [flush] property and neither [flushDraw] nor
    [highCards]; the regular return has it the other way round. *)
Module Texture.
Record t : Type := mk {
  wetness : Q;
  connected : bool;
  paired : bool;
  flush : option bool;
  flushDraw : option bool;
  highCards : option nat
}.
End Texture.

(** [suits.forEach(s => suitCounts[s] = (suitCounts[s] || 0) + 1)]. *)
Fixpoint tallySuit (suitCounts : list (Suit * nat)) (s : Suit)
  : list (Suit * nat) :=
  match suitCounts with
  | [] => [(s, 1%nat)]
  | (k, n) :: rest =>
      if decide (k = s) then (k, (n + 1)%nat) :: rest
      else (k, n) :: tallySuit rest s
  end.

(** The loop [maxGap = Math.max(maxGap, ranks[i] - ranks[i - 1])]. *)
Fixpoint maxGapFrom (maxGap : Z) (ranks : list Z) : Z :=
  match ranks with
  | a :: (b :: _) as rest => maxGapFrom (Z.max maxGap (b - a)) rest
  | _ => maxGap
  end.

(** [analyzeBoardTexture(board)] of the engine. *)
Definition analyzeBoardTexture (board : list Card) : Texture.t :=
  if bool_decide (length board < 3)%nat then
    {| Texture.wetness := 0.5%Q; Texture.connected := false;
       Texture.paired := false; Texture.flush := Some false;
       Texture.flushDraw := None; Texture.highCards := None |}
  else
    let ranks := sortAsc (map (λ c, rankValues (card_rank c)) board) in
    let suits := map card_suit board in
    let rankCounts := rankCountsOf ranks in
    let paired :=
      existsb (λ count, bool_decide (2 ≤ count)%nat)
              (map_to_list rankCounts).*2 in
    let suitCounts := foldl tallySuit [] suits in
    let flushDraw :=
      existsb (λ count, bool_decide (3 ≤ count)%nat) suitCounts.*2 in
    let maxGap := maxGapFrom 0 ranks in
    let connected := bool_decide (maxGap ≤ 3) in
    let wetness := 0.3%Q in
    let wetness := if flushDraw then (wetness + 0.2)%Q else wetness in
    let wetness := if connected then (wetness + 0.2)%Q else wetness in
    let wetness := if paired then (wetness + 0.15)%Q else wetness in
    let wetness :=
      if bool_decide (11 ≤ num (last ranks)) then (wetness + 0.15)%Q
      else wetness in
    {| Texture.wetness := Qmin 1%Q wetness;
       Texture.connected := connected;
       Texture.paired := paired;
       Texture.flush := None;
       Texture.flushDraw := Some flushDraw;
       Texture.highCards := Some (length (filter (λ r, 11 ≤ r) ranks)) |}.

(** ** Cards as text *)

(** A JavaScript string: the sequence of its UTF-16 code units. *)
Definition JsString : Type := list N.

(** The one-character strings of the ranks, ['2'] to ['A'], and of the
    suits, ['♠'], ['♥'], ['♦'] and ['♣']: one code unit each. *)
Definition rankUnit (r : Rank) : N :=
  match r with
  | R2 => 50 | R3 => 51 | R4 => 52 | R5 => 53 | R6 => 54 | R7 => 55
  | R8 => 56 | R9 => 57 | RT => 84 | RJ => 74 | RQ => 81 | RK => 75
  | RA => 65
  end%N.

Definition suitUnit (s : Suit) : N :=
  match s with
  | Spades => 9824 | Hearts => 9829 | Diamonds => 9830 | Clubs => 9827
  end%N.

(** A card as the text functions build it: [rank] and [suit] are
    one-character strings, or [undefined]. *)
Record TextCard : Set := mkTextCard {
  textRank : option N;
  textSuit : option N
}.

Definition toText (card : Card) : TextCard :=
  {| textRank := Some (rankUnit (card_rank card));
     textSuit := Some (suitUnit (card_suit card)) |}.

Definition cardToString (card : Card) : JsString :=
  [rankUnit (card_rank card); suitUnit (card_suit card)].

Definition stringToCard (str : JsString) : TextCard :=
  {| textRank := str !! 0%nat; textSuit := str !! 1%nat |}.

(** [suitChar.toLowerCase()] on a one-character string, as far as the
    [switch] of [parseHand] can tell: the letters A to Z are lowered; no
    other character is lowered to one of h, d, c and s. *)
Definition toLowerCase (c : N) : N :=
  if bool_decide (65 ≤ c ≤ 90)%N then (c + 32)%N else c.

(** [parseHand(handStr)].  A string of odd length ends the loop by reading
    [toLowerCase] of [undefined]. *)
Fixpoint parseHand (handStr : JsString) : completion (list TextCard) :=
  match handStr with
  | [] => Returned []
  | [rank] => Thrown "TypeError"
  | rank :: suitChar :: rest =>
      let suit :=
        let lowered := toLowerCase suitChar in
        if bool_decide (lowered = 104%N) then suitUnit Hearts
        else if bool_decide (lowered = 100%N) then suitUnit Diamonds
        else if bool_decide (lowered = 99%N) then suitUnit Clubs
        else if bool_decide (lowered = 115%N) then suitUnit Spades
        else suitChar in
      match parseHand rest with
      | Returned cards =>
          Returned ({| textRank := Some rank; textSuit := Some suit |}
                    :: cards)
      | Thrown error => Thrown error
      end
  end.

(** ** Random numbers and positions *)

(** The results of the successive calls of [Math.random()] are read off a
    list.  Each is a number that is at least 0 and less than 1: the answer
    is [None] when the list is used up or when its head is no such
    number. *)
Definition Math_random (randoms : list Q) : option (Q * list Q) :=
  match randoms with
  | u :: rest =>
      if Qle_bool 0 u && negb (Qle_bool 1 u) then Some (u, rest) else None
  | [] => None
  end.

(** [Math.floor(u * n)] as an array index; [None] when it is negative. *)
Definition randomIndex (u : Q) (n : nat) : option nat :=
  let i := Qfloor (u * inject_Z (Z.of_nat n)) in
  if bool_decide (i < 0) then None else Some (Z.to_nat i).

(** [positions.indexOf(p)], counting from [i]. *)
Fixpoint indexOf (i : Z) (positions : list string) (p : string) : Z :=
  match positions with
  | [] => (-1)%Z
  | q :: rest => if String.eqb q p then i else indexOf (i + 1)%Z rest p
  end.

(** ** PreflopRanges *)

(** [stableSort le l]: [arr.sort(compare)], a stable sort, for a comparator
    with [le a b] standing for [compare(a, b) <= 0]. *)
Fixpoint insertBy {A} (le : A → A → bool) (x : A) (sorted : list A) : list A :=
  match sorted with
  | [] => [x]
  | y :: rest => if le x y then x :: y :: rest else y :: insertBy le x rest
  end.

Definition stableSort {A} (le : A → A → bool) (l : list A) : list A :=
  foldr (insertBy le) [] l.

Module PreflopRanges.

(** A card as this class handles it: the [rank] is whatever one-character
    string was copied out of a category ([None] for [undefined], what
    indexing past the end of a string gives); the suits are the four of the
    local array of [getCategoryHands]. *)
Record RawCard : Set := mkRaw { rank : option ascii; suit : Suit }.

Global Instance RawCard_eq_dec : EqDecision RawCard.
Proof. solve_decision. Defined.

(** A card of the engine, seen by this class. *)
Definition rankChar (r : Rank) : ascii :=
  match r with
  | R2 => "2" | R3 => "3" | R4 => "4" | R5 => "5" | R6 => "6" | R7 => "7"
  | R8 => "8" | R9 => "9" | RT => "T" | RJ => "J" | RQ => "Q" | RK => "K"
  | RA => "A"
  end%char.

Definition ofCard (c : Card) : RawCard :=
  {| rank := Some (rankChar (card_rank c)); suit := card_suit c |}.

(** A rank inside a template literal. *)
Definition rankText (r : option ascii) : string :=
  match r with
  | Some ch => String ch EmptyString
  | None => "undefined"
  end.

(** ['23456789TJQKA'.indexOf(a)]: the position of the character, -1 when
    it does not occur; [undefined] is looked for as the text "undefined",
    which does not occur. *)
Fixpoint indexFrom (i : Z) (s : string) (ch : ascii) : Z :=
  match s with
  | EmptyString => -1
  | String ch' s' => if Ascii.eqb ch' ch then i else indexFrom (i + 1) s' ch
  end.

Definition rankIndex (a : option ascii) : Z :=
  match a with
  | Some ch => indexFrom 0 "23456789TJQKA" ch
  | None => -1
  end.

(** [arr.sort((a, b) => valB - valA)].  [sort] moves the [undefined]
    elements to the end without asking the comparator. *)
Definition sortRanks (rs : list (option ascii)) : list (option ascii) :=
  stableSort (λ a b, bool_decide (rankIndex b - rankIndex a ≤ 0))
             (filter (λ r, is_Some r) rs)
  ++ filter (λ r, r = None) rs.

(** [getHandCategory(cards)]. *)
Definition getHandCategory (cards : list RawCard) : completion string :=
  let ranks := sortRanks (map rank cards) in
  match cards !! 0%nat, cards !! 1%nat with
  | Some c0, Some c1 =>
      let suited := bool_decide (suit c0 = suit c1) in
      let r0 := mjoin (ranks !! 0%nat) in
      let r1 := mjoin (ranks !! 1%nat) in
      if bool_decide (r0 = r1) then
        Returned (String.append (rankText r0) (rankText r0))
      else
        Returned (String.append (rankText r0)
                    (String.append (rankText r1)
                                   (if suited then "s" else "o")))
  | _, _ => Thrown "TypeError"
  end.


(** The two nested loops [for i ... for j = i + 1 ...]. *)
Fixpoint suitPairs (ss : list Suit) : list (Suit * Suit) :=
  match ss with
  | [] => []
  | s :: rest => map (λ s', (s, s')) rest ++ suitPairs rest
  end.

(** [getCategoryHands(category)]. *)
Definition getCategoryHands (category : string) : list (list RawCard) :=
  let suits := [Spades; Hearts; Diamonds; Clubs] in
  if bool_decide (String.length category = 2%nat) then
    let rank := String.get 0 category in
    map (λ p, [mkRaw rank p.1; mkRaw rank p.2]) (suitPairs suits)
  else
    let rank1 := String.get 0 category in
    let rank2 := String.get 1 category in
    let suited := bool_decide (String.get 2 category = Some "s"%char) in
    if suited then
      map (λ suit, [mkRaw rank1 suit; mkRaw rank2 suit]) suits
    else
      flat_map (λ suit1,
        flat_map (λ suit2,
          if bool_decide (suit1 ≠ suit2)
          then [[mkRaw rank1 suit1; mkRaw rank2 suit2]] else [])
          suits) suits.

(** [getAllHandsFromRange(range)]. *)
Definition getAllHandsFromRange (range : list string) : list (list RawCard) :=
  flat_map getCategoryHands range.

(** [hand.some(card => excludeCards.some(excluded => ...))]. *)
Definition blocked (excludeCards hand : list RawCard) : bool :=
  existsb (λ card,
    existsb (λ excluded,
      bool_decide (rank excluded = rank card) &&
      bool_decide (suit excluded = suit card)) excludeCards) hand.

(** What [getRandomHandFromRange] returns: [null], a hand, or the
    [undefined] of an array read past its end. *)
Inductive Pick : Set :=
  | null
  | undefined
  | picked (hand : list RawCard).

(** [getRandomHandFromRange(range, excludeCards)], reading the results of
    its calls of [Math.random()] off [randoms] and returning those it did
    not use.  A category read past the end of [availableHands] is
    [undefined], whose [length] cannot be read. *)
Definition getRandomHandFromRange (range : list string)
    (excludeCards : list RawCard) (randoms : list Q)
  : option (completion Pick * list Q) :=
  let availableHands :=
    filter (λ category,
      existsb (λ hand, negb (blocked excludeCards hand))
              (getCategoryHands category) = true) range in
  if bool_decide (length availableHands = 0%nat)
  then Some (Returned null, randoms)
  else
    '(u1, randoms) ← Math_random randoms;
    match randomIndex u1 (length availableHands) ≫= (availableHands !!.) with
    | None => Some (Thrown "TypeError", randoms)
    | Some randomCategory =>
        let hands := getCategoryHands randomCategory in
        let validHands :=
          filter (λ hand, blocked excludeCards hand = false) hands in
        if bool_decide (length validHands = 0%nat)
        then Some (Returned null, randoms)
        else
          '(u2, randoms) ← Math_random randoms;
          match randomIndex u2 (length validHands) ≫= (validHands !!.) with
          | None => Some (Returned undefined, randoms)
          | Some hand => Some (Returned (picked hand), randoms)
          end
    end.

(** The tables of the constructor that [getRange] reads. *)
Definition openingRanges : list (string * list string) :=
  [("UTG",
    ["AA"; "KK"; "QQ"; "JJ"; "TT"; "99"; "88"; "77"; "66"; "55"; "AKs";
     "AQs"; "AJs"; "ATs"; "KQs"; "KJs"; "KTs"; "QJs"; "QTs"; "JTs"; "T9s";
     "98s"; "87s"; "76s"; "65s"; "A9s"; "A8s"; "A5s"; "A4s"; "A3s"; "A2s";
     "AKo"; "AQo"; "AJo"; "KQo"]);
   ("HJ",
    ["AA"; "KK"; "QQ"; "JJ"; "TT"; "99"; "88"; "77"; "66"; "55"; "44"; "33";
     "22"; "AKs"; "AQs"; "AJs"; "ATs"; "A9s"; "A8s"; "A7s"; "A6s"; "A5s";
     "A4s"; "A3s"; "A2s"; "KQs"; "KJs"; "KTs"; "K9s"; "QJs"; "QTs"; "Q9s";
     "JTs"; "J9s"; "T9s"; "T8s"; "98s"; "87s"; "76s"; "65s"; "54s"; "AKo";
     "AQo"; "AJo"; "ATo"; "KQo"; "KJo"; "QJo"]);
   ("CO",
    ["AA"; "KK"; "QQ"; "JJ"; "TT"; "99"; "88"; "77"; "66"; "55"; "44"; "33";
     "22"; "AKs"; "AQs"; "AJs"; "ATs"; "A9s"; "A8s"; "A7s"; "A6s"; "A5s";
     "A4s"; "A3s"; "A2s"; "KQs"; "KJs"; "KTs"; "K9s"; "K8s"; "K7s"; "K6s";
     "K5s"; "K4s"; "K3s"; "K2s"; "QJs"; "QTs"; "Q9s"; "Q8s"; "JTs"; "J9s";
     "J8s"; "T9s"; "T8s"; "T7s"; "98s"; "97s"; "87s"; "86s"; "76s"; "75s";
     "65s"; "64s"; "54s"; "53s"; "AKo"; "AQo"; "AJo"; "ATo"; "A9o"; "KQo";
     "KJo"; "KTo"; "QJo"; "QTo"; "JTo"]);
   ("BTN",
    ["AA"; "KK"; "QQ"; "JJ"; "TT"; "99"; "88"; "77"; "66"; "55"; "44"; "33";
     "22"; "AKs"; "AQs"; "AJs"; "ATs"; "A9s"; "A8s"; "A7s"; "A6s"; "A5s";
     "A4s"; "A3s"; "A2s"; "KQs"; "KJs"; "KTs"; "K9s"; "K8s"; "K7s"; "K6s";
     "K5s"; "K4s"; "K3s"; "K2s"; "QJs"; "QTs"; "Q9s"; "Q8s"; "Q7s"; "Q6s";
     "Q5s"; "Q4s"; "Q3s"; "Q2s"; "JTs"; "J9s"; "J8s"; "J7s"; "J6s"; "T9s";
     "T8s"; "T7s"; "T6s"; "98s"; "97s"; "96s"; "87s"; "86s"; "85s"; "76s";
     "75s"; "74s"; "65s"; "64s"; "54s"; "53s"; "AKo"; "AQo"; "AJo"; "ATo";
     "A9o"; "A8o"; "A7o"; "A6o"; "A5o"; "KQo"; "KJo"; "KTo"; "K9o"; "QJo";
     "QTo"; "Q9o"; "JTo"; "J9o"; "T9o"; "T8o"; "98o"]);
   ("SB",
    ["AA"; "KK"; "QQ"; "JJ"; "TT"; "99"; "88"; "77"; "66"; "55"; "44"; "33";
     "22"; "AKs"; "AQs"; "AJs"; "ATs"; "A9s"; "A8s"; "A7s"; "A6s"; "A5s";
     "A4s"; "A3s"; "A2s"; "KQs"; "KJs"; "KTs"; "K9s"; "K8s"; "K7s"; "K6s";
     "K5s"; "K4s"; "K3s"; "K2s"; "QJs"; "QTs"; "Q9s"; "Q8s"; "Q7s"; "Q6s";
     "Q5s"; "Q4s"; "JTs"; "J9s"; "J8s"; "J7s"; "T9s"; "T8s"; "T7s"; "98s";
     "97s"; "87s"; "86s"; "76s"; "75s"; "65s"; "54s"; "AKo"; "AQo"; "AJo";
     "ATo"; "A9o"; "A8o"; "A7o"; "A6o"; "A5o"; "A4o"; "KQo"; "KJo"; "KTo";
     "K9o"; "K8o"; "QJo"; "QTo"; "Q9o"; "JTo"; "J9o"; "T9o"; "T8o"; "98o";
     "87o"])].

Definition callingRangesIP : list (string * list string) :=
  [("HJ_vs_UTG",
    ["AA"; "KK"; "QQ"; "JJ"; "TT"; "99"; "88"; "77"; "66"; "55"; "44"; "33";
     "22"; "AQs"; "AJs"; "ATs"; "A9s"; "A8s"; "A7s"; "A6s"; "A5s"; "A4s";
     "A3s"; "A2s"; "KQs"; "KJs"; "KTs"; "QJs"; "QTs"; "JTs"; "T9s"; "98s";
     "87s"; "76s"; "65s"; "54s"; "AJo"; "ATo"; "KQo"]);
   ("CO_vs_UTG",
    ["AA"; "KK"; "QQ"; "JJ"; "TT"; "99"; "88"; "77"; "66"; "55"; "44"; "33";
     "22"; "AQs"; "AJs"; "ATs"; "A9s"; "A8s"; "A7s"; "A6s"; "A5s"; "A4s";
     "A3s"; "A2s"; "KQs"; "KJs"; "KTs"; "K9s"; "QJs"; "QTs"; "Q9s"; "JTs";
     "J9s"; "T9s"; "T8s"; "98s"; "87s"; "76s"; "65s"; "54s"; "AJo"; "ATo";
     "KQo"; "KJo"]);
   ("CO_vs_HJ",
    ["AA"; "KK"; "QQ"; "JJ"; "TT"; "99"; "88"; "77"; "66"; "55"; "44"; "33";
     "22"; "AQs"; "AJs"; "ATs"; "A9s"; "A8s"; "A7s"; "A6s"; "A5s"; "A4s";
     "A3s"; "A2s"; "KQs"; "KJs"; "KTs"; "K9s"; "K8s"; "QJs"; "QTs"; "Q9s";
     "JTs"; "J9s"; "T9s"; "T8s"; "98s"; "87s"; "76s"; "65s"; "54s"; "53s";
     "AJo"; "ATo"; "A9o"; "KQo"; "KJo"; "QJo"]);
   ("BTN_vs_UTG",
    ["AA"; "KK"; "QQ"; "JJ"; "TT"; "99"; "88"; "77"; "66"; "55"; "44"; "33";
     "22"; "AQs"; "AJs"; "ATs"; "A9s"; "A8s"; "A7s"; "A6s"; "A5s"; "A4s";
     "A3s"; "A2s"; "KQs"; "KJs"; "KTs"; "K9s"; "K8s"; "QJs"; "QTs"; "Q9s";
     "JTs"; "J9s"; "T9s"; "T8s"; "T7s"; "98s"; "97s"; "87s"; "86s"; "76s";
     "75s"; "65s"; "64s"; "54s"; "53s"; "AJo"; "ATo"; "A9o"; "KQo"; "KJo";
     "QJo"]);
   ("BTN_vs_HJ",
    ["AA"; "KK"; "QQ"; "JJ"; "TT"; "99"; "88"; "77"; "66"; "55"; "44"; "33";
     "22"; "AQs"; "AJs"; "ATs"; "A9s"; "A8s"; "A7s"; "A6s"; "A5s"; "A4s";
     "A3s"; "A2s"; "KQs"; "KJs"; "KTs"; "K9s"; "K8s"; "K7s"; "QJs"; "QTs";
     "Q9s"; "Q8s"; "JTs"; "J9s"; "J8s"; "T9s"; "T8s"; "T7s"; "98s"; "97s";
     "87s"; "86s"; "76s"; "75s"; "65s"; "64s"; "54s"; "53s"; "AJo"; "ATo";
     "A9o"; "A8o"; "KQo"; "KJo"; "KTo"; "QJo"; "QTo"; "JTo"]);
   ("BTN_vs_CO",
    ["AA"; "KK"; "QQ"; "JJ"; "TT"; "99"; "88"; "77"; "66"; "55"; "44"; "33";
     "22"; "AQs"; "AJs"; "ATs"; "A9s"; "A8s"; "A7s"; "A6s"; "A5s"; "A4s";
     "A3s"; "A2s"; "KQs"; "KJs"; "KTs"; "K9s"; "K8s"; "K7s"; "K6s"; "QJs";
     "QTs"; "Q9s"; "Q8s"; "Q7s"; "JTs"; "J9s"; "J8s"; "J7s"; "T9s"; "T8s";
     "T7s"; "98s"; "97s"; "96s"; "87s"; "86s"; "76s"; "75s"; "65s"; "64s";
     "54s"; "53s"; "AJo"; "ATo"; "A9o"; "A8o"; "A7o"; "KQo"; "KJo"; "KTo";
     "K9o"; "QJo"; "QTo"; "Q9o"; "JTo"; "J9o"; "T9o"])].

Definition callingRangesOOP : list (string * list string) :=
  [("BB_vs_UTG",
    ["AA"; "KK"; "QQ"; "JJ"; "TT"; "99"; "88"; "77"; "66"; "55"; "44"; "33";
     "22"; "AQs"; "AJs"; "ATs"; "A9s"; "A8s"; "A7s"; "A6s"; "A5s"; "A4s";
     "A3s"; "A2s"; "KQs"; "KJs"; "KTs"; "K9s"; "QJs"; "QTs"; "Q9s"; "JTs";
     "J9s"; "T9s"; "T8s"; "98s"; "87s"; "76s"; "65s"; "54s"; "AJo"; "ATo";
     "KQo"]);
   ("BB_vs_HJ",
    ["AA"; "KK"; "QQ"; "JJ"; "TT"; "99"; "88"; "77"; "66"; "55"; "44"; "33";
     "22"; "AQs"; "AJs"; "ATs"; "A9s"; "A8s"; "A7s"; "A6s"; "A5s"; "A4s";
     "A3s"; "A2s"; "KQs"; "KJs"; "KTs"; "K9s"; "K8s"; "QJs"; "QTs"; "Q9s";
     "Q8s"; "JTs"; "J9s"; "J8s"; "T9s"; "T8s"; "T7s"; "98s"; "97s"; "87s";
     "86s"; "76s"; "75s"; "65s"; "64s"; "54s"; "AJo"; "ATo"; "A9o"; "KQo";
     "KJo"; "QJo"]);
   ("BB_vs_CO",
    ["AA"; "KK"; "QQ"; "JJ"; "TT"; "99"; "88"; "77"; "66"; "55"; "44"; "33";
     "22"; "AQs"; "AJs"; "ATs"; "A9s"; "A8s"; "A7s"; "A6s"; "A5s"; "A4s";
     "A3s"; "A2s"; "KQs"; "KJs"; "KTs"; "K9s"; "K8s"; "K7s"; "QJs"; "QTs";
     "Q9s"; "Q8s"; "Q7s"; "JTs"; "J9s"; "J8s"; "J7s"; "T9s"; "T8s"; "T7s";
     "98s"; "97s"; "87s"; "86s"; "76s"; "75s"; "65s"; "64s"; "54s"; "53s";
     "AJo"; "ATo"; "A9o"; "A8o"; "KQo"; "KJo"; "KTo"; "QJo"; "QTo"; "JTo"]);
   ("BB_vs_BTN",
    ["AA"; "KK"; "QQ"; "JJ"; "TT"; "99"; "88"; "77"; "66"; "55"; "44"; "33";
     "22"; "AQs"; "AJs"; "ATs"; "A9s"; "A8s"; "A7s"; "A6s"; "A5s"; "A4s";
     "A3s"; "A2s"; "KQs"; "KJs"; "KTs"; "K9s"; "K8s"; "K7s"; "K6s"; "K5s";
     "K4s"; "K3s"; "K2s"; "QJs"; "QTs"; "Q9s"; "Q8s"; "Q7s"; "Q6s"; "Q5s";
     "JTs"; "J9s"; "J8s"; "J7s"; "J6s"; "T9s"; "T8s"; "T7s"; "T6s"; "98s";
     "97s"; "96s"; "87s"; "86s"; "85s"; "76s"; "75s"; "74s"; "65s"; "64s";
     "54s"; "53s"; "43s"; "AJo"; "ATo"; "A9o"; "A8o"; "A7o"; "A6o"; "A5o";
     "A4o"; "KQo"; "KJo"; "KTo"; "K9o"; "K8o"; "QJo"; "QTo"; "Q9o"; "JTo";
     "J9o"; "T9o"; "T8o"; "98o"; "87o"; "76o"]);
   ("BB_vs_SB",
    ["AA"; "KK"; "QQ"; "JJ"; "TT"; "99"; "88"; "77"; "66"; "55"; "44"; "33";
     "22"; "AKs"; "AQs"; "AJs"; "ATs"; "A9s"; "A8s"; "A7s"; "A6s"; "A5s";
     "A4s"; "A3s"; "A2s"; "KQs"; "KJs"; "KTs"; "K9s"; "K8s"; "K7s"; "K6s";
     "K5s"; "K4s"; "K3s"; "K2s"; "QJs"; "QTs"; "Q9s"; "Q8s"; "Q7s"; "Q6s";
     "Q5s"; "Q4s"; "Q3s"; "Q2s"; "JTs"; "J9s"; "J8s"; "J7s"; "J6s"; "J5s";
     "T9s"; "T8s"; "T7s"; "T6s"; "T5s"; "98s"; "97s"; "96s"; "95s"; "87s";
     "86s"; "85s"; "76s"; "75s"; "74s"; "65s"; "64s"; "63s"; "54s"; "53s";
     "52s"; "43s"; "42s"; "32s"; "AKo"; "AQo"; "AJo"; "ATo"; "A9o"; "A8o";
     "A7o"; "A6o"; "A5o"; "A4o"; "A3o"; "A2o"; "KQo"; "KJo"; "KTo"; "K9o";
     "K8o"; "K7o"; "K6o"; "QJo"; "QTo"; "Q9o"; "Q8o"; "JTo"; "J9o"; "J8o";
     "T9o"; "T8o"; "98o"; "87o"; "76o"; "65o"])].

Definition threeBetRanges : list (string * list string) :=
  [("BB_vs_BTN",
    ["AA"; "KK"; "QQ"; "JJ"; "TT"; "99"; "88"; "77"; "AKs"; "AQs"; "AJs";
     "ATs"; "A9s"; "A8s"; "A7s"; "A6s"; "A5s"; "A4s"; "A3s"; "A2s"; "KQs";
     "KJs"; "KTs"; "K9s"; "QJs"; "QTs"; "JTs"; "J9s"; "T9s"; "98s"; "87s";
     "76s"; "AKo"; "AQo"; "AJo"; "ATo"; "KQo"]);
   ("BB_vs_SB",
    ["AA"; "KK"; "QQ"; "JJ"; "TT"; "99"; "88"; "77"; "66"; "55"; "AKs";
     "AQs"; "AJs"; "ATs"; "A9s"; "A8s"; "A7s"; "A6s"; "A5s"; "A4s"; "A3s";
     "A2s"; "KQs"; "KJs"; "KTs"; "K9s"; "K8s"; "QJs"; "QTs"; "Q9s"; "JTs";
     "J9s"; "T9s"; "T8s"; "98s"; "87s"; "76s"; "65s"; "AKo"; "AQo"; "AJo";
     "ATo"; "A9o"; "KQo"; "KJo"]);
   ("BB_vs_CO",
    ["AA"; "KK"; "QQ"; "JJ"; "TT"; "99"; "88"; "AKs"; "AQs"; "AJs"; "ATs";
     "A9s"; "A5s"; "A4s"; "A3s"; "A2s"; "KQs"; "KJs"; "KTs"; "QJs"; "JTs";
     "AKo"; "AQo"; "AJo"; "KQo"]);
   ("BB_vs_HJ",
    ["AA"; "KK"; "QQ"; "JJ"; "TT"; "99"; "AKs"; "AQs"; "AJs"; "ATs"; "A5s";
     "A4s"; "KQs"; "KJs"; "QJs"; "AKo"; "AQo"; "AJo"]);
   ("BB_vs_UTG",
    ["AA"; "KK"; "QQ"; "JJ"; "TT"; "AKs"; "AQs"; "AJs"; "A5s"; "A4s"; "KQs";
     "QJs"; "AKo"; "AQo"]);
   ("SB_vs_BTN",
    ["AA"; "KK"; "QQ"; "JJ"; "TT"; "99"; "88"; "AKs"; "AQs"; "AJs"; "ATs";
     "A9s"; "A5s"; "A4s"; "A3s"; "A2s"; "KQs"; "KJs"; "KTs"; "QJs"; "JTs";
     "AKo"; "AQo"; "AJo"; "KQo"]);
   ("SB_vs_CO",
    ["AA"; "KK"; "QQ"; "JJ"; "TT"; "99"; "AKs"; "AQs"; "AJs"; "ATs"; "A5s";
     "A4s"; "KQs"; "KJs"; "QJs"; "AKo"; "AQo"; "AJo"]);
   ("BTN_vs_CO",
    ["AA"; "KK"; "QQ"; "JJ"; "TT"; "99"; "88"; "77"; "66"; "AKs"; "AQs";
     "AJs"; "ATs"; "A9s"; "A8s"; "A7s"; "A6s"; "A5s"; "A4s"; "A3s"; "A2s";
     "KQs"; "KJs"; "KTs"; "K9s"; "QJs"; "QTs"; "JTs"; "J9s"; "T9s"; "98s";
     "87s"; "76s"; "65s"; "AKo"; "AQo"; "AJo"; "ATo"; "KQo"; "KJo"]);
   ("BTN_vs_HJ",
    ["AA"; "KK"; "QQ"; "JJ"; "TT"; "99"; "88"; "77"; "AKs"; "AQs"; "AJs";
     "ATs"; "A9s"; "A5s"; "A4s"; "A3s"; "A2s"; "KQs"; "KJs"; "KTs"; "QJs";
     "JTs"; "T9s"; "AKo"; "AQo"; "AJo"; "KQo"]);
   ("BTN_vs_UTG",
    ["AA"; "KK"; "QQ"; "JJ"; "TT"; "99"; "AKs"; "AQs"; "AJs"; "A5s"; "A4s";
     "KQs"; "KJs"; "QJs"; "AKo"; "AQo"]);
   ("CO_vs_HJ",
    ["AA"; "KK"; "QQ"; "JJ"; "TT"; "99"; "88"; "AKs"; "AQs"; "AJs"; "ATs";
     "A5s"; "A4s"; "A3s"; "KQs"; "KJs"; "QJs"; "JTs"; "AKo"; "AQo"; "AJo"]);
   ("CO_vs_UTG",
    ["AA"; "KK"; "QQ"; "JJ"; "TT"; "99"; "AKs"; "AQs"; "AJs"; "A5s"; "A4s";
     "KQs"; "QJs"; "AKo"; "AQo"]);
   ("HJ_vs_UTG",
    ["AA"; "KK"; "QQ"; "JJ"; "TT"; "AKs"; "AQs"; "AJs"; "A5s"; "KQs"; "QJs";
     "AKo"; "AQo"])].

(** [table[key]]: the array stored under the key, if any.  Only the
    table's own keys are looked at: a position is never the name of a
    member inherited from [Object.prototype]. *)
Fixpoint rangeAt (table : list (string * list string)) (key : string)
  : option (list string) :=
  match table with
  | [] => None
  | (k, range) :: rest => if String.eqb k key then Some range
                          else rangeAt rest key
  end.

(** [getRange(position, action, vsPosition)]; [vsPosition] is [None] for
    [null], and counts as true when it is a string that is not empty.  An
    array is true even when it is empty, so that [||] passes on only after
    a missing key. *)
Definition getRange (position action : string) (vsPosition : option string)
  : list string :=
  let given :=
    match vsPosition with
    | Some vs => negb (String.eqb vs "")
    | None => false
    end in
  let key :=
    String.append position
      (String.append "_vs_" (default "null"%string vsPosition)) in
  if String.eqb action "open" then
    default [] (rangeAt openingRanges position)
  else if String.eqb action "call" && given then
    match rangeAt callingRangesIP key with
    | Some range => range
    | None => default [] (rangeAt callingRangesOOP key)
    end
  else if String.eqb action "3bet" && given then
    default [] (rangeAt threeBetRanges key)
  else [].

End PreflopRanges.

(** ** Shuffling *)

(** [[arr[i], arr[j]] = [arr[j], arr[i]]] for two indices of the array. *)
Definition swap {A} (i j : nat) (arr : list A) : option (list A) :=
  x ← arr !! i; y ← arr !! j; Some (<[j := x]> (<[i := y]> arr)).

(** The loop of [shuffle], from index [i] down to 1.  The results of
    [Math.random()] are read off [randoms] and those not used are
    returned; with such results the index [j] is one of [0 .. i]. *)
Fixpoint shuffleFrom {A} (i : nat) (randoms : list Q) (shuffled : list A)
  : option (list A * list Q) :=
  match i with
  | O => Some (shuffled, randoms)
  | S i' =>
      '(u, randoms) ← Math_random randoms;
      j ← randomIndex u (i + 1);
      shuffled ← swap i j shuffled;
      shuffleFrom i' randoms shuffled
  end.

(** [shuffle(deck)]: a Fisher-Yates shuffle of a copy of the deck. *)
Definition shuffle {A} (randoms : list Q) (deck : list A)
  : option (list A * list Q) :=
  shuffleFrom (length deck - 1) randoms deck.

(** ** The Monte Carlo equity *)

(** An index given to [slice], counted from the end when it is negative,
    and kept inside the array. *)
Definition relativeIndex (k : Z) (len : nat) : nat :=
  if bool_decide (k < 0) then Z.to_nat (Z.max (Z.of_nat len + k) 0)
  else Nat.min (Z.to_nat k) len.

(** [arr.slice(start, end)], and [arr.slice(start)] for [None]. *)
Definition slice {A} (start : Z) (end_ : option Z) (arr : list A) : list A :=
  let s := relativeIndex start (length arr) in
  let e :=
    match end_ with
    | Some k => relativeIndex k (length arr)
    | None => length arr
    end in
  take (e - s) (drop s arr).

(** [evaluateHand] on an array that may hold [undefined]: with five
    elements or more the first combination evaluated holds the first two
    of them, and reading the [rank] of [undefined] throws. *)
Definition evaluateHandOf (cards : list (option Card))
  : completion HandValue :=
  if decide (length cards < 5)%nat then Returned (evaluateHand [])
  else
    match mapM id cards with
    | Some cards => Returned (evaluateHand cards)
    | None => Thrown "TypeError"
    end.

(** How one simulation ends for the hero. *)
Inductive Outcome : Set := Win | Tie | Loss.

(** One turn of the loop of [calculateEquity]. *)
Definition simulate (heroCards board : list Card) (randoms : list Q)
  : option (completion Outcome * list Q) :=
  let deck := createDeck in
  let usedCards := heroCards ++ board in
  let deck := withoutCards usedCards deck in
  '(deck, randoms) ← shuffle randoms deck;
  let remainingBoardCards := (5 - Z.of_nat (length board))%Z in
  let fullBoard := board ++ slice 0 (Some remainingBoardCards) deck in
  let deck := slice remainingBoardCards None deck in
  let villainHand := [deck !! 0%nat; deck !! 1%nat] in
  let heroEval := evaluateHand (heroCards ++ fullBoard) in
  match evaluateHandOf (villainHand ++ map Some fullBoard) with
  | Thrown error => Some (Thrown error, randoms)
  | Returned villainEval =>
      if beats heroEval villainEval then Some (Returned Win, randoms)
      else if bool_decide (rank heroEval = rank villainEval) &&
              bool_decide (value heroEval = value villainEval)
      then Some (Returned Tie, randoms)
      else Some (Returned Loss, randoms)
  end.

(** The loop, [numSimulations] turns long, with its two counters. *)
Fixpoint simulations (numSimulations : nat) (heroCards board : list Card)
    (wins ties : nat) (randoms : list Q)
  : option (completion (nat * nat) * list Q) :=
  match numSimulations with
  | O => Some (Returned (wins, ties), randoms)
  | S numSimulations =>
      '(outcome, randoms) ← simulate heroCards board randoms;
      match outcome with
      | Thrown error => Some (Thrown error, randoms)
      | Returned Win =>
          simulations numSimulations heroCards board (wins + 1) ties randoms
      | Returned Tie =>
          simulations numSimulations heroCards board wins (ties + 1) randoms
      | Returned Loss =>
          simulations numSimulations heroCards board wins ties randoms
      end
  end.

(** [calculateEquity(heroCards, board, villainRange, numSimulations)];
    [villainRange] is not used.  Without a simulation the quotient is
    [0 / 0]: [None]. *)
Definition calculateEquity (heroCards board : list Card)
    (numSimulations : nat) (randoms : list Q)
  : option (completion (option Q) * list Q) :=
  '(counted, randoms) ←
    simulations numSimulations heroCards board 0 0 randoms;
  match counted with
  | Thrown error => Some (Thrown error, randoms)
  | Returned (wins, ties) =>
      if bool_decide (numSimulations = 0%nat) then Some (Returned None, randoms)
      else
        Some (Returned
                (Some ((inject_Z (Z.of_nat wins)
                        + inject_Z (Z.of_nat ties) * 0.5)
                       / inject_Z (Z.of_nat numSimulations))%Q),
              randoms)
  end.

(** ** AdvancedGTOSolver *)

Module AdvancedGTOSolver.
Local Open Scope Q_scope.

Record GradingResult : Type := mkGradingResult {
  category : Category;
  evLoss : Q;
  playerFrequency : Q;
  optimalAction : string;
  optimalFrequency : Q;
  allFrequencies : Strategy;
  top3Actions : list (string * Q)
}.

Definition normalizeStrategy (strategy : Strategy) : Strategy :=
  let total := totalWeight strategy in
  if Qeq_bool total 0 || Qeq_bool total 1 then strategy
  else map (λ entry, (entry.1, entry.2 / total)) strategy.

(** The ladder of [evaluateAction], from the two frequencies. *)
Definition grade (playerFreq optimalFreq : Q) : Category * Q :=
  if Qle_bool (optimalFreq - 0.03) playerFreq || Qle_bool 0.25 playerFreq
  then (Best, Qmax 0 ((optimalFreq - playerFreq) * 0.05))
  else if Qle_bool 0.15 playerFreq
  then (Correct, (optimalFreq - playerFreq) * 0.15)
  else if Qle_bool 0.08 playerFreq
  then (Inaccuracy, 0.3 + (optimalFreq - playerFreq) * 0.2)
  else if Qle_bool 0.03 playerFreq
  then (Wrong, 0.6 + (optimalFreq - playerFreq) * 0.3)
  else (Blunder, 1.2 + (optimalFreq - playerFreq) * 0.4).

(** [evaluateAction(playerAction, gtoStrategy, metrics)]; [metrics] is
    not used.  On an empty strategy [sortedActions[0]] is [undefined]
    and reading its index 0 throws a [TypeError]. *)
Definition evaluateAction (playerAction : string) (gtoStrategy : Strategy)
  : completion GradingResult :=
  let playerFreq := orZero (getProp gtoStrategy playerAction) in
  let sortedActions := sortEntries gtoStrategy in
  match sortedActions with
  | [] => Thrown "TypeError"
  | top :: _ =>
      let optimalAction := top.1 in
      let optimalFreq := top.2 in
      let '(category, evLoss) := grade playerFreq optimalFreq in
      Returned
        {| category := category;
           evLoss := Qmin evLoss 2.5;
           playerFrequency := playerFreq;
           optimalAction := optimalAction;
           optimalFrequency := optimalFreq;
           allFrequencies := gtoStrategy;
           top3Actions := take 3 sortedActions |}
  end.

(** *** Board texture *)

Inductive TextureType : Set := Medium | Wet | Dry | Paired.

Record BoardTexture : Type := mkBoardTexture {
  type : TextureType;
  wetness : Q;
  ranks : list Z;
  paired : bool;
  trips : bool;
  flushDraw : bool;
  flushPossible : bool;
  monochrome : bool;
  twoTone : bool;
  rainbow : bool;
  connected : bool;
  doubleConnected : bool;
  straightPossible : bool;
  highCards : nat;
  broadway : bool;
  lowBoard : bool;
  hasAce : bool;
  maxGap : Z;
  minGap : Z;
  uniqueRanks : nat
}.

(** The two shapes of object [analyzeAdvancedBoardTexture] returns:
    [{ type: 'preflop' }] for fewer than three cards, the full record
    otherwise. *)
Inductive BoardAnalysis : Type :=
  | preflop
  | analysed (texture : BoardTexture).

(** [suits.forEach(s => suitCounts[s] = (suitCounts[s] || 0) + 1)], the
    counts kept in the order in which the suits first occur. *)
Fixpoint countSuit (suitCounts : list (Suit * nat)) (s : Suit)
  : list (Suit * nat) :=
  match suitCounts with
  | [] => [(s, 1%nat)]
  | (k, n) :: rest =>
      if decide (k = s) then (k, (n + 1)%nat) :: rest
      else (k, n) :: countSuit rest s
  end.

Definition suitCountsOf (ss : list Suit) : list (Suit * nat) :=
  foldl countSuit [] ss.

(** The loop pushing [sortedRanks[i] - sortedRanks[i + 1]]. *)
Fixpoint gapsOf (sortedRanks : list Z) : list Z :=
  match sortedRanks with
  | a :: (b :: _) as rest => (a - b)%Z :: gapsOf rest
  | _ => []
  end.

(** The chain of [if (...) wetness += ...] statements and the clamp. *)
Definition wetnessOf (flushDraw connected doubleConnected paired trips
                      twoHigh broadway lowDisconnected rainbowGapped : bool)
  : Q :=
  let wetness := 0.4 in
  let wetness := if flushDraw then wetness + 0.20 else wetness in
  let wetness := if connected then wetness + 0.18 else wetness in
  let wetness := if doubleConnected then wetness + 0.12 else wetness in
  let wetness := if paired then wetness - 0.10 else wetness in
  let wetness := if trips then wetness - 0.15 else wetness in
  let wetness := if twoHigh then wetness + 0.10 else wetness in
  let wetness := if broadway then wetness + 0.12 else wetness in
  let wetness := if lowDisconnected then wetness - 0.20 else wetness in
  let wetness := if rainbowGapped then wetness - 0.18 else wetness in
  Qmax 0 (Qmin 1 wetness).

(** The classification that follows, with its two special cases. *)
Definition typeOf (wetness : Q) (paired trips : bool) : TextureType :=
  let type :=
    if Qle_bool 0.7 wetness then Wet
    else if Qle_bool wetness 0.35 then Dry
    else Medium in
  let type := if trips then Paired else type in
  if paired && negb trips then Paired else type.

Definition analyzeAdvancedBoardTexture (board : list Card) : BoardAnalysis :=
  if decide (length board < 3)%nat then preflop
  else
    let ranks := map (λ c, rankValues (card_rank c)) board in
    let suits := map card_suit board in
    let sortedRanks := sortDesc ranks in
    let rankCounts := rankCountsOf ranks in
    let uniqueRanks := length (map_to_list rankCounts).*1 in
    let paired := bool_decide (uniqueRanks < length board)%nat in
    let trips :=
      existsb (λ c, bool_decide (3 ≤ c)%nat) (map_to_list rankCounts).*2 in
    let suitCounts := suitCountsOf suits in
    let maxSuitCount := Math_max (Z.of_nat <$> suitCounts.*2) in
    let flushDraw := bool_decide (3 ≤ maxSuitCount)%Z in
    let flushPossible := bool_decide (3 ≤ maxSuitCount)%Z in
    let monochrome := bool_decide (maxSuitCount = 3)%Z in
    let twoTone := bool_decide (length suitCounts.*1 = 2%nat) in
    let rainbow := bool_decide (length suitCounts.*1 = 3%nat) in
    let gaps := gapsOf sortedRanks in
    let maxGap := Math_max gaps in
    let minGap := Math_min gaps in
    let connected := bool_decide (maxGap ≤ 2)%Z in
    let doubleConnected := forallb (λ g, bool_decide (g ≤ 2)%Z) gaps in
    let straightPossible := bool_decide (maxGap ≤ 4)%Z in
    let highCards :=
      length (filter (λ r, (10 ≤ r)%Z) ranks) in
    let broadway := forallb (λ r, bool_decide (10 ≤ r)%Z) ranks in
    let lowBoard := forallb (λ r, bool_decide (r ≤ 9)%Z) ranks in
    let hasAce := bool_decide (14%Z ∈ ranks) in
    let wetness :=
      wetnessOf flushDraw connected doubleConnected paired trips
        (bool_decide (2 ≤ highCards)%nat) broadway
        (lowBoard && negb connected)
        (rainbow && bool_decide (4 < maxGap)%Z) in
    analysed
      {| type := typeOf wetness paired trips;
         wetness := wetness;
         ranks := sortedRanks;
         paired := paired;
         trips := trips;
         flushDraw := flushDraw;
         flushPossible := flushPossible;
         monochrome := monochrome;
         twoTone := twoTone;
         rainbow := rainbow;
         connected := connected;
         doubleConnected := doubleConnected;
         straightPossible := straightPossible;
         highCards := highCards;
         broadway := broadway;
         lowBoard := lowBoard;
         hasAce := hasAce;
         maxGap := maxGap;
         minGap := minGap;
         uniqueRanks := uniqueRanks |}.

(** The [switch] of [getGTOStrategy]: four known action contexts, each
    with its own table builder, and no [default] branch, so that any
    other tag leaves the initial empty object in place.  The builders'
    results are taken as given. *)
Definition strategyFor (facingBet facingRaise checkToHero openAction
                        : Strategy) (action : string) : Strategy :=
  if String.eqb action "facing_bet" then facingBet
  else if String.eqb action "facing_raise" then facingRaise
  else if String.eqb action "check_to_hero" then checkToHero
  else if String.eqb action "open_action" then openAction
  else [].

(** *** Reading a texture *)

(** The other methods read properties of the texture object; on the
    [{ type: 'preflop' }] object every one of them is [undefined], which is
    falsy and makes every comparison false. *)
Definition textureFlag (flag : BoardTexture → bool) (boardTexture : BoardAnalysis)
  : bool :=
  match boardTexture with
  | analysed t => flag t
  | preflop => false
  end.

Definition textureWetness (boardTexture : BoardAnalysis) : option Q :=
  match boardTexture with
  | analysed t => Some (wetness t)
  | preflop => None
  end.

(** [x > c] and [x < c] for a possibly undefined [x]. *)
Definition above (x : option Q) (c : Q) : bool :=
  match x with
  | Some v => negb (Qle_bool v c)
  | None => false
  end.

Definition below (x : option Q) (c : Q) : bool :=
  match x with
  | Some v => negb (Qle_bool c v)
  | None => false
  end.

(** *** Draws *)

Module Draws.
Record t : Type := mk {
  flushDraw : bool;
  straightDraw : bool;
  gutshot : bool;
  overcard : bool;
  backdoorFlush : bool;
  comboDraws : bool;
  strongDraw : bool;
  totalOuts : Z
}.
End Draws.

(** [[...new Set(allRanks)]]: the first occurrence of every value, in
    order. *)
Fixpoint newSet (l : list Z) : list Z :=
  match l with
  | [] => []
  | x :: rest => x :: filter (λ y, y ≠ x) (newSet rest)
  end.

(** The loop over [uniqueRanks[i] - uniqueRanks[i + 3]], carrying the two
    flags [straightDraw] and [gutshot]. *)
Fixpoint spanFlags (flags : bool * bool) (uniqueRanks : list Z) : bool * bool :=
  match uniqueRanks with
  | a :: rest =>
      match rest with
      | _ :: _ :: d :: _ =>
          let span := (a - d)%Z in
          let flags :=
            if bool_decide (span = 3)%Z then (true, flags.2)
            else if bool_decide (span = 4)%Z then (flags.1, true)
            else flags in
          spanFlags flags rest
      | _ => flags
      end
  | [] => flags
  end.

(** [r > Math.max(...l)]; the maximum of no numbers is [-Infinity]. *)
Definition aboveMax (r : Z) (l : list Z) : bool :=
  match l with
  | [] => true
  | _ => bool_decide (Math_max l < r)%Z
  end.

Definition analyzeDraws (heroHand board : list Card) : Draws.t :=
  let heroSuits := map card_suit heroHand in
  let boardSuits := map card_suit board in
  let heroRanks := map (λ c, rankValues (card_rank c)) heroHand in
  let boardRanks := map (λ c, rankValues (card_rank c)) board in
  let suitCounts := suitCountsOf (heroSuits ++ boardSuits) in
  let flushDraw := existsb (λ c, bool_decide (4 ≤ c)%nat) suitCounts.*2 in
  let allRanks := sortDesc (heroRanks ++ boardRanks) in
  let uniqueRanks := newSet allRanks in
  let '(straightDraw, gutshot) := spanFlags (false, false) uniqueRanks in
  let overcard := existsb (λ r, aboveMax r boardRanks) heroRanks in
  let backdoorFlush := existsb (λ c, bool_decide (c = 3)%nat) suitCounts.*2 in
  {| Draws.flushDraw := flushDraw;
     Draws.straightDraw := straightDraw;
     Draws.gutshot := gutshot;
     Draws.overcard := overcard;
     Draws.backdoorFlush := backdoorFlush;
     Draws.comboDraws := flushDraw && straightDraw;
     Draws.strongDraw := flushDraw || straightDraw;
     Draws.totalOuts :=
       ((if flushDraw then 9 else 0) + (if straightDraw then 8 else 0)
        + (if gutshot then 4 else 0) + (if overcard then 3 else 0))%Z |}.

(** *** Equity *)

(** The tables of [initializeEquityTables] that are read with a texture
    type; the type ['preflop'] is no key of them. *)
Definition typeName (boardTexture : BoardAnalysis) : option TextureType :=
  match boardTexture with
  | analysed t => Some (type t)
  | preflop => None
  end.

Definition overpairEquity (ty : TextureType) : Q :=
  match ty with Dry => 0.82 | Medium => 0.78 | Wet => 0.72 | Paired => 0.85 end.

Definition topPairEquity (ty : TextureType) : Q :=
  match ty with Dry => 0.68 | Medium => 0.63 | Wet => 0.58 | Paired => 0.70 end.

(** [table[boardTexture.type] || fallback]. *)
Definition tableOr (table : TextureType → Q) (boardTexture : BoardAnalysis)
    (fallback : Q) : Q :=
  match typeName boardTexture with
  | Some ty => if Qeq_bool (table ty) 0 then fallback else table ty
  | None => fallback
  end.

(** [Math.max(...l)] and [Math.min(...l)] where the result may be
    infinite: [None] is [-Infinity] for the maximum and [+Infinity] for the
    minimum. *)
Definition maxOf (l : list Z) : option Z :=
  match l with [] => None | _ => Some (Math_max l) end.

Definition minOf (l : list Z) : option Z :=
  match l with [] => None | _ => Some (Math_min l) end.

(** The chain that classifies the hero hand relative to the board in
    [calculateAccurateEquity] and sets [baseEquity]. *)
Definition baseEquityOf (heroHand board : list Card)
    (boardTexture : BoardAnalysis) : Q :=
  let evaluation := evaluateHand (heroHand ++ board) in
  let heroRanks := map (λ c, rankValues (card_rank c)) heroHand in
  let boardRanks := map (λ c, rankValues (card_rank c)) board in
  let topBoardCard := maxOf boardRanks in
  (* [heroRanks[0] === heroRanks[1]]: two missing ranks are equal *)
  let pocketPair := bool_decide (heroRanks !! 0%nat = heroRanks !! 1%nat) in
  if pocketPair &&
     match heroRanks !! 0%nat with
     | Some r => aboveMax r boardRanks
     | None => false
     end
  then tableOr overpairEquity boardTexture 0.78
  else if bool_decide (maxOf heroRanks = topBoardCard) &&
          bool_decide (1 ≤ rank evaluation)%Z
  then
    let baseEquity := tableOr topPairEquity boardTexture 0.63 in
    (* [kickerRank >= 11], [kickerRank <= 7] with [+Infinity] for no rank *)
    match minOf heroRanks with
    | None => baseEquity + 0.05
    | Some kickerRank =>
        if bool_decide (11 ≤ kickerRank)%Z then baseEquity + 0.05
        else if bool_decide (kickerRank ≤ 7)%Z then baseEquity - 0.05
        else baseEquity
    end
  else if pocketPair then
    match heroRanks !! 0%nat with
    | Some r => if bool_decide (10 ≤ r)%Z then 0.55 else 0.42
    | None => 0.42
    end
  else if bool_decide (2 ≤ rank evaluation)%Z then
    0.80 + inject_Z (rank evaluation - 2) * 0.05
  else
    let draws := analyzeDraws heroHand board in
    if Draws.flushDraw draws then
      if Draws.overcard draws then 0.36 + 0.08 else 0.36
    else if Draws.straightDraw draws then
      if Draws.overcard draws then 0.32 + 0.08 else 0.32
    else if Draws.gutshot draws then 0.18
    else
      match maxOf heroRanks with
      | Some top => if bool_decide (13 ≤ top)%Z then 0.35 + 0.05 else 0.35
      | None => 0.35
      end.

(** [calculateAccurateEquity(heroHand, board, boardTexture, villainPosition,
    preflopAction)]; the last two arguments are not used. *)
Definition calculateAccurateEquity (heroHand board : list Card)
    (boardTexture : BoardAnalysis) : Q :=
  let baseEquity := baseEquityOf heroHand board boardTexture in
  let baseEquity :=
    if above (textureWetness boardTexture) 0.7 then baseEquity * 0.95
    else baseEquity in
  let baseEquity :=
    if below (textureWetness boardTexture) 0.4 then baseEquity * 1.05
    else baseEquity in
  Qmax 0.05 (Qmin 0.95 baseEquity).

(** The seven hand categories, ['nuts'] to ['weak']. *)
Inductive HandCategory : Set :=
  | nuts | veryStrong | strong | mediumStrong | medium | marginal | weak.

Global Instance HandCategory_eq_dec : EqDecision HandCategory.
Proof. solve_decision. Defined.

(** [classifyHand(heroHand, board, equity)]; only [equity] is used. *)
Definition classifyHand (equity : Q) : HandCategory :=
  if Qle_bool 0.95 equity then nuts
  else if Qle_bool 0.85 equity then veryStrong
  else if Qle_bool 0.70 equity then strong
  else if Qle_bool 0.60 equity then mediumStrong
  else if Qle_bool 0.50 equity then medium
  else if Qle_bool 0.40 equity then marginal
  else weak.

(** *** Blockers *)

Module Blockers.
Record t : Type := mk {
  aceBlocker : bool;
  kingBlocker : bool;
  flushBlocker : bool;
  straightBlocker : option bool;
  strongBlocker : bool
}.
End Blockers.

Definition analyzeBlockers (heroHand board : list Card)
    (boardTexture : BoardAnalysis) : Blockers.t :=
  let heroRanks := map card_rank heroHand in
  let heroSuits := map card_suit heroHand in
  let aceBlocker := bool_decide (RA ∈ heroRanks) in
  let kingBlocker := bool_decide (RK ∈ heroRanks) in
  let flushBlocker :=
    if textureFlag flushDraw boardTexture then
      let boardSuits := map card_suit board in
      let dominantSuit := foldl countSuit [] boardSuits in
      match find (λ entry, bool_decide (2 ≤ entry.2)%nat) dominantSuit with
      | Some (flushSuit, _) => bool_decide (flushSuit ∈ heroSuits)
      | None => false
      end
    else false in
  {| Blockers.aceBlocker := aceBlocker;
     Blockers.kingBlocker := kingBlocker;
     Blockers.flushBlocker := flushBlocker;
     Blockers.straightBlocker :=
       match boardTexture with
       | analysed t => Some (connected t)
       | preflop => None
       end;
     Blockers.strongBlocker :=
       aceBlocker || (flushBlocker && textureFlag flushDraw boardTexture) |}.

(** *** Metrics *)

Module Metrics.
Record t : Type := mk {
  handStrength : option Q;
  equity : Q;
  boardTexture : BoardAnalysis;
  draws : Draws.t;
  handCategory : HandCategory;
  blockers : Blockers.t
}.
End Metrics.

(** [calculateComprehensiveMetrics]; the villain's position and the preflop
    action are passed on to [calculateAccurateEquity], which ignores
    them. *)
Definition calculateComprehensiveMetrics (heroHand board : list Card)
  : Metrics.t :=
  let handStrength := calculateHandStrength heroHand board in
  let boardTexture := analyzeAdvancedBoardTexture board in
  let equity := calculateAccurateEquity heroHand board boardTexture in
  let draws := analyzeDraws heroHand board in
  let handCategory := classifyHand equity in
  let blockers := analyzeBlockers heroHand board boardTexture in
  {| Metrics.handStrength := handStrength;
     Metrics.equity := equity;
     Metrics.boardTexture := boardTexture;
     Metrics.draws := draws;
     Metrics.handCategory := handCategory;
     Metrics.blockers := blockers |}.

(** *** Range advantage *)

Module RangeAdvantage.
Record t : Type := mk { value : Q; description : string }.
End RangeAdvantage.

Definition calculateRangeAdvantage (position villainPosition : string)
    (board : list Card) (preflopAction : string) : RangeAdvantage.t :=
  let boardTexture := analyzeAdvancedBoardTexture board in
  let advantage := 0 in
  let advantage :=
    if match boardTexture with
       | analysed t => bool_decide (2 ≤ highCards t)%nat
       | preflop => false
       end
    then if String.eqb preflopAction "srp" then advantage - 0.10
         else advantage
    else advantage in
  let advantage :=
    if textureFlag lowBoard boardTexture then advantage + 0.08
    else advantage in
  let advantage :=
    if textureFlag flushDraw boardTexture then advantage + 0.02
    else advantage in
  let advantage :=
    if textureFlag connected boardTexture then advantage + 0.03
    else advantage in
  let positions := ["UTG"; "HJ"; "CO"; "BTN"; "SB"; "BB"]%string in
  let heroIdx := indexOf 0 positions position in
  let villainIdx := indexOf 0 positions villainPosition in
  let advantage :=
    if bool_decide (villainIdx < heroIdx)%Z then advantage + 0.05
    else advantage in
  {| RangeAdvantage.value := advantage;
     RangeAdvantage.description :=
       if negb (Qle_bool advantage 0.10) then "significant hero"
       else if negb (Qle_bool advantage 0.05) then "moderate hero"
       else if negb (Qle_bool (-0.10) advantage) then "significant villain"
       else if negb (Qle_bool (-0.05) advantage) then "moderate villain"
       else "neutral" |}.

End AdvancedGTOSolver.

(** ** GTOSolver, the earlier solver of [gto-solver.js] *)

Module GTOSolver.
Local Open Scope Q_scope.

Record GradingResult : Type := mkGradingResult {
  category : Category;
  evLoss : Q;
  playerFrequency : Q;
  optimalAction : string;
  optimalFrequency : Q;
  allFrequencies : Strategy
}.

Definition normalizeStrategy (strategy : Strategy) : Strategy :=
  let total := totalWeight strategy in
  if Qeq_bool total 0 then strategy
  else map (λ entry, (entry.1, entry.2 / total)) strategy.

Definition grade (playerFreq maxFreq : Q) : Category * Q :=
  if Qle_bool (maxFreq - 0.05) playerFreq then (Best, 0)
  else if Qle_bool 0.20 playerFreq
  then (Correct, (maxFreq - playerFreq) * 0.1)
  else if Qle_bool 0.10 playerFreq
  then (Inaccuracy, (maxFreq - playerFreq) * 0.25)
  else if Qle_bool 0.05 playerFreq
  then (Wrong, (maxFreq - playerFreq) * 0.5)
  else (Blunder, 1.0).

(** [keys.reduce((a, b) => gtoStrategy[a] > gtoStrategy[b] ? a : b)]:
    the accumulator is kept only while it is strictly heavier. *)
Definition heavier (gtoStrategy : Strategy) (a b : string) : string :=
  match getProp gtoStrategy a, getProp gtoStrategy b with
  | Some wa, Some wb => if Qle_bool wa wb then b else a
  | _, _ => b
  end.

(** [evaluateAction(playerAction, gtoStrategy)].  On an empty strategy
    the [reduce] without initial value throws a [TypeError]. *)
Definition evaluateAction (playerAction : string) (gtoStrategy : Strategy)
  : completion GradingResult :=
  let playerFreq := orZero (getProp gtoStrategy playerAction) in
  match gtoStrategy with
  | [] => Thrown "TypeError"
  | first :: rest =>
      let maxFreq := foldl Qmax first.2 rest.*2 in
      let '(category, evLoss) := grade playerFreq maxFreq in
      Returned
        {| category := category;
           evLoss := evLoss;
           playerFrequency := playerFreq;
           optimalAction := foldl (heavier gtoStrategy) first.1 rest.*1;
           optimalFrequency := maxFreq;
           allFrequencies := gtoStrategy |}
  end.


(** The [for (let action in strategy)] loop of [getGTOAction], with
    [rand] for the value of [Math.random()]: [Some action] when the loop
    returns, [None] when it runs to its end. *)
Fixpoint sampleFrom (rand cumulative : Q) (strategy : Strategy)
  : option string :=
  match strategy with
  | [] => None
  | (action, w) :: rest =>
      let cumulative := cumulative + w in
      if Qle_bool rand cumulative then Some action
      else sampleFrom rand cumulative rest
  end.

(** [getGTOAction(strategy)]; the fallback is the [reduce] of
    [evaluateAction], which throws on an empty strategy. *)
Definition getGTOAction (rand : Q) (strategy : Strategy) : completion string :=
  match sampleFrom rand 0 strategy with
  | Some action => Returned action
  | None =>
      match strategy with
      | [] => Thrown "TypeError"
      | first :: rest => Returned (foldl (heavier strategy) first.1 rest.*1)
      end
  end.

(** [calculateApproximateEquity(heroHand, board, villainPosition,
    preflopAction)]; the last two arguments are not used.  A [NaN] from
    the engine goes through the arithmetic, the comparison and the clamp:
    [None]. *)
Definition calculateApproximateEquity (heroHand board : list Card)
  : option Q :=
  match calculateHandStrength heroHand board,
        calculateDrawStrength heroHand board with
  | Some handStrength, Some drawStrength =>
      let equity := handStrength * 0.7 + drawStrength * 0.3 in
      let boardTexture := analyzeBoardTexture board in
      let equity :=
        if negb (Qle_bool (Texture.wetness boardTexture) 0.7)
        then equity * 0.95 else equity in
      Some (Qmax 0.1 (Qmin 0.9 equity))
  | _, _ => None
  end.

End GTOSolver.

(** ** PokerTrainer, the training session of the main application *)

Module PokerTrainer.
Local Open Scope Q_scope.

(** The properties of an evaluation that the session reads. *)
Record Evaluation : Type := mkEvaluation {
  category : Category;
  evLoss : Q
}.

(** The hand on the table: [currentHand.heroHand] and
    [currentHand.board]. *)
Record Hand : Type := mkHand {
  heroHand : list Card;
  board : list Card
}.

Module HistoryItem.
Record t : Type := mk {
  handNum : Z;
  heroHand : list Card;
  board : list Card;
  category : Category;
  evaluation : Evaluation
}.
End HistoryItem.

Record Session : Type := mkSession {
  hands : Z;
  moves : Z;
  score : Z;
  bestMoves : Z;
  correctMoves : Z;
  inaccuracies : Z;
  wrongMoves : Z;
  blunders : Z;
  totalEVLoss : Q;
  history : list HistoryItem.t
}.

(** The session object of the constructor and of [resetSession]. *)
Definition resetSession : Session :=
  {| hands := 0; moves := 0; score := 0; bestMoves := 0; correctMoves := 0;
     inaccuracies := 0; wrongMoves := 0; blunders := 0; totalEVLoss := 0;
     history := [] |}.

(** [Math.round(x)]: the nearest integer, a half rounded up. *)
Definition Math_round (x : Q) : Z := Qfloor (x + (1 # 2)).

(** [updateSessionStats(evaluation)], on the session it updates. *)
Definition updateSessionStats (evaluation : Evaluation) (session : Session)
  : Session :=
  let totalEVLoss := totalEVLoss session + evLoss evaluation in
  let '(bestMoves, correctMoves, inaccuracies, wrongMoves, blunders) :=
    let b := bestMoves session in
    let c := correctMoves session in
    let i := inaccuracies session in
    let w := wrongMoves session in
    let x := blunders session in
    match category evaluation with
    | Best => (b + 1, c, i, w, x)
    | Correct => (b, c + 1, i, w, x)
    | Inaccuracy => (b, c, i + 1, w, x)
    | Wrong => (b, c, i, w + 1, x)
    | Blunder => (b, c, i, w, x + 1)
    end%Z in
  let totalDecisions :=
    (bestMoves + correctMoves + inaccuracies + wrongMoves + blunders)%Z in
  let score :=
    if bool_decide (0 < totalDecisions)%Z then
      let weightedScore :=
        inject_Z (bestMoves * 100 + correctMoves * 80 + inaccuracies * 50
                  + wrongMoves * 20 + blunders * 0)
        / inject_Z totalDecisions in
      Math_round weightedScore
    else score session in
  {| hands := hands session; moves := moves session; score := score;
     bestMoves := bestMoves; correctMoves := correctMoves;
     inaccuracies := inaccuracies; wrongMoves := wrongMoves;
     blunders := blunders; totalEVLoss := totalEVLoss;
     history := history session |}.

(** [arr.pop()]: the array without its last element. *)
Definition pop {A} (arr : list A) : list A := take (length arr - 1) arr.

(** [addToHistory(evaluation)], without the rendering: the new item goes
    to the front, and the oldest one is dropped beyond 20. *)
Definition addToHistory (currentHand : Hand) (evaluation : Evaluation)
    (session : Session) : Session :=
  let historyItem :=
    {| HistoryItem.handNum := hands session;
       HistoryItem.heroHand := heroHand currentHand;
       HistoryItem.board := board currentHand;
       HistoryItem.category := category evaluation;
       HistoryItem.evaluation := evaluation |} in
  let history := historyItem :: history session in
  let history :=
    if bool_decide (20 < length history)%nat then pop history else history in
  {| hands := hands session; moves := moves session; score := score session;
     bestMoves := bestMoves session; correctMoves := correctMoves session;
     inaccuracies := inaccuracies session; wrongMoves := wrongMoves session;
     blunders := blunders session; totalEVLoss := totalEVLoss session;
     history := history |}.

(** [dealNewHand()], as far as the session goes: [this.session.hands++]. *)
Definition dealNewHand (session : Session) : Session :=
  {| hands := hands session + 1; moves := moves session;
     score := score session;
     bestMoves := bestMoves session; correctMoves := correctMoves session;
     inaccuracies := inaccuracies session; wrongMoves := wrongMoves session;
     blunders := blunders session; totalEVLoss := totalEVLoss session;
     history := history session |}.

(** [handlePlayerAction(action, size)], as far as the session goes, with
    [evaluated] for the outcome of [this.solver.evaluateAction(...)]: the
    move is counted first; when the solver throws, nothing else is done and
    the exception leaves the method. *)
Definition handlePlayerAction (currentHand : Hand)
    (evaluated : completion Evaluation) (session : Session)
  : Session * option string :=
  let session :=
    {| hands := hands session; moves := moves session + 1;
       score := score session;
       bestMoves := bestMoves session; correctMoves := correctMoves session;
       inaccuracies := inaccuracies session; wrongMoves := wrongMoves session;
       blunders := blunders session; totalEVLoss := totalEVLoss session;
       history := history session |} in
  match evaluated with
  | Thrown error => (session, Some error)
  | Returned evaluation =>
      let session := updateSessionStats evaluation session in
      (addToHistory currentHand evaluation session, None)
  end.

(** *** Scenarios *)

Module GameState.
Record t : Type := mk {
  heroHand : list PreflopRanges.RawCard;
  board : list Card;
  pot : Q;
  stack : Q;
  position : string;
  villainPosition : string;
  street : string;
  isHeroIP : bool;
  action : string;
  betSize : Q;
  preflopAction : string
}.
End GameState.

Module Scenario.
Record t : Type := mk {
  heroHand : list PreflopRanges.RawCard;
  board : list Card;
  raiserPos : string;
  heroPos : string;
  preflopHistory : string;
  gameState : GameState.t
}.
End Scenario.

Definition positions : list string :=
  ["UTG"; "HJ"; "CO"; "BTN"; "SB"; "BB"].

(** The hand [A♠ K♥] that stands in when no hand was drawn. *)
Definition aceKingHand : list PreflopRanges.RawCard :=
  [PreflopRanges.mkRaw (Some "A"%char) Spades;
   PreflopRanges.mkRaw (Some "K"%char) Hearts].

(** The scenario of the [catch] clause. *)
Definition fallbackScenario : Scenario.t :=
  let board :=
    [mkCard RK Diamonds; mkCard R9 Spades; mkCard R4 Clubs] in
  {| Scenario.heroHand := aceKingHand;
     Scenario.board := board;
     Scenario.raiserPos := "UTG";
     Scenario.heroPos := "BB";
     Scenario.preflopHistory := "UTG opens, BB calls";
     Scenario.gameState :=
       {| GameState.heroHand := aceKingHand;
          GameState.board := board;
          GameState.pot := 6.5;
          GameState.stack := 100;
          GameState.position := "BB";
          GameState.villainPosition := "UTG";
          GameState.street := "flop";
          GameState.isHeroIP := false;
          GameState.action := "open_action";
          GameState.betSize := 0;
          GameState.preflopAction := "srp" |} |}.

(** [arr[Math.floor(Math.random() * arr.length)]], reading the random
    number off [randoms].  With a result of [Math.random()] the index is
    inside a non-empty array; the answer is [None] otherwise. *)
Definition pickFrom {A} (arr : list A) (randoms : list Q)
  : option (A * list Q) :=
  '(u, randoms) ← Math_random randoms;
  item ← randomIndex u (length arr) ≫= (arr !!.);
  Some (item, randoms).

(** The raiser and the hero of [generateScenario]: [(raiserPos, heroPos)].
    [positions.indexOf(raiserPos) + 1] is never negative, so that [slice]
    drops that many positions. *)
Definition seats (preflopAction : string) (randoms : list Q)
  : option (string * string * list Q) :=
  if String.eqb preflopAction "srp" then
    let raisingPositions := ["UTG"; "HJ"; "CO"; "BTN"]%string in
    '(raiserPos, randoms) ← pickFrom raisingPositions randoms;
    let callingPositions :=
      drop (Z.to_nat (indexOf 0 positions raiserPos + 1)) positions in
    '(heroPos, randoms) ← pickFrom callingPositions randoms;
    Some (raiserPos, heroPos, randoms)
  else Some ("UTG"%string, "BB"%string, randoms).

(** The hero's hand: drawn from the calling range of the seats, or
    [A♠ K♥] when [getRandomHandFromRange] returns [null] or
    [undefined]. *)
Definition heroHandFor (heroPos raiserPos : string) (randoms : list Q)
  : option (completion (list PreflopRanges.RawCard) * list Q) :=
  let heroRange := PreflopRanges.getRange heroPos "call" (Some raiserPos) in
  '(drawn, randoms) ←
    PreflopRanges.getRandomHandFromRange heroRange [] randoms;
  match drawn with
  | Thrown error => Some (Thrown error, randoms)
  | Returned (PreflopRanges.picked hand) => Some (Returned hand, randoms)
  | Returned _ => Some (Returned aceKingHand, randoms)
  end.

(** The flop: the first three cards of the shuffled deck without the
    hero's cards. *)
Definition flopFor (heroHand : list PreflopRanges.RawCard) (randoms : list Q)
  : option (list Card * list Q) :=
  let deck := createDeck in
  let deck :=
    filter (λ card,
      existsb (λ h,
        bool_decide (PreflopRanges.rank h
                     = Some (PreflopRanges.rankChar (card_rank card))) &&
        bool_decide (PreflopRanges.suit h = card_suit card)) heroHand
      = false) deck in
  '(deck, randoms) ← shuffle randoms deck;
  Some (take 3 deck, randoms).

(** The action the hero faces and the size of the bet. *)
Definition actionFor (isHeroIP : bool) (pot : Q) (randoms : list Q)
  : option (string * Q * list Q) :=
  if isHeroIP then
    '(u, randoms) ← Math_random randoms;
    if negb (Qle_bool 0.7 u) then
      '(v, randoms) ← Math_random randoms;
      Some ("facing_bet"%string, pot * (0.33 + v * 0.67), randoms)
    else Some ("check_to_hero"%string, 0, randoms)
  else Some ("open_action"%string, 0, randoms).

(** [generateScenario()], for the setting [preflopAction], reading the
    results of [Math.random()] off [randoms].  An exception inside the
    [try] block gives the scenario of the [catch] clause. *)
Definition generateScenario (preflopAction : string) (randoms : list Q)
  : option (Scenario.t * list Q) :=
  '(raiserPos, heroPos, randoms) ← seats preflopAction randoms;
  let preflopHistory :=
    String.append raiserPos
      (String.append " opens, " (String.append heroPos " calls")) in
  '(drawn, randoms) ← heroHandFor heroPos raiserPos randoms;
  match drawn with
  | Thrown _ => Some (fallbackScenario, randoms)
  | Returned heroHand =>
      '(board, randoms) ← flopFor heroHand randoms;
      let isHeroIP :=
        bool_decide (indexOf 0 positions raiserPos
                     < indexOf 0 positions heroPos)%Z in
      let pot := 6.5 in
      let stack := 100 in
      '(action, betSize, randoms) ← actionFor isHeroIP pot randoms;
      Some ({| Scenario.heroHand := heroHand;
               Scenario.board := board;
               Scenario.raiserPos := raiserPos;
               Scenario.heroPos := heroPos;
               Scenario.preflopHistory := preflopHistory;
               Scenario.gameState :=
                 {| GameState.heroHand := heroHand;
                    GameState.board := board;
                    GameState.pot := pot;
                    GameState.stack := stack;
                    GameState.position := heroPos;
                    GameState.villainPosition := raiserPos;
                    GameState.street := "flop";
                    GameState.isHeroIP := isHeroIP;
                    GameState.action := action;
                    GameState.betSize := betSize;
                    GameState.preflopAction := preflopAction |} |},
            randoms)
  end.

End PokerTrainer.

(** * Notions used in the statements and proofs *)

(** ** Reading a hand value back *)

(** What [description] and [kickers] must be, read back from [rank] and
    [value] alone: the value packs the tiebreak ranks in base 100 (base
    1000 for quads and full houses), and a straight is known by its top
    card. *)
Definition descriptionOf (rk v : Z) : string :=
  if decide (rk = 8) then
    if decide (v = 14) then "Royal Flush" else "Straight Flush"
  else if decide (rk = 7) then "Four of a Kind"
  else if decide (rk = 6) then "Full House"
  else if decide (rk = 5) then "Flush"
  else if decide (rk = 4) then "Straight"
  else if decide (rk = 3) then "Three of a Kind"
  else if decide (rk = 2) then "Two Pair"
  else if decide (rk = 1) then "One Pair"
  else "High Card".

Definition kickersOf (rk v : Z) : list Z :=
  if decide (rk = 8 ∨ rk = 4) then [v; v - 1; v - 2; v - 3; v - 4]
  else if decide (rk = 7 ∨ rk = 6) then [v / 1000; v mod 1000]
  else if decide (rk = 3 ∨ rk = 2) then
    [v / 10000; (v / 100) mod 100; v mod 100]
  else if decide (rk = 1) then
    [v / 1000000; (v / 10000) mod 100; (v / 100) mod 100; v mod 100]
  else
    [v / 100000000; (v / 1000000) mod 100; (v / 10000) mod 100;
     (v / 100) mod 100; v mod 100].

Definition wheelRanks : list Z := [14; 5; 4; 3; 2].

Definition broadwayRanks : list Z := [14; 13; 12; 11; 10].

(** A straight or straight flush whose [value] is 14: the wheel and the
    ace-high straight both produce it. *)
Definition aceHighStraight (hv : HandValue) : bool :=
  bool_decide (value hv = 14) &&
  (bool_decide (rank hv = 8) || bool_decide (rank hv = 4)).

(** The check run on every sorted five-tuple of rank values: the
    description is the one of the category, the hand beats the initial
    [bestHand], every kicker is a rank value, and the kickers are the ones
    the value encodes, or, for a straight of value 14, the sorted ranks of
    a wheel or of an ace-high straight. *)
Definition classified (rs : list Z) (f : bool) : bool :=
  let hv := classify rs f in
  bool_decide (description hv = descriptionOf (rank hv) (value hv))
  && bool_decide (0 ≤ rank hv ≤ 8)
  && bool_decide (0 < value hv)
  && match kickers hv with
     | Some ks => forallb (λ k, bool_decide (2 ≤ k ≤ 14)) ks
     | None => false
     end
  && if aceHighStraight hv then
       bool_decide (kickers hv = Some (sortDesc rs)) &&
       (bool_decide (sortDesc rs = wheelRanks) ||
        bool_decide (sortDesc rs = broadwayRanks))
     else bool_decide (kickers hv = Some (kickersOf (rank hv) (value hv))).

Definition isRankValue (z : Z) : Prop := 2 ≤ z ≤ 14.

Definition rankRange : list Z := seqZ 2 13.

(** [p] holds of all non-increasing five-tuples of rank values. *)
Definition forSorted5 (p : list Z → bool) : bool :=
  forallb (λ a, forallb (λ b, if decide (b ≤ a) then
  forallb (λ c, if decide (c ≤ b) then
  forallb (λ d, if decide (d ≤ c) then
  forallb (λ e, if decide (e ≤ d) then p [a; b; c; d; e] else true)
    rankRange else true) rankRange else true) rankRange else true)
    rankRange) rankRange.

Definition rankValuesOf (cards : list Card) : list Z :=
  map (λ c, rankValues (card_rank c)) cards.

(** ** The order of the loop of [evaluateHand] *)

(** The [bestHand] the loop starts from. *)
Definition startHand : HandValue :=
  {| rank := 0; value := 0; description := "High Card"; kickers := Some [] |}.

(** [keyLe a b]: [a] does not beat [b] in the order on (rank, value). *)
Definition keyLe (a b : HandValue) : Prop :=
  rank a < rank b ∨ (rank a = rank b ∧ value a ≤ value b).

(** ** Sorted entries *)


(** ** Hands, boards and tables of the examples *)

Definition wheelHand : list Card :=
  [mkCard RA Spades; mkCard R2 Hearts; mkCard R3 Diamonds; mkCard R4 Clubs;
   mkCard R5 Spades].

Definition sixHighHand : list Card :=
  [mkCard R6 Spades; mkCard R5 Hearts; mkCard R4 Diamonds; mkCard R3 Clubs;
   mkCard R2 Spades].

Definition broadwayHand : list Card :=
  [mkCard RA Hearts; mkCard RK Spades; mkCard RQ Diamonds; mkCard RJ Clubs;
   mkCard RT Spades].

Definition sevenCards : list Card :=
  [mkCard RK Spades; mkCard RJ Hearts; mkCard R9 Spades; mkCard R7 Spades;
   mkCard R4 Spades; mkCard R4 Hearts; mkCard RK Clubs].

Definition eightCards : list Card :=
  [mkCard RK Spades; mkCard RJ Hearts; mkCard R9 Spades; mkCard R7 Spades;
   mkCard R4 Spades; mkCard R4 Hearts; mkCard RK Clubs; mkCard R2 Diamonds].

Definition fiveAcesOfSpades : list Card := replicate 5 (mkCard RA Spades).

Definition flopOnly : list Card :=
  [mkCard RK Diamonds; mkCard R9 Spades; mkCard R4 Clubs].

Definition kingSevenDeuce : list Card :=
  [mkCard RK Diamonds; mkCard R7 Spades; mkCard R2 Clubs].

Definition jackTenEight : list Card :=
  [mkCard RJ Spades; mkCard RT Spades; mkCard R8 Hearts].

(** A table of two entries, weighing 0.74 and 0.26. *)
Definition mostlyCheck : Strategy :=
  [("check", 0.74%Q); ("bet_0.5", 0.26%Q)].

(** Raw weights that sum to 1.15. *)
Definition rawFacingBet : Strategy :=
  [("fold", 0.05%Q); ("call", 0.60%Q); ("raise_0.67", 0.25%Q);
   ("raise_1.0", 0.25%Q)].

(** The table [getAdvancedFacingRaiseStrategy] starts from. *)
Definition allZero : Strategy :=
  [("fold", 0%Q); ("call", 0%Q); ("raise_1.0", 0%Q); ("raise_1.5", 0%Q)].

(** ** Hands and boards of the further examples *)

Definition aceKing : list Card := [mkCard RA Spades; mkCard RK Hearts].

Definition pocketSevens : list Card := [mkCard R7 Spades; mkCard R7 Diamonds].

Definition queenJack : list Card := [mkCard RQ Clubs; mkCard RJ Clubs].

Global Instance completion_eq_dec {A} `{EqDecision A} :
  EqDecision (completion A).
Proof. solve_decision. Defined.

Definition kingHighRange : list string := ["AA"; "AKs"; "KQo"].

(** [p] holds of every ordered pair of cards of the deck. *)
Definition forCardPairs (p : Card → Card → bool) : bool :=
  forallb (λ c0, forallb (p c0) createDeck) createDeck.

(** What is checked of the category of every pair of cards. *)
Definition categoryChecked (c0 c1 : Card) : bool :=
  bool_decide (getHandCategory [c1; c0] = getHandCategory [c0; c1]) &&
  bool_decide (PreflopRanges.getHandCategory
                 [PreflopRanges.ofCard c0; PreflopRanges.ofCard c1]
               = getHandCategory [c0; c1]) &&
  match getHandCategory [c0; c1] with
  | Returned category =>
      Bool.eqb (bool_decide (String.length category = 2%nat))
               (bool_decide (card_rank c0 = card_rank c1))
  | Thrown _ => false
  end.

Definition aceKingSuited : list Card := [mkCard RA Spades; mkCard RK Spades].

Definition royalFlop : list Card :=
  [mkCard RQ Spades; mkCard RJ Spades; mkCard RT Spades].

(** ** Hand categories of the advanced solver *)

(** The categories in increasing strength. *)
Definition strengthOf (category : AdvancedGTOSolver.HandCategory) : nat :=
  match category with
  | AdvancedGTOSolver.weak => 0
  | AdvancedGTOSolver.marginal => 1
  | AdvancedGTOSolver.medium => 2
  | AdvancedGTOSolver.mediumStrong => 3
  | AdvancedGTOSolver.strong => 4
  | AdvancedGTOSolver.veryStrong => 5
  | AdvancedGTOSolver.nuts => 6
  end%nat.

(** What the metrics of two hole cards are before the flop. *)
Definition preflopChecked (c0 c1 : Card) : bool :=
  let metrics := AdvancedGTOSolver.calculateComprehensiveMetrics [c0; c1] [] in
  let equity := AdvancedGTOSolver.Metrics.equity metrics in
  let category := AdvancedGTOSolver.Metrics.handCategory metrics in
  if bool_decide (card_rank c0 = card_rank c1) then
    Qeq_bool equity 0.78 &&
    bool_decide (category = AdvancedGTOSolver.strong)
  else if bool_decide (13 ≤ Z.max (rankValues (card_rank c0))
                                  (rankValues (card_rank c1))) then
    Qeq_bool equity (0.35 + 0.05) &&
    bool_decide (strengthOf category ≤ 1)%nat
  else
    Qeq_bool equity 0.35 &&
    bool_decide (category = AdvancedGTOSolver.weak).

(** ** Counting suits and spans *)

(** How often a suit occurs in a list of suits. *)
Definition occurrences (s : Suit) (ss : list Suit) : nat :=
  length (filter (λ x, x = s) ss).

(** The spans [u[i] - u[i + 3]] the loop of [analyzeDraws] looks at. *)
Fixpoint windows (u : list Z) : list Z :=
  match u with
  | a :: rest =>
      match rest with
      | _ :: _ :: d :: _ => (a - d)%Z :: windows rest
      | _ => []
      end
  | [] => []
  end.

(** ** Feedback categories *)

(** How bad a category is, from ['best'] to ['blunder']. *)
Definition severity (c : Category) : nat :=
  match c with
  | Best => 0 | Correct => 1 | Inaccuracy => 2 | Wrong => 3 | Blunder => 4
  end%nat.

(** ** Training sessions *)

Global Instance Category_eq_dec : EqDecision Category.
Proof. solve_decision. Defined.

(** One hand of a session: it is dealt, and the player's action on it is
    graded with the given evaluation. *)
Definition playHand (session : PokerTrainer.Session)
    (played : PokerTrainer.Hand * PokerTrainer.Evaluation)
  : PokerTrainer.Session :=
  (PokerTrainer.handlePlayerAction played.1 (Returned played.2)
     (PokerTrainer.dealNewHand session)).1.

(** A session from its start. *)
Definition playAll (plays : list (PokerTrainer.Hand * PokerTrainer.Evaluation))
  : PokerTrainer.Session :=
  foldl playHand PokerTrainer.resetSession plays.

(** How many of the evaluations fell into a category. *)
Definition tally (c : Category)
    (plays : list (PokerTrainer.Hand * PokerTrainer.Evaluation)) : Z :=
  Z.of_nat (length (filter (λ p, PokerTrainer.category p.2 = c) plays)).

(** The history item of the hand dealt as number [n]. *)
Definition itemOf (i : nat)
    (played : PokerTrainer.Hand * PokerTrainer.Evaluation)
  : PokerTrainer.HistoryItem.t :=
  {| PokerTrainer.HistoryItem.handNum := Z.of_nat i + 1;
     PokerTrainer.HistoryItem.heroHand := PokerTrainer.heroHand played.1;
     PokerTrainer.HistoryItem.board := PokerTrainer.board played.1;
     PokerTrainer.HistoryItem.category := PokerTrainer.category played.2;
     PokerTrainer.HistoryItem.evaluation := played.2 |}.

Definition thirtyBest
  : list (PokerTrainer.Hand * PokerTrainer.Evaluation) :=
  replicate 30 (PokerTrainer.mkHand aceKing flopOnly,
                PokerTrainer.mkEvaluation Best 0%Q).

(** ** Counting combinations *)

(** The binomial coefficient, by Pascal's rule. *)
Fixpoint choose (n k : nat) : nat :=
  match k with
  | O => 1
  | S k' =>
      match n with
      | O => 0
      | S n' => choose n' k' + choose n' k
      end
  end%nat.

(** ** Hands in letters *)

(** The letter of a suit in the notation [parseHand] reads, as in
    ["AhKd"]: h, d, c or s, in capitals when [upper] is set. *)
Definition suitLetter (upper : bool) (s : Suit) : N :=
  let letter :=
    match s with
    | Hearts => 104 | Diamonds => 100 | Clubs => 99 | Spades => 115
    end%N in
  if upper then (letter - 32)%N else letter.

Definition inLetters (written : bool * Card) : JsString :=
  [rankUnit (card_rank written.2); suitLetter written.1 (card_suit written.2)].

(** ** Scenarios *)

(** The card of the deck that a card of the range tables stands for. *)
Definition toCard (h : PreflopRanges.RawCard) : option Card :=
  match PreflopRanges.rank h with
  | Some ch =>
      match find (λ r, Ascii.eqb (PreflopRanges.rankChar r) ch) ranks with
      | Some r => Some (mkCard r (PreflopRanges.suit h))
      | None => None
      end
  | None => None
  end.

(** A hand of two different cards of the deck. *)
Definition handMade (hand : list PreflopRanges.RawCard) : bool :=
  match hand with
  | [h0; h1] =>
      match toCard h0, toCard h1 with
      | Some c0, Some c1 => bool_decide (c0 ≠ c1)
      | _, _ => false
      end
  | _ => false
  end.

(** Every hand generated for the range is such a hand, and has the
    category it was generated for. *)
Definition rangeMade (range : list string) : bool :=
  forallb (λ category,
    forallb (λ hand,
      handMade hand &&
      bool_decide (PreflopRanges.getHandCategory hand = Returned category))
      (PreflopRanges.getCategoryHands category)) range.

(** The tables [getRange] reads. *)
Definition rangeTables : list (string * list string) :=
  PreflopRanges.openingRanges ++ PreflopRanges.callingRangesIP
  ++ PreflopRanges.callingRangesOOP ++ PreflopRanges.threeBetRanges.

(** The deck without two cards has 50 cards left, or 51 when the two are
    the same. *)
Definition flopDeckChecked (c0 c1 : Card) : bool :=
  let hand := [PreflopRanges.ofCard c0; PreflopRanges.ofCard c1] in
  let deck :=
    filter (λ card,
      existsb (λ h,
        bool_decide (PreflopRanges.rank h
                     = Some (PreflopRanges.rankChar (card_rank card))) &&
        bool_decide (PreflopRanges.suit h = card_suit card)) hand
      = false) createDeck in
  bool_decide (length deck = if decide (c0 = c1) then 51 else 50)%nat &&
  forallb (λ card, bool_decide (card ≠ c0 ∧ card ≠ c1)) deck.

(** Results of [Math.random()]. *)
Definition validRandoms (randoms : list Q) : Prop :=
  Forall (λ u, 0 <= u ∧ u < 1)%Q randoms.

Definition manyRandoms : list Q := replicate 55 0.5%Q.

(** * Properties *)

(** Splits the boolean conjunctions and unpacks the decisions among the
    hypotheses. *)
Ltac unbool :=
  repeat match goal with
         | H : _ && _ = true |- _ => apply andb_true_iff in H as [? ?]
         | H : _ || _ = true |- _ => apply orb_true_iff in H as [H|H]
         | H : bool_decide _ = true |- _ => apply bool_decide_eq_true in H
         end.

(** ** Sorting and counting do not depend on the order of the cards *)

Section order_independence.

Local Instance flip_Zle_trans : Transitive (flip Z.le).
Proof. intros x y z; unfold flip; lia. Qed.
Local Instance flip_Zle_antisymm : AntiSymm (=) (flip Z.le).
Proof. intros x y; unfold flip; lia. Qed.
Local Instance flip_Zle_total : Total (flip Z.le).
Proof. intros x y; unfold flip; lia. Qed.
Local Instance flip_le_trans : Transitive (flip le).
Proof. intros x y z; unfold flip; lia. Qed.
Local Instance flip_le_antisymm : AntiSymm (=) (flip le).
Proof. intros x y; unfold flip; lia. Qed.
Local Instance flip_le_total : Total (flip le).
Proof. intros x y; unfold flip; lia. Qed.

Lemma sortDesc_Permutation l : sortDesc l ≡ₚ l.
Proof. apply merge_sort_Permutation. Qed.

Lemma sortDesc_Sorted l : Sorted (flip Z.le) (sortDesc l).
Proof. apply Sorted_merge_sort, _. Qed.

Lemma sortDesc_perm l l' : l ≡ₚ l' → sortDesc l = sortDesc l'.
Proof.
  intros Hl. apply (Sorted_unique (flip Z.le)); try apply sortDesc_Sorted.
  by rewrite !sortDesc_Permutation.
Qed.

Lemma sortDescNat_perm l l' : l ≡ₚ l' → sortDescNat l = sortDescNat l'.
Proof.
  intros Hl. apply (Sorted_unique (flip le));
    try (apply Sorted_merge_sort, _).
  unfold sortDescNat. by rewrite !merge_sort_Permutation.
Qed.

Lemma sortDesc_idemp l : sortDesc (sortDesc l) = sortDesc l.
Proof. apply sortDesc_perm, sortDesc_Permutation. Qed.

Lemma countRank_comm m a b :
  countRank (countRank m a) b = countRank (countRank m b) a.
Proof.
  unfold countRank. destruct (decide (a = b)) as [->|Hab]; [done|].
  rewrite !lookup_insert_ne by done. by apply insert_insert_ne.
Qed.

Lemma foldl_countRank_perm l l' :
  l ≡ₚ l' → ∀ m, foldl countRank m l = foldl countRank m l'.
Proof.
  induction 1 as [|x l l' _ IH|x y l|l l' l'' _ IH _ IH']; intros m; simpl.
  - done.
  - apply IH.
  - by rewrite countRank_comm.
  - by rewrite IH.
Qed.

Lemma rankCountsOf_perm l l' : l ≡ₚ l' → rankCountsOf l = rankCountsOf l'.
Proof. intros Hl. by apply foldl_countRank_perm. Qed.

Lemma allSameSuit_spec ss :
  allSameSuit ss = true ↔ ∀ x y, x ∈ ss → y ∈ ss → x = y.
Proof.
  destruct ss as [|s0 ss]; simpl.
  { split; [|done]. intros _ x y Hx. by apply elem_of_nil in Hx. }
  rewrite bool_decide_true by done. simpl. rewrite forallb_forall.
  split.
  - intros Hall x y Hx Hy.
    assert (∀ z, z ∈ s0 :: ss → z = s0) as Hz.
    { intros z [->|Hz]%elem_of_cons; [done|].
      apply list_elem_of_In, Hall in Hz. by apply bool_decide_eq_true in Hz. }
    by rewrite (Hz x Hx), (Hz y Hy).
  - intros Hall z Hz%list_elem_of_In. apply bool_decide_eq_true.
    apply Hall; [by right|by left].
Qed.

Lemma allSameSuit_perm ss ss' : ss ≡ₚ ss' → allSameSuit ss = allSameSuit ss'.
Proof.
  intros Hss. apply eq_true_iff_eq. rewrite !allSameSuit_spec.
  by setoid_rewrite Hss.
Qed.

Lemma classify_perm rs rs' f : rs ≡ₚ rs' → classify rs f = classify rs' f.
Proof.
  intros Hrs. unfold classify.
  by rewrite (rankCountsOf_perm _ _ Hrs), (sortDesc_perm _ _ Hrs).
Qed.

Lemma evaluateFiveCards_perm cards cards' :
  cards ≡ₚ cards' → evaluateFiveCards cards = evaluateFiveCards cards'.
Proof.
  intros Hc. unfold evaluateFiveCards.
  rewrite (allSameSuit_perm _ (map card_suit cards')) by by apply fmap_Permutation.
  apply classify_perm. by apply fmap_Permutation.
Qed.

End order_independence.

(** ** The value encodes the tiebreak sequence *)

Lemma forSorted5_spec p a b c d e :
  forSorted5 p = true →
  a ∈ rankRange → b ∈ rankRange → c ∈ rankRange → d ∈ rankRange →
  e ∈ rankRange → b ≤ a → c ≤ b → d ≤ c → e ≤ d →
  p [a; b; c; d; e] = true.
Proof.
  unfold forSorted5. intros Hp Ha Hb Hc Hd He Hba Hcb Hdc Hed.
  rewrite forallb_forall in Hp. apply list_elem_of_In, Hp in Ha.
  rewrite forallb_forall in Ha. apply list_elem_of_In, Ha in Hb.
  rewrite decide_True in Hb by done.
  rewrite forallb_forall in Hb. apply list_elem_of_In, Hb in Hc.
  rewrite decide_True in Hc by done.
  rewrite forallb_forall in Hc. apply list_elem_of_In, Hc in Hd.
  rewrite decide_True in Hd by done.
  rewrite forallb_forall in Hd. apply list_elem_of_In, Hd in He.
  by rewrite decide_True in He by done.
Qed.

Lemma classified_sorted :
  forSorted5 (λ rs, classified rs true && classified rs false) = true.
Proof. vm_compute. reflexivity. Qed.

Lemma rankValues_range r : isRankValue (rankValues r).
Proof. unfold isRankValue. destruct r; simpl; lia. Qed.

Lemma sorted5_shape rs :
  length rs = 5%nat → Forall isRankValue rs →
  ∃ a b c d e, sortDesc rs = [a; b; c; d; e] ∧
    a ∈ rankRange ∧ b ∈ rankRange ∧ c ∈ rankRange ∧ d ∈ rankRange ∧
    e ∈ rankRange ∧ b ≤ a ∧ c ≤ b ∧ d ≤ c ∧ e ≤ d.
Proof.
  intros Hlen Hall.
  pose proof (sortDesc_Sorted rs) as Hs.
  pose proof (sortDesc_Permutation rs) as Hp.
  assert (length (sortDesc rs) = 5%nat) as Hl by by rewrite Hp.
  rewrite <-Hp in Hall.
  destruct (sortDesc rs) as [|a [|b [|c [|d [|e [|??]]]]]]; simplify_eq/=.
  exists a, b, c, d, e.
  repeat match goal with
         | H : Forall _ (_ :: _) |- _ => apply Forall_cons in H as [? H]
         | H : Sorted _ (_ :: _) |- _ => apply Sorted_inv in H as [H ?]
         | H : HdRel _ _ (_ :: _) |- _ => apply HdRel_inv in H
         end.
  unfold isRankValue, flip, rankRange in *.
  rewrite !elem_of_seqZ. repeat split; lia.
Qed.

Lemma classify_classified rs f :
  length rs = 5%nat → Forall isRankValue rs → classified rs f = true.
Proof.
  intros Hlen Hall.
  destruct (sorted5_shape rs Hlen Hall)
    as (a & b & c & d & e & Hs & Ha & Hb & Hc & Hd & He & ? & ? & ? & ?).
  pose proof (forSorted5_spec _ a b c d e classified_sorted
                Ha Hb Hc Hd He) as Hok.
  rewrite andb_true_iff in Hok.
  assert (classified rs f = classified (sortDesc rs) f) as ->.
  { unfold classified.
    by rewrite sortDesc_idemp, (classify_perm (sortDesc rs) rs)
      by apply sortDesc_Permutation. }
  rewrite Hs. destruct f; apply Hok; done.
Qed.

(** ** [getCombinations] lists exactly the sub-sequences of the given size *)

Lemma getCombinations_unfold {A} (arr : list A) (n : nat) :
  getCombinations arr (S (S n)) =
    if decide (length arr < S (S n))%nat then []
    else if decide (S (S n) = length arr) then [arr]
    else flat_map
           (λ i, match arr !! i with
                 | Some head =>
                     map (cons head) (getCombinations (drop (S i) arr) (S n))
                 | None => []
                 end)
           (seq 0 (S (length arr - S (S n)))).
Proof. reflexivity. Qed.

Lemma sublist_same_length {A} (l k : list A) :
  l `sublist_of` k → length l = length k → l = k.
Proof.
  induction 1 as [|x l k _ IH|x l k Hs _]; simpl; intros Hlen.
  - done.
  - f_equal. apply IH. lia.
  - apply sublist_length in Hs. lia.
Qed.

Lemma sublist_singleton {A} (x : A) (l : list A) : [x] `sublist_of` l ↔ x ∈ l.
Proof.
  rewrite sublist_cons_l. split.
  - intros (k1 & k2 & -> & _). set_solver.
  - intros (k1 & k2 & ->)%list_elem_of_split.
    exists k1, k2. split; [done|apply sublist_nil_l].
Qed.

Lemma elem_of_getCombinations {A} (n : nat) :
  ∀ (arr combo : list A),
    combo ∈ getCombinations arr (S n) ↔
    combo `sublist_of` arr ∧ length combo = S n.
Proof.
  induction n as [|n IH]; intros arr combo.
  - (* size 1 *)
    cbn [getCombinations]. repeat case_decide.
    + rewrite elem_of_nil. split; [done|].
      intros [Hs%sublist_length ?]. lia.
    + rewrite list_elem_of_singleton. split.
      * intros ->. split; [done|lia].
      * intros [Hs Hl]. apply sublist_same_length; [done|lia].
    + rewrite list_elem_of_In, in_map_iff. split.
      * intros (x & <- & Hx%list_elem_of_In). by rewrite sublist_singleton.
      * intros [Hs Hl]. destruct combo as [|x [|??]]; simplify_eq/=.
        exists x. split; [done|]. by apply list_elem_of_In, sublist_singleton.
  - rewrite getCombinations_unfold. repeat case_decide.
    + rewrite elem_of_nil. split; [done|].
      intros [Hs%sublist_length ?]. lia.
    + rewrite list_elem_of_singleton. split.
      * intros ->. split; [done|lia].
      * intros [Hs Hl]. apply sublist_same_length; [done|lia].
    + rewrite list_elem_of_In, in_flat_map. split.
      * intros (i & _ & Hin).
        destruct (arr !! i) as [head|] eqn:Hi; [|done].
        apply in_map_iff in Hin as (t & <- & Ht%list_elem_of_In).
        apply IH in Ht as [Ht Hl]. split; [|simpl; lia].
        rewrite <-(take_drop_middle arr i head Hi).
        apply sublist_inserts_l. by constructor.
      * intros [Hs Hl]. destruct combo as [|head t]; [done|].
        apply sublist_cons_l in Hs as (k1 & k2 & -> & Ht).
        pose proof (sublist_length _ _ Ht) as Hk2.
        assert (length (k1 ++ head :: k2) = length k1 + S (length k2))%nat
          as Hlen by (by rewrite length_app).
        assert (length t = S n) as Hlt by (simpl in Hl; lia).
        exists (length k1). split.
        { apply in_seq. lia. }
        rewrite list_lookup_middle by done.
        apply in_map_iff. exists t. split; [done|].
        apply list_elem_of_In, IH. split; [|lia].
        replace (S (length k1)) with (length (k1 ++ [head]))
          by (rewrite length_app; simpl; lia).
        by rewrite (assoc_L (++) k1 [head] k2 : k1 ++ head :: k2 = _), drop_app_length.
Qed.

Lemma getCombinations_perm {A} (n : nat) (arr arr' combo : list A) :
  arr ≡ₚ arr' → combo ∈ getCombinations arr (S n) →
  ∃ combo', combo' ≡ₚ combo ∧ combo' ∈ getCombinations arr' (S n).
Proof.
  intros Harr [Hs Hl]%elem_of_getCombinations.
  apply sublist_submseteq in Hs. rewrite Harr in Hs.
  apply submseteq_sublist_r in Hs as (combo' & Hp & Hs').
  exists combo'. split; [done|].
  apply elem_of_getCombinations. split; [done|]. by rewrite <-Hp.
Qed.

(** ** Hands with the same rank and value *)

Lemma classified_same_key rs1 f1 rs2 f2 :
  classified rs1 f1 = true → classified rs2 f2 = true →
  rank (classify rs1 f1) = rank (classify rs2 f2) →
  value (classify rs1 f1) = value (classify rs2 f2) →
  classify rs1 f1 = classify rs2 f2 ∨
  (sortDesc rs1 = wheelRanks ∧ sortDesc rs2 = broadwayRanks) ∨
  (sortDesc rs1 = broadwayRanks ∧ sortDesc rs2 = wheelRanks).
Proof.
  unfold classified, aceHighStraight.
  destruct (classify rs1 f1) as [rk1 v1 d1 k1].
  destruct (classify rs2 f2) as [rk2 v2 d2 k2]. simpl.
  intros H1 H2 -> ->.
  apply andb_true_iff in H1 as [H1 Hk1]. apply andb_true_iff in H2 as [H2 Hk2].
  unbool. subst d1 d2.
  destruct (bool_decide (v2 = 14) &&
            (bool_decide (rk2 = 8) || bool_decide (rk2 = 4)));
    unbool; simplify_eq; try (left; congruence); auto.
Qed.

Lemma rankValuesOf_range cards : Forall isRankValue (rankValuesOf cards).
Proof.
  unfold rankValuesOf. induction cards; constructor; [|done].
  apply rankValues_range.
Qed.

Lemma evaluateFiveCards_classified cards :
  length cards = 5%nat →
  classified (rankValuesOf cards) (allSameSuit (map card_suit cards)) = true.
Proof.
  intros Hlen. apply classify_classified.
  - unfold rankValuesOf. by rewrite length_map.
  - apply rankValuesOf_range.
Qed.

(** On five cards no [find] and no index of the classifier comes back
    empty: every kicker reported is a rank value of the hand's range. *)
Lemma kickers_defined cards :
  length cards = 5%nat →
  ∃ ks, kickers (evaluateFiveCards cards) = Some ks ∧ Forall isRankValue ks.
Proof.
  intros Hlen. pose proof (evaluateFiveCards_classified cards Hlen) as Hc.
  unfold classified in Hc. fold (rankValuesOf cards) in Hc.
  unfold evaluateFiveCards. fold (rankValuesOf cards).
  destruct (classify _ _) as [rk v d [ks|]]; simpl in Hc.
  - exists ks. split; [done|].
    unbool. apply Forall_forall. intros k Hk%list_elem_of_In.
    match goal with
    | H : forallb _ ks = true |- _ => rewrite forallb_forall in H;
        apply H in Hk
    end.
    by apply bool_decide_eq_true in Hk.
  - by rewrite !andb_false_r in Hc.
Qed.

(** No list of at most eight cards holds both a wheel and an ace-high
    straight: together they need nine different ranks. *)
Lemma rankValuesOf_sublist combo cards x :
  combo `sublist_of` cards →
  x ∈ sortDesc (rankValuesOf combo) → x ∈ rankValuesOf cards.
Proof.
  intros Hs. rewrite sortDesc_Permutation. unfold rankValuesOf.
  rewrite !list_elem_of_In, !in_map_iff.
  intros (cd & <- & Hcd%list_elem_of_In). exists cd. split; [done|].
  by apply list_elem_of_In, (sublist_subseteq _ _ Hs).
Qed.

Lemma wheel_and_broadway_need_nine cards combo1 combo2 :
  combo1 `sublist_of` cards → combo2 `sublist_of` cards →
  sortDesc (rankValuesOf combo1) = wheelRanks →
  sortDesc (rankValuesOf combo2) = broadwayRanks →
  (9 ≤ length cards)%nat.
Proof.
  intros Hs1 Hs2 Hw Hb.
  assert (wheelRanks ++ [13; 12; 11; 10] ⊆+ rankValuesOf cards) as Hsub.
  { apply NoDup_submseteq.
    - apply (bool_decide_unpack _). by vm_compute.
    - intros x [Hx|Hx]%elem_of_app.
      + apply (rankValuesOf_sublist combo1); [done|]. by rewrite Hw.
      + apply (rankValuesOf_sublist combo2); [done|]. rewrite Hb. by right. }
  apply submseteq_length in Hsub. unfold rankValuesOf in Hsub.
  rewrite length_map in Hsub. simpl in Hsub. lia.
Qed.

(** ** The loop of [evaluateHand] keeps a maximal evaluation *)

Lemma beats_spec e b : beats e b = true ↔ ¬ keyLe e b.
Proof.
  unfold beats, keyLe.
  rewrite orb_true_iff, andb_true_iff, !bool_decide_eq_true. lia.
Qed.

Lemma keyLe_refl a : keyLe a a.
Proof. unfold keyLe. lia. Qed.

Lemma keyLe_trans a b c : keyLe a b → keyLe b c → keyLe a c.
Proof. unfold keyLe. lia. Qed.

Lemma keyLe_antisym a b :
  keyLe a b → keyLe b a → rank a = rank b ∧ value a = value b.
Proof. unfold keyLe. lia. Qed.

Lemma keyLe_total a b : keyLe a b ∨ keyLe b a.
Proof. unfold keyLe. lia. Qed.

Lemma foldl_keepBest combos :
  ∀ bestHand,
    let r := foldl keepBest bestHand combos in
    (r = bestHand ∨ ∃ combo, combo ∈ combos ∧ r = evaluateFiveCards combo)
    ∧ keyLe bestHand r
    ∧ ∀ combo, combo ∈ combos → keyLe (evaluateFiveCards combo) r.
Proof.
  induction combos as [|x combos IH]; intros bestHand; simpl.
  - split; [by left|]. split; [apply keyLe_refl|].
    intros combo Hc. by apply elem_of_nil in Hc.
  - set (b' := keepBest bestHand x).
    destruct (IH b') as (Hr & Hle & Hmax).
    assert ((b' = bestHand ∨ b' = evaluateFiveCards x) ∧
            keyLe bestHand b' ∧ keyLe (evaluateFiveCards x) b')
      as (Hb' & Hb & Hx).
    { subst b'. unfold keepBest.
      destruct (beats (evaluateFiveCards x) bestHand) eqn:Hbeat.
      - apply beats_spec in Hbeat. split; [by right|].
        split; [|apply keyLe_refl].
        by destruct (keyLe_total bestHand (evaluateFiveCards x)).
      - split; [by left|]. split; [apply keyLe_refl|].
        apply not_true_iff_false in Hbeat. rewrite beats_spec in Hbeat.
        by apply dec_stable in Hbeat. }
    split; [|split].
    + destruct Hr as [Hr|(combo & Hin & Hr)].
      * rewrite Hr. destruct Hb' as [->| ->]; [by left|].
        right. exists x. split; [by left|done].
      * right. exists combo. split; [by right|done].
    + by eapply keyLe_trans.
    + intros combo [->|Hin]%elem_of_cons; [by eapply keyLe_trans|by apply Hmax].
Qed.

Lemma getCombinations_nonempty (cards : list Card) :
  (5 ≤ length cards)%nat → take 5 cards ∈ getCombinations cards 5.
Proof.
  intros Hlen. apply elem_of_getCombinations. split.
  - apply sublist_take.
  - rewrite length_take. lia.
Qed.

Lemma combo_length (cards combo : list Card) :
  combo ∈ getCombinations cards 5 → length combo = 5%nat.
Proof. by intros [_ ?]%elem_of_getCombinations. Qed.

Lemma evaluateFiveCards_beats_start combo :
  length combo = 5%nat → ¬ keyLe (evaluateFiveCards combo) startHand.
Proof.
  intros Hlen. pose proof (evaluateFiveCards_classified combo Hlen) as Hc.
  unfold classified in Hc. fold (rankValuesOf combo) in Hc.
  unfold evaluateFiveCards. fold (rankValuesOf combo).
  destruct (classify _ _) as [rk v d k]. simpl in Hc.
  unbool. unfold keyLe, startHand. simpl. lia.
Qed.

(** With five cards or more, [evaluateHand] returns the evaluation of one
    of the five-card combinations, and no combination beats it. *)
Lemma evaluateHand_best cards :
  (5 ≤ length cards)%nat →
  ∃ combo, combo ∈ getCombinations cards 5 ∧
    evaluateHand cards = evaluateFiveCards combo ∧
    ∀ combo', combo' ∈ getCombinations cards 5 →
      keyLe (evaluateFiveCards combo') (evaluateHand cards).
Proof.
  intros Hlen. unfold evaluateHand. rewrite decide_False by lia.
  fold startHand.
  destruct (foldl_keepBest (getCombinations cards 5) startHand)
    as (Hr & _ & Hmax).
  destruct Hr as [Hr|(combo & Hin & Hr)]; [|by exists combo].
  pose proof (getCombinations_nonempty cards Hlen) as Hin.
  pose proof (Hmax _ Hin) as Hle. rewrite Hr in Hle.
  by apply evaluateFiveCards_beats_start in Hle; [|eapply combo_length].
Qed.

(** ** Comparing five-card hands *)

Lemma compareHandValue_Eq a b :
  compareHandValue a b = Eq ↔ rank a = rank b ∧ value a = value b.
Proof.
  unfold compareHandValue.
  destruct (Z.compare_spec (rank a) (rank b));
    destruct (Z.compare_spec (value a) (value b)); split;
    try done; try lia; intros [??]; lia.
Qed.

Lemma compareHandValue_antisym a b :
  compareHandValue b a = CompOpp (compareHandValue a b).
Proof.
  unfold compareHandValue.
  rewrite (Z.compare_antisym (rank a)), (Z.compare_antisym (value a)).
  by destruct (rank a ?= rank b), (value a ?= value b).
Qed.

Lemma compareHandValue_Lt a b :
  compareHandValue a b = Lt ↔
  rank a < rank b ∨ (rank a = rank b ∧ value a < value b).
Proof.
  unfold compareHandValue.
  destruct (Z.compare_spec (rank a) (rank b));
    destruct (Z.compare_spec (value a) (value b)); split;
    try done; try lia; intros _; lia.
Qed.

Lemma compareHandValue_trans a b c :
  compareHandValue a b = Lt → compareHandValue b c = Lt →
  compareHandValue a c = Lt.
Proof. rewrite !compareHandValue_Lt. lia. Qed.

(** Two five-card hands that compare equal have the same hand value, the
    full tiebreak sequence included, unless one is the wheel and the other
    an ace-high straight. *)
Lemma evaluateFiveCards_tie hand1 hand2 :
  length hand1 = 5%nat → length hand2 = 5%nat →
  compareHandValue (evaluateFiveCards hand1) (evaluateFiveCards hand2) = Eq →
  evaluateFiveCards hand1 = evaluateFiveCards hand2 ∨
  (sortDesc (rankValuesOf hand1) = wheelRanks ∧
   sortDesc (rankValuesOf hand2) = broadwayRanks) ∨
  (sortDesc (rankValuesOf hand1) = broadwayRanks ∧
   sortDesc (rankValuesOf hand2) = wheelRanks).
Proof.
  intros H1 H2 [Hr Hv]%compareHandValue_Eq.
  apply classified_same_key; try done; by apply evaluateFiveCards_classified.
Qed.

(** ** Claims about the hand evaluator *)

(** C5.  For every list of five to seven cards and every permutation of it,
    [evaluateHand] returns the same hand value: rank, value, description
    and kickers do not depend on the order of the input. *)
Theorem evaluateHand_permutation cards cards' :
  (5 ≤ length cards ≤ 7)%nat → cards ≡ₚ cards' →
  evaluateHand cards = evaluateHand cards'.
Proof.
  intros [H5 H7] Hp.
  assert (5 ≤ length cards')%nat as H5' by by rewrite <-Hp.
  destruct (evaluateHand_best cards H5) as (c1 & Hin1 & He1 & Hmax1).
  destruct (evaluateHand_best cards' H5') as (c2 & Hin2 & He2 & Hmax2).
  destruct (getCombinations_perm 4 cards cards' c1 Hp Hin1)
    as (c1' & Hp1 & Hin1').
  symmetry in Hp.
  destruct (getCombinations_perm 4 cards' cards c2 Hp Hin2)
    as (c2' & Hp2 & Hin2').
  pose proof (Hmax1 c2' Hin2') as Hle1.
  pose proof (Hmax2 c1' Hin1') as Hle2.
  rewrite (evaluateFiveCards_perm c2' c2 Hp2), <-He2 in Hle1.
  rewrite (evaluateFiveCards_perm c1' c1 Hp1), <-He1 in Hle2.
  destruct (keyLe_antisym _ _ Hle1 Hle2) as [Hr Hv].
  rewrite He1, He2, <-(evaluateFiveCards_perm c2' c2 Hp2) in *.
  apply elem_of_getCombinations in Hin1 as [Hs1 Hl1].
  apply elem_of_getCombinations in Hin2' as [Hs2 Hl2].
  destruct (evaluateFiveCards_tie c1 c2' Hl1 Hl2) as [Heq|[[Hw Hb]|[Hb Hw]]].
  - apply compareHandValue_Eq. by split.
  - done.
  - pose proof (wheel_and_broadway_need_nine cards c1 c2' Hs1 Hs2 Hw Hb). lia.
  - pose proof (wheel_and_broadway_need_nine cards c2' c1 Hs2 Hs1 Hw Hb). lia.
Qed.

Lemma evaluateHand_permutation_witness :
  (5 ≤ length sevenCards ≤ 7)%nat ∧ sevenCards ≡ₚ reverse sevenCards ∧
  evaluateHand sevenCards = evaluateHand (reverse sevenCards).
Proof.
  assert (5 ≤ length sevenCards ≤ 7)%nat as Hlen by (simpl; lia).
  assert (sevenCards ≡ₚ reverse sevenCards) as Hp
    by (apply (bool_decide_unpack _); vm_compute; exact I).
  split; [exact Hlen|]. split; [exact Hp|].
  exact (evaluateHand_permutation sevenCards (reverse sevenCards) Hlen Hp).
Defined.

(** C8.  For every input of fewer than five cards, [evaluateHand] returns
    the degenerate hand value of the lowest category (rank 0, value 0,
    "High Card"), without kickers, and raises nothing. *)
Theorem evaluateHand_fewer_than_five cards :
  (length cards < 5)%nat →
  evaluateHand cards =
    {| rank := 0; value := 0; description := "High Card"; kickers := None |}.
Proof. intros Hlen. unfold evaluateHand. by rewrite decide_True. Qed.

Lemma evaluateHand_fewer_than_five_witness :
  (length flopOnly < 5)%nat ∧
  evaluateHand flopOnly =
    {| rank := 0; value := 0; description := "High Card"; kickers := None |}.
Proof.
  assert (length flopOnly < 5)%nat as Hlen by (simpl; lia).
  split; [exact Hlen|]. exact (evaluateHand_fewer_than_five flopOnly Hlen).
Defined.

(** ** Board texture *)

Section rank_counts.

(** Counting adds up: the counts of a rank list sum to its length, and no
    stored count is zero. *)
Lemma countRank_total m r n :
  sum_list (map_to_list m).*2 = n → map_Forall (λ _ c, 1 ≤ c)%nat m →
  sum_list (map_to_list (countRank m r)).*2 = S n ∧
  map_Forall (λ _ c, 1 ≤ c)%nat (countRank m r).
Proof.
  intros Hsum Hpos. unfold countRank. split.
  - destruct (m !! r) as [c|] eqn:Hr; simpl.
    + rewrite <-(insert_delete_eq m r).
      rewrite <-(insert_delete_id m r c) in Hsum by done.
      rewrite map_to_list_insert in Hsum by apply lookup_delete_eq.
      rewrite map_to_list_insert by apply lookup_delete_eq.
      simpl in *. lia.
    + rewrite map_to_list_insert by done.
      change (S (sum_list (map_to_list m).*2) = S n). by rewrite Hsum.
  - apply map_Forall_insert_2; [simpl; lia|done].
Qed.

Lemma rankCountsOf_total rs :
  sum_list (map_to_list (rankCountsOf rs)).*2 = length rs ∧
  map_Forall (λ _ c, 1 ≤ c)%nat (rankCountsOf rs).
Proof.
  unfold rankCountsOf.
  assert (∀ m n,
    sum_list (map_to_list m).*2 = n → map_Forall (λ _ c, 1 ≤ c)%nat m →
    sum_list (map_to_list (foldl countRank m rs)).*2 = (n + length rs)%nat ∧
    map_Forall (λ _ c, 1 ≤ c)%nat (foldl countRank m rs)) as Hgen.
  { induction rs as [|r rs IH]; intros m n Hsum Hpos; simpl.
    - split; [lia|done].
    - destruct (countRank_total m r n Hsum Hpos) as [Hsum' Hpos'].
      destruct (IH _ _ Hsum' Hpos') as [? ?]. split; [lia|done]. }
  apply (Hgen ∅ 0%nat); [by rewrite map_to_list_empty|].
  apply map_Forall_empty.
Qed.

Lemma sum_list_with_large (l : list nat) c :
  Forall (λ x, 1 ≤ x)%nat l → c ∈ l → (3 ≤ c)%nat →
  (length l + 2 ≤ sum_list l)%nat.
Proof.
  induction 1 as [|x l Hx Hl IH]; intros Hc Hge.
  - by apply elem_of_nil in Hc.
  - assert (length l ≤ sum_list l)%nat as Hlen.
    { clear -Hl. induction Hl; simpl; lia. }
    apply elem_of_cons in Hc as [->|Hc]; simpl; [lia|].
    specialize (IH Hc Hge). lia.
Qed.

(** A rank that occurs three times leaves fewer ranks than cards. *)
Lemma trips_paired rs :
  existsb (λ c, bool_decide (3 ≤ c)%nat)
          (map_to_list (rankCountsOf rs)).*2 = true →
  (length (map_to_list (rankCountsOf rs)).*1 < length rs)%nat.
Proof.
  intros (c & Hc%list_elem_of_In & Hge%bool_decide_eq_true)%existsb_exists.
  destruct (rankCountsOf_total rs) as [Hsum Hpos].
  assert (Forall (λ x, 1 ≤ x)%nat (map_to_list (rankCountsOf rs)).*2) as Hall.
  { apply Forall_fmap, Forall_forall. intros [k x] Hkx. simpl.
    apply elem_of_map_to_list in Hkx. by apply (Hpos k). }
  pose proof (sum_list_with_large _ c Hall Hc Hge) as Hlarge.
  rewrite !length_fmap in *. lia.
Qed.

End rank_counts.

Lemma wetnessOf_range f1 f2 f3 f4 f5 f6 f7 f8 f9 :
  (0 <= AdvancedGTOSolver.wetnessOf f1 f2 f3 f4 f5 f6 f7 f8 f9 <= 1)%Q.
Proof.
  unfold AdvancedGTOSolver.wetnessOf. cbv zeta.
  match goal with |- (0 <= Qmax 0 (Qmin 1 ?x) <= 1)%Q => generalize x end.
  intros w.
  pose proof (Q.le_max_l 0 (Qmin 1 w)).
  pose proof (Q.le_min_l 1 w).
  split; [done|]. apply Q.max_lub; [lra|done].
Qed.

Lemma typeOf_spec (w : Q) (paired trips : bool) :
  (trips = true → paired = true) →
  (paired = true → AdvancedGTOSolver.typeOf w paired trips
                   = AdvancedGTOSolver.Paired) ∧
  (paired = false →
     ((0.7 <= w)%Q → AdvancedGTOSolver.typeOf w paired trips
                     = AdvancedGTOSolver.Wet) ∧
     ((w <= 0.35)%Q → AdvancedGTOSolver.typeOf w paired trips
                      = AdvancedGTOSolver.Dry) ∧
     ((0.35 < w)%Q → (w < 0.7)%Q →
        AdvancedGTOSolver.typeOf w paired trips = AdvancedGTOSolver.Medium)).
Proof.
  intros Htp. unfold AdvancedGTOSolver.typeOf.
  destruct paired, trips; simpl; try (specialize (Htp eq_refl)); try done.
  split; [done|]. intros _.
  destruct (Qle_bool 0.7 w) eqn:Hwet; [apply Qle_bool_iff in Hwet|];
    [|destruct (Qle_bool w 0.35) eqn:Hdry; [apply Qle_bool_iff in Hdry|]].
  - split; [done|]. split; intros; lra.
  - split; [|split; [done|intros; lra]].
    intros Hw%Qle_bool_iff. congruence.
  - split; [|split; [|done]].
    + intros Hw%Qle_bool_iff. congruence.
    + intros Hw%Qle_bool_iff. congruence.
Qed.

(** C6.  For every board of three to five cards the analyser returns a
    texture whose wetness lies in [0,1]; a paired board is classified
    paired, and any other board wet when the wetness is at least 0.7, dry
    when it is at most 0.35 and medium in between.  The board K♦ 7♠ 2♣ is
    dry and the board J♠ T♠ 8♥ is wet. *)
Theorem analyzeAdvancedBoardTexture_classification :
  (∀ board, (3 ≤ length board ≤ 5)%nat →
     ∃ t, AdvancedGTOSolver.analyzeAdvancedBoardTexture board
          = AdvancedGTOSolver.analysed t ∧
       (0 <= AdvancedGTOSolver.wetness t <= 1)%Q ∧
       (AdvancedGTOSolver.paired t = true →
          AdvancedGTOSolver.type t = AdvancedGTOSolver.Paired) ∧
       (AdvancedGTOSolver.paired t = false →
          ((0.7 <= AdvancedGTOSolver.wetness t)%Q →
             AdvancedGTOSolver.type t = AdvancedGTOSolver.Wet) ∧
          ((AdvancedGTOSolver.wetness t <= 0.35)%Q →
             AdvancedGTOSolver.type t = AdvancedGTOSolver.Dry) ∧
          ((0.35 < AdvancedGTOSolver.wetness t)%Q →
           (AdvancedGTOSolver.wetness t < 0.7)%Q →
             AdvancedGTOSolver.type t = AdvancedGTOSolver.Medium))) ∧
  (∃ t, AdvancedGTOSolver.analyzeAdvancedBoardTexture kingSevenDeuce
        = AdvancedGTOSolver.analysed t ∧
        AdvancedGTOSolver.type t = AdvancedGTOSolver.Dry) ∧
  (∃ t, AdvancedGTOSolver.analyzeAdvancedBoardTexture jackTenEight
        = AdvancedGTOSolver.analysed t ∧
        AdvancedGTOSolver.type t = AdvancedGTOSolver.Wet).
Proof.
  split; [|split].
  - intros board [H3 _].
    unfold AdvancedGTOSolver.analyzeAdvancedBoardTexture.
    rewrite decide_False by lia. cbv zeta.
    eexists. split; [reflexivity|]. cbn [AdvancedGTOSolver.wetness
      AdvancedGTOSolver.paired AdvancedGTOSolver.type].
    split; [apply wetnessOf_range|].
    apply typeOf_spec. intros Htrips%trips_paired.
    apply bool_decide_eq_true.
    by rewrite (length_map (λ c, rankValues (card_rank c)) board) in Htrips.
  - eexists. split; [by vm_compute|]. by vm_compute.
  - eexists. split; [by vm_compute|]. by vm_compute.
Qed.

Lemma analyzeAdvancedBoardTexture_classification_witness :
  (3 ≤ length kingSevenDeuce ≤ 5)%nat ∧
  ∃ t, AdvancedGTOSolver.analyzeAdvancedBoardTexture kingSevenDeuce
       = AdvancedGTOSolver.analysed t ∧
       (0 <= AdvancedGTOSolver.wetness t <= 1)%Q.
Proof.
  assert (3 ≤ length kingSevenDeuce ≤ 5)%nat as Hlen by (simpl; lia).
  split; [exact Hlen|].
  destruct (proj1 analyzeAdvancedBoardTexture_classification
              kingSevenDeuce Hlen) as (t & Ht & Hw & _).
  exists t. split; [exact Ht|exact Hw].
Defined.

(** ** Strategy objects *)

Section strategy_facts.
Local Open Scope Q_scope.


Lemma getProp_unique (strategy : Strategy) action w :
  isObject strategy → (action, w) ∈ strategy →
  getProp strategy action = Some w.
Proof.
  unfold isObject.
  induction strategy as [|[k v] rest IH]; simpl; intros Hnd Hin.
  { by apply elem_of_nil in Hin. }
  apply NoDup_cons in Hnd as [Hk Hnd].
  apply elem_of_cons in Hin as [[= -> ->]|Hin].
  - by rewrite String.eqb_refl.
  - destruct (String.eqb_spec k action) as [->|_]; [|by apply IH].
    destruct Hk. apply list_elem_of_fmap. by exists (action, w).
Qed.

Lemma orZero_Some w : orZero (Some w) == w.
Proof.
  unfold orZero. destruct (Qeq_bool w 0) eqn:Hw; [|done].
  apply Qeq_bool_iff in Hw. by rewrite Hw.
Qed.






Lemma foldl_Qplus_acc a (ws : list Q) :
  foldl Qplus a ws == a + foldl Qplus 0 ws.
Proof.
  revert a. induction ws as [|w ws IH]; intros a; cbn [foldl]; [ring|].
  rewrite (IH (a + w)), (IH (0 + w)). ring.
Qed.

Lemma totalWeight_cons k w (rest : Strategy) :
  totalWeight ((k, w) :: rest) == w + totalWeight rest.
Proof.
  unfold totalWeight. cbn [fmap list_fmap foldl snd].
  rewrite foldl_Qplus_acc. ring.
Qed.

Lemma totalWeight_scaled (strategy : Strategy) (t : Q) :
  ¬ t == 0 →
  totalWeight (map (λ entry, (entry.1, entry.2 / t)) strategy)
  == totalWeight strategy / t.
Proof.
  intros Ht. induction strategy as [|[k w] rest IH]; simpl.
  - unfold totalWeight. cbn [map fmap list_fmap foldl]. by field.
  - cbn [map fst snd]. rewrite !totalWeight_cons, IH. by field.
Qed.

Lemma totalWeight_nonneg (strategy : Strategy) :
  Forall (λ entry, 0 <= entry.2) strategy → 0 <= totalWeight strategy.
Proof.
  induction 1 as [|[k w] rest Hw _ IH].
  - unfold totalWeight. cbn [fmap list_fmap foldl]. lra.
  - rewrite totalWeight_cons. cbn [snd] in Hw. lra.
Qed.


Lemma scaled_nonneg (strategy : Strategy) (t : Q) :
  0 < t → Forall (λ entry, 0 <= entry.2) strategy →
  Forall (λ entry, 0 <= entry.2)
         (map (λ entry, (entry.1, entry.2 / t)) strategy).
Proof.
  intros Ht. induction 1 as [|[k w] rest Hw _ IH]; simpl; constructor;
    [|done].
  simpl in *. apply Qle_shift_div_l; [done|]. lra.
Qed.

Lemma scaled_keys (strategy : Strategy) (t : Q) :
  (map (λ entry, (entry.1, entry.2 / t)) strategy).*1 = strategy.*1.
Proof. induction strategy as [|[k w] rest IH]; simpl; [done|]. by f_equal. Qed.

End strategy_facts.

(** ** The grading ladder *)

Section grading.
Local Open Scope Q_scope.
Import AdvancedGTOSolver.


(** Once the sorted entries have a first element the call returns, and
    the result is built from that element. *)
Lemma evaluateAction_sorted playerAction (gtoStrategy : Strategy) top rest :
  sortEntries gtoStrategy = top :: rest →
  ∃ r,
    evaluateAction playerAction gtoStrategy = Returned r ∧
    playerFrequency r = orZero (getProp gtoStrategy playerAction) ∧
    optimalAction r = top.1 ∧ optimalFrequency r = top.2 ∧
    category r = (grade (playerFrequency r) top.2).1 ∧
    evLoss r = Qmin (grade (playerFrequency r) top.2).2 2.5.
Proof.
  intros Hsort. unfold evaluateAction. rewrite Hsort. cbv zeta.
  destruct (grade _ _) as [cat loss] eqn:Hg.
  eexists. split; [reflexivity|]. simpl.
  rewrite Hg. by repeat split.
Qed.






End grading.

(** ** Claims about normalisation and grading *)



(** C4.  When the raw weights do not sum to 0, both solvers' normalisation
    returns weights that sum to 1 and, the raw weights being non-negative,
    are non-negative; when they sum to 0 the table comes back unchanged.
    Normalisation is a total function: there is no division by zero to
    fail on. *)
Theorem normalizeStrategy_sums_to_one (strategy : Strategy) :
  (¬ (totalWeight strategy == 0)%Q →
     (totalWeight (AdvancedGTOSolver.normalizeStrategy strategy) == 1)%Q ∧
     (totalWeight (GTOSolver.normalizeStrategy strategy) == 1)%Q ∧
     (Forall (λ entry, 0 <= entry.2)%Q strategy →
        Forall (λ entry, 0 <= entry.2)%Q
               (AdvancedGTOSolver.normalizeStrategy strategy) ∧
        Forall (λ entry, 0 <= entry.2)%Q
               (GTOSolver.normalizeStrategy strategy))) ∧
  ((totalWeight strategy == 0)%Q →
     AdvancedGTOSolver.normalizeStrategy strategy = strategy ∧
     GTOSolver.normalizeStrategy strategy = strategy).
Proof.
  unfold AdvancedGTOSolver.normalizeStrategy, GTOSolver.normalizeStrategy.
  cbv zeta. split.
  - intros Hne.
    assert (Qeq_bool (totalWeight strategy) 0 = false) as ->.
    { apply not_true_iff_false. by rewrite Qeq_bool_iff. }
    assert (totalWeight (map (λ entry, (entry.1, (entry.2 / totalWeight strategy)%Q))
                             strategy) == 1)%Q as Hone.
    { rewrite totalWeight_scaled by done. by field. }
    simpl. destruct (Qeq_bool (totalWeight strategy) 1) eqn:H1.
    + apply Qeq_bool_iff in H1. split; [done|]. split; [done|].
      intros Hpos. split; [done|].
      apply scaled_nonneg; [lra|done].
    + split; [done|]. split; [done|].
      intros Hpos. pose proof (totalWeight_nonneg strategy Hpos) as Hge.
      assert (0 < totalWeight strategy)%Q as Hgt.
      { apply Qle_lteq in Hge as [Hlt|Heq]; [done|]. by destruct Hne. }
      split; by apply scaled_nonneg.
  - intros Hz%Qeq_bool_iff. by rewrite Hz.
Qed.

Lemma normalizeStrategy_sums_to_one_witness :
  ¬ (totalWeight rawFacingBet == 0)%Q ∧
  (totalWeight (AdvancedGTOSolver.normalizeStrategy rawFacingBet) == 1)%Q ∧
  (totalWeight allZero == 0)%Q ∧
  AdvancedGTOSolver.normalizeStrategy allZero = allZero.
Proof.
  assert (¬ (totalWeight rawFacingBet == 0)%Q) as Hne
    by (vm_compute; discriminate).
  assert (totalWeight allZero == 0)%Q as Hz by (vm_compute; reflexivity).
  split; [exact Hne|].
  split; [exact (proj1 (proj1 (normalizeStrategy_sums_to_one rawFacingBet)
                          Hne))|].
  split; [exact Hz|].
  exact (proj1 (proj2 (normalizeStrategy_sums_to_one allZero) Hz)).
Defined.






(** ** The wheel *)

(** C1, at the input where the code departs from it.  The wheel and the
    ace-high straight are both straights of value 14, so they compare
    equal although their tiebreak sequences differ. *)
Theorem wheel_ties_with_broadway :
  compareHandValue (evaluateFiveCards wheelHand)
                   (evaluateFiveCards broadwayHand) = Eq ∧
  kickers (evaluateFiveCards wheelHand) = Some [14; 5; 4; 3; 2] ∧
  kickers (evaluateFiveCards broadwayHand) = Some [14; 13; 12; 11; 10] ∧
  evaluateHand wheelHand ≠ evaluateHand broadwayHand.
Proof. by vm_compute. Qed.

(** C2, at the inputs where the code departs from it.  Every wheel of
    mixed suits is classified a straight, but its value is 14, the value of
    the ace-high straight, not 5: it beats every six-high straight instead
    of losing to it. *)
Theorem wheel_valued_as_ace_high (wheel sixHigh : list Card) :
  rankValuesOf wheel ≡ₚ [14; 2; 3; 4; 5] →
  allSameSuit (map card_suit wheel) = false →
  rankValuesOf sixHigh ≡ₚ [6; 5; 4; 3; 2] →
  allSameSuit (map card_suit sixHigh) = false →
  evaluateFiveCards wheel =
    {| rank := 4; value := 14; description := "Straight";
       kickers := Some [14; 5; 4; 3; 2] |} ∧
  evaluateFiveCards sixHigh =
    {| rank := 4; value := 6; description := "Straight";
       kickers := Some [6; 5; 4; 3; 2] |} ∧
  compareHandValue (evaluateFiveCards wheel) (evaluateFiveCards sixHigh) = Gt.
Proof.
  intros Hw Hws Hs Hss. unfold evaluateFiveCards.
  fold (rankValuesOf wheel). fold (rankValuesOf sixHigh).
  rewrite (classify_perm _ _ _ Hw), (classify_perm _ _ _ Hs), Hws, Hss.
  by vm_compute.
Qed.

Lemma wheel_valued_as_ace_high_witness :
  rankValuesOf wheelHand ≡ₚ [14; 2; 3; 4; 5] ∧
  allSameSuit (map card_suit wheelHand) = false ∧
  rankValuesOf sixHighHand ≡ₚ [6; 5; 4; 3; 2] ∧
  allSameSuit (map card_suit sixHighHand) = false ∧
  compareHandValue (evaluateFiveCards wheelHand)
                   (evaluateFiveCards sixHighHand) = Gt.
Proof.
  assert (rankValuesOf wheelHand ≡ₚ [14; 2; 3; 4; 5]) as Hw by reflexivity.
  assert (allSameSuit (map card_suit wheelHand) = false) as Hws
    by reflexivity.
  assert (rankValuesOf sixHighHand ≡ₚ [6; 5; 4; 3; 2]) as Hs by reflexivity.
  assert (allSameSuit (map card_suit sixHighHand) = false) as Hss
    by reflexivity.
  split; [exact Hw|]. split; [exact Hws|]. split; [exact Hs|].
  split; [exact Hss|].
  exact (proj2 (proj2 (wheel_valued_as_ace_high wheelHand sixHighHand
                         Hw Hws Hs Hss))).
Defined.

(** ** Input validation *)

(** The claim C9 fails: a hand of five times the same card and a hand of
    eight cards are both evaluated, and nothing is raised. *)
Lemma evaluateHand_accepts_malformed :
  ¬ NoDup fiveAcesOfSpades ∧
  evaluateHand fiveAcesOfSpades =
    {| rank := 5; value := 1414141414; description := "Flush";
       kickers := Some [14; 14; 14; 14; 14] |} ∧
  length eightCards = 8%nat ∧
  evaluateHand eightCards =
    {| rank := 2; value := 130411; description := "Two Pair";
       kickers := Some [13; 4; 11] |}.
Proof.
  split; [|by vm_compute].
  intros Hnd. apply NoDup_cons in Hnd as [Hnd _]. apply Hnd. by left.
Qed.

(** C9, amended.  [evaluateHand] validates nothing and returns a hand
    value on every list of cards, repeated cards and any number of cards
    included: the degenerate value below five cards, and otherwise the
    evaluation of one five-card sub-sequence of the list, which no other
    such sub-sequence beats. *)
Theorem evaluateHand_never_rejects (cards : list Card) :
  ((length cards < 5)%nat ∧
   evaluateHand cards =
     {| rank := 0; value := 0; description := "High Card";
        kickers := None |}) ∨
  ((5 ≤ length cards)%nat ∧
   ∃ combo, combo `sublist_of` cards ∧ length combo = 5%nat ∧
     evaluateHand cards = evaluateFiveCards combo ∧
     ∀ combo', combo' `sublist_of` cards → length combo' = 5%nat →
       compareHandValue (evaluateFiveCards combo') (evaluateHand cards) ≠ Gt).
Proof.
  destruct (decide (length cards < 5)%nat) as [Hlt|Hge].
  - left. split; [done|]. unfold evaluateHand. by rewrite decide_True.
  - right. split; [lia|].
    destruct (evaluateHand_best cards) as (combo & Hin & He & Hmax); [lia|].
    apply elem_of_getCombinations in Hin as [Hs Hl].
    exists combo. repeat split; try done.
    intros combo' Hs' Hl'.
    assert (combo' ∈ getCombinations cards 5) as Hin'
      by by apply elem_of_getCombinations.
    specialize (Hmax _ Hin'). unfold keyLe in Hmax.
    intros Hgt. rewrite compareHandValue_antisym in Hgt.
    apply (f_equal CompOpp) in Hgt. rewrite CompOpp_involutive in Hgt.
    apply compareHandValue_Lt in Hgt. lia.
Qed.

(** The one zero-sum table [getGTOStrategy] can hand to the grader: with
    an action tag outside the four known ones the table stays empty,
    normalisation returns it as it is, and grading throws. *)
Lemma unknown_action_table fb fr ch op :
  AdvancedGTOSolver.strategyFor fb fr ch op "river_probe" = [] ∧
  AdvancedGTOSolver.normalizeStrategy [] = [] ∧
  AdvancedGTOSolver.evaluateAction "check" [] = Thrown "TypeError".
Proof. by vm_compute. Qed.

(** ** The earlier grader *)

Section earlier_grader.
Local Open Scope Q_scope.

Lemma foldl_heavier (gtoStrategy rest : Strategy) a wa m :
  getProp gtoStrategy a = Some wa → wa == m →
  (∀ e, e ∈ rest → getProp gtoStrategy e.1 = Some e.2) →
  ∃ w, getProp gtoStrategy (foldl (GTOSolver.heavier gtoStrategy) a rest.*1)
       = Some w ∧
       w == foldl Qmax m rest.*2.
Proof.
  revert a wa m. induction rest as [|[k v] rest IH]; intros a wa m Ha Hm Hrest.
  { exists wa. by split. }
  cbn [fmap list_fmap foldl fst snd].
  assert (getProp gtoStrategy k = Some v) as Hk by (apply (Hrest (k, v)); by left).
  assert (∀ e, e ∈ rest → getProp gtoStrategy e.1 = Some e.2) as Hrest'
    by (intros e He; apply Hrest; by right).
  unfold GTOSolver.heavier at 2. rewrite Ha, Hk.
  destruct (Qle_bool wa v) eqn:Hle.
  - apply Qle_bool_iff in Hle. apply (IH k v); [done| |done].
    symmetry. apply Q.max_r. by rewrite <-Hm.
  - assert (v <= wa) as Hge.
    { apply Qnot_lt_le. intros Hlt%Qlt_le_weak%Qle_bool_iff. congruence. }
    apply (IH a wa); [done| |done].
    rewrite Hm. symmetry. apply Q.max_l. by rewrite <-Hm.
Qed.

Lemma earlier_evaluateAction_returns playerAction (gtoStrategy : Strategy)
    k0 w0 rest :
  gtoStrategy = (k0, w0) :: rest →
  ∃ r,
    GTOSolver.evaluateAction playerAction gtoStrategy = Returned r ∧
    GTOSolver.optimalAction r
      = foldl (GTOSolver.heavier gtoStrategy) k0 rest.*1 ∧
    GTOSolver.category r
      = (GTOSolver.grade (orZero (getProp gtoStrategy playerAction))
                         (foldl Qmax w0 rest.*2)).1 ∧
    GTOSolver.evLoss r
      = (GTOSolver.grade (orZero (getProp gtoStrategy playerAction))
                         (foldl Qmax w0 rest.*2)).2.
Proof.
  intros ->. unfold GTOSolver.evaluateAction. cbv zeta. cbn [fst snd].
  destruct (GTOSolver.grade _ _) as [cat loss].
  eexists. split; [reflexivity|]. by repeat split.
Qed.

(** In [GTOSolver] as well, grading the action reported as optimal gives
    Best and an EV loss of 0. *)
Lemma earlier_evaluateAction_optimal_is_best (gtoStrategy : Strategy)
    playerAction :
  gtoStrategy ≠ [] → isObject gtoStrategy →
  ∃ r r',
    GTOSolver.evaluateAction playerAction gtoStrategy = Returned r ∧
    GTOSolver.evaluateAction (GTOSolver.optimalAction r) gtoStrategy
      = Returned r' ∧
    GTOSolver.category r' = Best ∧ GTOSolver.evLoss r' = 0.
Proof.
  intros Hne Hobj. destruct gtoStrategy as [|[k0 w0] rest] eqn:Hs; [done|].
  rewrite <-Hs in Hobj |- *.
  assert (∀ e, e ∈ gtoStrategy → getProp gtoStrategy e.1 = Some e.2) as Hget.
  { intros [k w] He. by apply getProp_unique. }
  destruct (foldl_heavier gtoStrategy rest k0 w0 w0) as (w & Hw & Hmax).
  { apply (Hget (k0, w0)). rewrite Hs. by left. }
  { done. }
  { intros e He. apply Hget. rewrite Hs. by right. }
  destruct (earlier_evaluateAction_returns playerAction _ _ _ _ Hs)
    as (r & Hr & Hopt & _).
  destruct (earlier_evaluateAction_returns (GTOSolver.optimalAction r)
              _ _ _ _ Hs) as (r' & Hr' & _ & Hcat & Hloss).
  exists r, r'. split; [done|]. split; [done|].
  rewrite Hopt, Hw in Hcat, Hloss.
  assert (GTOSolver.grade (orZero (Some w)) (foldl Qmax w0 rest.*2)
          = (Best, 0)) as Hg.
  { unfold GTOSolver.grade.
    assert (Qle_bool (foldl Qmax w0 rest.*2 - 0.05) (orZero (Some w)) = true)
      as ->; [|done].
    apply Qle_bool_iff. rewrite orZero_Some, Hmax. lra. }
  rewrite Hg in Hcat, Hloss. by split.
Qed.

(** The earlier ladder has no 0.25 clause: there a frequency of 0.26
    against a maximum of 0.74 falls into its Correct band. *)
Lemma earlier_ladder_quarter :
  ∃ r, GTOSolver.evaluateAction "bet_0.5" mostlyCheck = Returned r ∧
       GTOSolver.category r = Correct.
Proof. eexists. split; [by vm_compute|done]. Qed.

End earlier_grader.

(** * Further properties of the engine *)

(** ** The deck *)

Lemma createDeck_NoDup : NoDup createDeck.
Proof. apply (bool_decide_unpack _). by vm_compute. Qed.

Lemma elem_of_createDeck card : card ∈ createDeck.
Proof.
  destruct card as [r s]. apply (bool_decide_unpack _).
  destruct r, s; by vm_compute.
Qed.

(** X1.  The deck holds 52 cards, no card twice, and every card. *)
Theorem createDeck_complete :
  length createDeck = 52%nat ∧ NoDup createDeck ∧ ∀ card, card ∈ createDeck.
Proof.
  split; [reflexivity|]. split; [apply createDeck_NoDup|].
  apply elem_of_createDeck.
Qed.

Lemma sameCard_spec used card : sameCard used card = true ↔ used = card.
Proof.
  unfold sameCard. rewrite andb_true_iff, !bool_decide_eq_true.
  destruct used, card; simpl. split; [by intros [-> ->]|by intros [= -> ->]].
Qed.

Lemma elem_of_withoutCards usedCards deck card :
  card ∈ withoutCards usedCards deck ↔ card ∈ deck ∧ card ∉ usedCards.
Proof.
  unfold withoutCards. rewrite list_elem_of_filter.
  split; intros [H1 H2]; split; try done.
  - intros Hin. apply not_true_iff_false in H1. apply H1.
    apply existsb_exists. exists card. split; [by apply list_elem_of_In|].
    by apply sameCard_spec.
  - apply not_true_iff_false.
    intros (used & Hin%list_elem_of_In & ->%sameCard_spec)%existsb_exists.
    done.
Qed.

Lemma elem_of_remaining usedCards card :
  card ∈ withoutCards usedCards createDeck ↔ card ∉ usedCards.
Proof.
  rewrite elem_of_withoutCards.
  split; [by intros [_ ?]|intros ?; split; [apply elem_of_createDeck|done]].
Qed.

(** X2.  The cards left after removing the used ones from the deck: a card
    is left exactly when it is not used, none is left twice, and when no
    used card is repeated the number left is 52 less the number used. *)
Theorem remaining_deck usedCards :
  (∀ card, card ∈ withoutCards usedCards createDeck ↔ card ∉ usedCards) ∧
  NoDup (withoutCards usedCards createDeck) ∧
  (NoDup usedCards →
   (length (withoutCards usedCards createDeck) + length usedCards = 52)%nat).
Proof.
  split; [apply elem_of_remaining|]. split.
  - unfold withoutCards. apply NoDup_filter, createDeck_NoDup.
  - intros Hused.
    change 52%nat with (length createDeck). rewrite <-length_app.
    apply Permutation_length, NoDup_Permutation; [|apply createDeck_NoDup|].
    + apply NoDup_app.
      split; [unfold withoutCards; apply NoDup_filter, createDeck_NoDup|].
      split; [|done]. intros card Hc. by apply elem_of_remaining.
    + intros card. rewrite elem_of_app, elem_of_remaining.
      split; [intros _; apply elem_of_createDeck|intros _].
      destruct (decide (card ∈ usedCards)); [by right|by left].
Qed.

Lemma remaining_deck_witness :
  NoDup aceKing ∧
  (length (withoutCards aceKing createDeck) + length aceKing = 52)%nat.
Proof.
  assert (NoDup aceKing) as Hnd
    by (apply (bool_decide_unpack _); vm_compute; exact I).
  split; [exact Hnd|]. exact (proj2 (proj2 (remaining_deck aceKing)) Hnd).
Defined.

(** ** More cards never make a worse hand *)

Lemma evaluateHand_key_nonneg cards :
  keyLe {| rank := 0; value := 0; description := "High Card";
           kickers := None |} (evaluateHand cards).
Proof.
  destruct (decide (length cards < 5)%nat) as [Hlt|Hge].
  - unfold evaluateHand. rewrite decide_True by done. apply keyLe_refl.
  - destruct (evaluateHand_best cards) as (combo & Hin & -> & _); [lia|].
    apply combo_length in Hin.
    pose proof (evaluateFiveCards_beats_start combo Hin) as Hb.
    unfold keyLe, startHand in *. simpl in *. lia.
Qed.

(** X3.  A hand evaluated on a sub-sequence of the cards never beats the
    hand evaluated on all of them: adding cards cannot lower the result of
    [evaluateHand]. *)
Theorem evaluateHand_monotone cards cards' :
  cards `sublist_of` cards' →
  compareHandValue (evaluateHand cards) (evaluateHand cards') ≠ Gt.
Proof.
  intros Hsub.
  assert (keyLe (evaluateHand cards) (evaluateHand cards')) as Hle.
  { destruct (decide (length cards < 5)%nat) as [Hlt|Hge].
    - unfold evaluateHand at 1. rewrite decide_True by done.
      apply evaluateHand_key_nonneg.
    - destruct (evaluateHand_best cards) as (combo & Hin & -> & _); [lia|].
      apply elem_of_getCombinations in Hin as [Hs Hl].
      pose proof (sublist_length _ _ Hsub).
      destruct (evaluateHand_best cards') as (_ & _ & _ & Hmax); [lia|].
      apply Hmax, elem_of_getCombinations. split; [by etrans|done]. }
  intros Hgt. rewrite compareHandValue_antisym in Hgt.
  apply (f_equal CompOpp) in Hgt. rewrite CompOpp_involutive in Hgt.
  apply compareHandValue_Lt in Hgt. unfold keyLe in Hle. lia.
Qed.

Lemma evaluateHand_monotone_witness :
  flopOnly `sublist_of` flopOnly ++ aceKing ∧
  compareHandValue (evaluateHand flopOnly)
                   (evaluateHand (flopOnly ++ aceKing)) ≠ Gt.
Proof.
  assert (flopOnly `sublist_of` flopOnly ++ aceKing) as Hs
    by (apply sublist_inserts_r; reflexivity).
  split; [exact Hs|].
  exact (evaluateHand_monotone flopOnly (flopOnly ++ aceKing) Hs).
Defined.

(** X4.  On five cards or more the hand value is well formed: the rank is
    one of 0 to 8, the value is positive, the description is the name of
    the rank's category, "Royal Flush" being the description of every
    straight flush of value 14, and the kickers are rank values. *)
Theorem evaluateHand_well_formed cards :
  (5 ≤ length cards)%nat →
  0 ≤ rank (evaluateHand cards) ≤ 8 ∧
  0 < value (evaluateHand cards) ∧
  description (evaluateHand cards)
    = descriptionOf (rank (evaluateHand cards)) (value (evaluateHand cards)) ∧
  ∃ ks, kickers (evaluateHand cards) = Some ks ∧ Forall isRankValue ks.
Proof.
  intros Hlen.
  destruct (evaluateHand_best cards Hlen) as (combo & Hin & -> & _).
  apply combo_length in Hin.
  pose proof (kickers_defined combo Hin) as Hk.
  pose proof (evaluateFiveCards_classified combo Hin) as Hc.
  unfold classified in Hc. fold (rankValuesOf combo) in Hc.
  unfold evaluateFiveCards in *. fold (rankValuesOf combo) in *.
  destruct (classify _ _) as [rk v d k]. simpl in *.
  apply andb_true_iff in Hc as [Hc _]. unbool. done.
Qed.

Lemma evaluateHand_well_formed_witness :
  (5 ≤ length sevenCards)%nat ∧ 0 ≤ rank (evaluateHand sevenCards) ≤ 8.
Proof.
  assert (5 ≤ length sevenCards)%nat as Hlen by (simpl; lia).
  split; [exact Hlen|]. exact (proj1 (evaluateHand_well_formed sevenCards Hlen)).
Defined.

(** ** Hand strength and draw strength *)

Lemma Qdiv_nat_range (a b : nat) :
  (a ≤ b)%nat → (0 < b)%nat →
  (0 <= inject_Z (Z.of_nat a) / inject_Z (Z.of_nat b) <= 1)%Q.
Proof.
  intros Hab Hb.
  assert (0 < inject_Z (Z.of_nat b))%Q as Hpos.
  { rewrite <-(Zlt_Qlt 0). lia. }
  split.
  - apply Qle_shift_div_l; [done|]. rewrite Qmult_0_l.
    rewrite <-(Zle_Qle 0). lia.
  - apply Qle_shift_div_r; [done|]. rewrite Qmult_1_l.
    rewrite <-Zle_Qle. lia.
Qed.

Lemma filter_none {A} (P : A → Prop) `{!∀ x, Decision (P x)} (l : list A) :
  (∀ x, x ∈ l → ¬ P x) → filter P l = [].
Proof.
  induction l as [|x l IH]; intros Hall; [done|].
  rewrite filter_cons_False by (apply Hall; by left).
  apply IH. intros y Hy. apply Hall. by right.
Qed.

Lemma calculateDrawStrength_defined heroCards board :
  (length board < 5)%nat → (∃ card, card ∉ heroCards ++ board) →
  ∃ share, calculateDrawStrength heroCards board = Some share ∧
    (0 <= share <= 1)%Q ∧
    ((length (heroCards ++ board) < 4)%nat → (share == 0)%Q).
Proof.
  unfold calculateDrawStrength.
  intros Hlen [card Hcard]. rewrite bool_decide_false by lia. cbv zeta.
  set (remaining := withoutCards (heroCards ++ board) createDeck).
  set (outs := filter _ remaining).
  assert (card ∈ remaining) as Hin by by apply elem_of_remaining.
  assert (0 < length remaining)%nat as Hpos.
  { destruct remaining; [by apply elem_of_nil in Hin|simpl; lia]. }
  rewrite bool_decide_false by lia.
  eexists. split; [reflexivity|]. split.
  + apply Qdiv_nat_range; [apply length_filter|done].
  + intros Hfew.
    assert (outs = []) as ->.
    { apply filter_none. intros x _.
      unfold evaluateHand. rewrite !decide_True; [done| |].
      - rewrite length_app in *. lia.
      - rewrite !length_app in *. simpl. lia. }
    simpl. unfold Qdiv. by rewrite Qmult_0_l.
Qed.

(** X5.  [calculateDrawStrength] answers 0 on a complete board; on a
    shorter board, as long as one card of the deck is unseen, it answers a
    share between 0 and 1; and with fewer than four known cards, where no
    five-card hand can arise, the share is 0. *)
Theorem calculateDrawStrength_range heroCards board :
  ((5 ≤ length board)%nat →
     calculateDrawStrength heroCards board = Some 0%Q) ∧
  ((length board < 5)%nat → (∃ card, card ∉ heroCards ++ board) →
     ∃ share, calculateDrawStrength heroCards board = Some share ∧
       (0 <= share <= 1)%Q ∧
       ((length (heroCards ++ board) < 4)%nat → (share == 0)%Q)).
Proof.
  split; [|apply calculateDrawStrength_defined].
  intros Hlen. unfold calculateDrawStrength. by rewrite bool_decide_true.
Qed.

Lemma calculateDrawStrength_range_witness :
  (length flopOnly < 5)%nat ∧ (∃ card, card ∉ aceKing ++ flopOnly) ∧
  ∃ share, calculateDrawStrength aceKing flopOnly = Some share ∧
           (0 <= share <= 1)%Q.
Proof.
  assert (length flopOnly < 5)%nat as Hlen by (simpl; lia).
  assert (∃ card, card ∉ aceKing ++ flopOnly) as Hcard.
  { exists (mkCard R2 Clubs). apply (bool_decide_unpack _). vm_compute.
    exact I. }
  split; [exact Hlen|]. split; [exact Hcard|].
  destruct (proj2 (calculateDrawStrength_range aceKing flopOnly) Hlen Hcard)
    as (share & Hs & Hr & _).
  exists share. split; [exact Hs|exact Hr].
Defined.

(** ** Hand categories *)

Lemma rankSymbol_rankText r :
  rankSymbol r = PreflopRanges.rankText (Some (PreflopRanges.rankChar r)).
Proof. by destruct r. Qed.

Lemma forCardPairs_spec p c0 c1 : forCardPairs p = true → p c0 c1 = true.
Proof.
  unfold forCardPairs. rewrite forallb_forall. intros Hall.
  specialize (Hall c0 (proj1 (list_elem_of_In _ _) (elem_of_createDeck c0))).
  rewrite forallb_forall in Hall.
  apply Hall, list_elem_of_In, elem_of_createDeck.
Qed.

Lemma categoryChecked_all : forCardPairs categoryChecked = true.
Proof. by vm_compute. Qed.

(** X6.  The category of two cards of the deck does not depend on their
    order, is the same whether the engine or the range table computes it,
    and has two characters exactly when the two ranks are equal; and with
    fewer than two cards both functions throw. *)
Theorem getHandCategory_agrees :
  (∀ c0 c1, ∃ category,
     getHandCategory [c0; c1] = Returned category ∧
     getHandCategory [c1; c0] = Returned category ∧
     PreflopRanges.getHandCategory
       [PreflopRanges.ofCard c0; PreflopRanges.ofCard c1]
       = Returned category ∧
     (String.length category = 2%nat ↔ card_rank c0 = card_rank c1)) ∧
  (∀ cards, (length cards < 2)%nat →
     getHandCategory cards = Thrown "TypeError" ∧
     PreflopRanges.getHandCategory (map PreflopRanges.ofCard cards)
       = Thrown "TypeError").
Proof.
  split.
  - intros c0 c1.
    pose proof (forCardPairs_spec _ c0 c1 categoryChecked_all) as Hc.
    unfold categoryChecked in Hc.
    destruct (getHandCategory [c0; c1]) as [category|];
      [|by rewrite andb_false_r in Hc].
    apply andb_true_iff in Hc as [Hc Hlen]. unbool.
    apply Bool.eqb_prop in Hlen.
    exists category. repeat split; try done.
    + intros H2. apply (bool_decide_eq_true_2 _) in H2.
      rewrite Hlen in H2. by apply bool_decide_eq_true_1 in H2.
    + intros Hr. apply (bool_decide_eq_true_2 _) in Hr.
      rewrite <-Hlen in Hr. by apply bool_decide_eq_true_1 in Hr.
  - intros [|c0 [|c1 cards]] Hlen; simpl in Hlen; try lia; done.
Qed.

Lemma getHandCategory_agrees_witness :
  (length (@nil Card) < 2)%nat ∧ getHandCategory [] = Thrown "TypeError".
Proof.
  assert (length (@nil Card) < 2)%nat as Hlen by (simpl; lia).
  split; [exact Hlen|].
  exact (proj1 (proj2 getHandCategory_agrees [] Hlen)).
Defined.

(** X7.  The hands generated for a category map back to it.  A pair
    category has 6 hands, and for a higher and a lower rank the suited
    category has 4 and the offsuit one 12; the hands of a category are all
    different, each is made of two different cards, and [getHandCategory]
    gives each of them the category it was generated from. *)
Theorem getCategoryHands_round_trip (r1 r2 : Rank) :
  let hands category := PreflopRanges.getCategoryHands category in
  let good category hand :=
    PreflopRanges.getHandCategory hand = Returned category ∧ NoDup hand in
  let pair := String.append (rankSymbol r1) (rankSymbol r1) in
  let suited :=
    String.append (rankSymbol r1) (String.append (rankSymbol r2) "s") in
  let offsuit :=
    String.append (rankSymbol r1) (String.append (rankSymbol r2) "o") in
  (length (hands pair) = 6%nat ∧ NoDup (hands pair) ∧
   Forall (good pair) (hands pair)) ∧
  (rankValues r2 < rankValues r1 →
   length (hands suited) = 4%nat ∧ NoDup (hands suited) ∧
   Forall (good suited) (hands suited) ∧
   length (hands offsuit) = 12%nat ∧ NoDup (hands offsuit) ∧
   Forall (good offsuit) (hands offsuit)).
Proof.
  cbv zeta. split.
  - destruct r1; (split; [reflexivity|]);
      (split; apply (bool_decide_unpack _); by vm_compute).
  - intros Hlt.
    destruct r1, r2; simpl in Hlt; try lia;
      (split; [reflexivity|]);
      (split; [apply (bool_decide_unpack _); by vm_compute|]);
      (split; [apply (bool_decide_unpack _); by vm_compute|]);
      (split; [reflexivity|]);
      (split; apply (bool_decide_unpack _); by vm_compute).
Qed.

Lemma getCategoryHands_round_trip_witness :
  rankValues RK < rankValues RA ∧
  length (PreflopRanges.getCategoryHands "AKo") = 12%nat.
Proof.
  assert (rankValues RK < rankValues RA) as Hlt by (simpl; lia).
  split; [exact Hlt|].
  exact (proj1 (proj2 (proj2 (proj2
           (proj2 (getCategoryHands_round_trip RA RK) Hlt))))).
Defined.

(** ** Drawing a hand from a range *)

(** [Math.floor(u * n)] is an index below [n] when [u] is a result of
    [Math.random()], at least 0 and less than 1. *)
Lemma randomIndex_lt (u : Q) (n : nat) :
  (0 <= u)%Q → (u < 1)%Q → (0 < n)%nat →
  ∃ i, randomIndex u n = Some i ∧ (i < n)%nat.
Proof.
  intros H0 H1 Hn. unfold randomIndex. cbv zeta.
  set (x := (u * inject_Z (Z.of_nat n))%Q).
  assert (0 < inject_Z (Z.of_nat n))%Q as Hpos.
  { rewrite <-(Zlt_Qlt 0). lia. }
  assert (0 <= x)%Q as Hx0 by (subst x; apply Qmult_le_0_compat; lra).
  assert (x < inject_Z (Z.of_nat n))%Q as Hxn.
  { subst x. rewrite <-(Qmult_1_l (inject_Z (Z.of_nat n))) at 2.
    by apply Qmult_lt_compat_r. }
  assert (0 ≤ Qfloor x).
  { change 0 with (Qfloor (inject_Z 0)). by apply Qfloor_resp_le. }
  assert (Qfloor x < Z.of_nat n).
  { rewrite Zlt_Qlt. eapply Qle_lt_trans; [apply Qfloor_le|done]. }
  rewrite bool_decide_false by lia.
  exists (Z.to_nat (Qfloor x)). split; [done|lia].
Qed.

Lemma elem_of_getAllHandsFromRange hand range :
  hand ∈ PreflopRanges.getAllHandsFromRange range ↔
  ∃ category, category ∈ range ∧
              hand ∈ PreflopRanges.getCategoryHands category.
Proof.
  unfold PreflopRanges.getAllHandsFromRange.
  rewrite list_elem_of_In, in_flat_map.
  by setoid_rewrite list_elem_of_In.
Qed.

(** A list of results of [Math.random()]. *)
Lemma Math_random_valid u randoms :
  (0 <= u)%Q → (u < 1)%Q → Math_random (u :: randoms) = Some (u, randoms).
Proof.
  intros H0 H1. unfold Math_random.
  assert (Qle_bool 0 u = true) as -> by by apply Qle_bool_iff.
  assert (Qle_bool 1 u = false) as ->; [|done].
  apply not_true_is_false. intros Hle%Qle_bool_iff. lra.
Qed.

Lemma getRandomHandFromRange_picks range excludeCards randoms :
  Forall (λ u, 0 <= u ∧ u < 1)%Q randoms → (2 ≤ length randoms)%nat →
  (PreflopRanges.getRandomHandFromRange range excludeCards randoms
     = Some (Returned PreflopRanges.null, randoms) ∧
   ∀ hand, hand ∈ PreflopRanges.getAllHandsFromRange range →
           PreflopRanges.blocked excludeCards hand = true) ∨
  (∃ hand,
     PreflopRanges.getRandomHandFromRange range excludeCards randoms
       = Some (Returned (PreflopRanges.picked hand), drop 2 randoms) ∧
     hand ∈ PreflopRanges.getAllHandsFromRange range ∧
     PreflopRanges.blocked excludeCards hand = false).
Proof.
  intros Hrand Hlen. unfold PreflopRanges.getRandomHandFromRange.
  cbv zeta. set (available := filter _ range).
  destruct (decide (length available = 0%nat)) as [Hnone|Hsome].
  - left. rewrite bool_decide_true by done. split; [done|].
    intros hand (category & Hc & Hh)%elem_of_getAllHandsFromRange.
    apply not_false_iff_true. intros Hfree.
    assert (category ∈ available) as Hin.
    { apply list_elem_of_filter. split; [|done].
      apply existsb_exists. exists hand.
      split; [by apply list_elem_of_In|by rewrite Hfree]. }
    destruct available; [by apply elem_of_nil in Hin|done].
  - right. rewrite bool_decide_false by done.
    destruct randoms as [|u1 [|u2 randoms]]; [simpl in Hlen; lia..|].
    apply Forall_cons in Hrand as [[H10 H11] Hrand].
    apply Forall_cons in Hrand as [[H20 H21] _].
    rewrite (Math_random_valid u1) by done. cbn [mbind option_bind].
    destruct (randomIndex_lt u1 (length available)) as (i & -> & Hi);
      [done..|lia|].
    destruct (lookup_lt_is_Some_2 available i Hi) as [category Hcat].
    cbn [mbind option_bind]. rewrite Hcat.
    apply list_elem_of_lookup_2, list_elem_of_filter in Hcat
      as [(free & Hfree%list_elem_of_In & Hnb)%existsb_exists Hrange].
    apply negb_true_iff in Hnb.
    set (valid := filter _ (PreflopRanges.getCategoryHands category)).
    assert (free ∈ valid) as Hvalid by by apply list_elem_of_filter.
    assert (0 < length valid)%nat as Hpos.
    { destruct valid; [by apply elem_of_nil in Hvalid|simpl; lia]. }
    rewrite bool_decide_false by lia.
    rewrite (Math_random_valid u2) by done. cbn [mbind option_bind].
    destruct (randomIndex_lt u2 (length valid)) as (j & -> & Hj); [done..|].
    destruct (lookup_lt_is_Some_2 valid j Hj) as [hand Hhand].
    cbn [mbind option_bind]. rewrite Hhand.
    apply list_elem_of_lookup_2, list_elem_of_filter in Hhand as [Hb Hin].
    exists hand. split; [done|]. split; [|done].
    apply elem_of_getAllHandsFromRange. by exists category.
Qed.

(** X8.  With results of [Math.random()] to read, [getRandomHandFromRange]
    neither throws nor reads past an array: it returns [null], without
    having called [Math.random()], when every hand of every category of
    the range holds an excluded card, and otherwise, after two calls, a
    hand of the range that holds none. *)
Theorem getRandomHandFromRange_safe range excludeCards randoms :
  Forall (λ u, 0 <= u ∧ u < 1)%Q randoms → (2 ≤ length randoms)%nat →
  (PreflopRanges.getRandomHandFromRange range excludeCards randoms
     = Some (Returned PreflopRanges.null, randoms) ∧
   ∀ hand, hand ∈ PreflopRanges.getAllHandsFromRange range →
           PreflopRanges.blocked excludeCards hand = true) ∨
  (∃ hand,
     PreflopRanges.getRandomHandFromRange range excludeCards randoms
       = Some (Returned (PreflopRanges.picked hand), drop 2 randoms) ∧
     hand ∈ PreflopRanges.getAllHandsFromRange range ∧
     PreflopRanges.blocked excludeCards hand = false).
Proof. apply getRandomHandFromRange_picks. Qed.

Lemma getRandomHandFromRange_safe_witness :
  Forall (λ u, 0 <= u ∧ u < 1)%Q [0.5; 0.5]%Q ∧
  ∃ hand,
    PreflopRanges.getRandomHandFromRange kingHighRange
      (map PreflopRanges.ofCard aceKing) [0.5; 0.5]%Q
      = Some (Returned (PreflopRanges.picked hand), []) ∧
    PreflopRanges.blocked (map PreflopRanges.ofCard aceKing) hand = false.
Proof.
  assert (Forall (λ u, 0 <= u ∧ u < 1)%Q [0.5; 0.5]%Q) as Hrand
    by (repeat constructor; vm_compute; discriminate).
  assert (2 ≤ length [0.5; 0.5]%Q)%nat as Hlen by (simpl; lia).
  split; [exact Hrand|].
  destruct (getRandomHandFromRange_safe kingHighRange
              (map PreflopRanges.ofCard aceKing) [0.5; 0.5]%Q Hrand Hlen)
    as [[Hnull _]|(hand & Hpick & _ & Hfree)].
  - vm_compute in Hnull. discriminate Hnull.
  - exists hand. split; [exact Hpick|exact Hfree].
Defined.

(** ** Comparing two-card hands *)

(** X9.  [compareHands] is a sound comparator for [sort]: on hands of at
    least two cards it returns a number, swapping the arguments negates
    it, it is 0 exactly when the first two cards of both hands carry the
    same two ranks, and "not after" is transitive; with a hand of fewer
    than two cards it throws. *)
Theorem compareHands_comparator hand1 hand2 hand3 :
  ((2 ≤ length hand1)%nat → (2 ≤ length hand2)%nat →
   (2 ≤ length hand3)%nat →
   ∃ x y z,
     compareHands hand1 hand2 = Returned x ∧
     compareHands hand2 hand3 = Returned y ∧
     compareHands hand1 hand3 = Returned z ∧
     compareHands hand2 hand1 = Returned (- x) ∧
     (x = 0 ↔ rankValuesOf (take 2 hand1) ≡ₚ rankValuesOf (take 2 hand2)) ∧
     (x ≤ 0 → y ≤ 0 → z ≤ 0)) ∧
  ((length hand1 < 2)%nat ∨ (length hand2 < 2)%nat →
   compareHands hand1 hand2 = Thrown "TypeError").
Proof.
  split.
  - intros H1 H2 H3.
    destruct hand1 as [|a0 [|a1 ?]]; simpl in H1; try lia.
    destruct hand2 as [|b0 [|b1 ?]]; simpl in H2; try lia.
    destruct hand3 as [|c0 [|c1 ?]]; simpl in H3; try lia.
    unfold compareHands. cbn [lookup list_lookup]. cbv zeta.
    do 3 eexists. repeat split.
    + repeat case_bool_decide; f_equal; lia.
    + intros Hx. cbn [take rankValuesOf map].
      repeat case_bool_decide; try lia.
      destruct (Z.max_spec (rankValues (card_rank a0))
                           (rankValues (card_rank a1))) as [[??]|[??]],
               (Z.max_spec (rankValues (card_rank b0))
                           (rankValues (card_rank b1))) as [[??]|[??]],
               (Z.min_spec (rankValues (card_rank a0))
                           (rankValues (card_rank a1))) as [[??]|[??]],
               (Z.min_spec (rankValues (card_rank b0))
                           (rankValues (card_rank b1))) as [[??]|[??]];
        try lia;
        first [ assert (rankValues (card_rank a0) = rankValues (card_rank b0)
                        ∧ rankValues (card_rank a1)
                          = rankValues (card_rank b1)) as [-> ->] by lia;
                reflexivity
              | assert (rankValues (card_rank a0) = rankValues (card_rank b1)
                        ∧ rankValues (card_rank a1)
                          = rankValues (card_rank b0)) as [-> ->] by lia;
                apply Permutation_swap ].
    + cbn [take rankValuesOf map].
      intros [[Ha Hb]|[Ha Hb]]%Permutation_length_2; rewrite Ha, Hb;
        repeat case_bool_decide; lia.
    + repeat case_bool_decide; lia.
  - intros [H1|H2].
    + destruct hand1 as [|a0 [|a1 ?]]; simpl in H1; try lia; done.
    + destruct hand2 as [|b0 [|b1 ?]]; simpl in H2; try lia;
        unfold compareHands; by repeat case_match.
Qed.

Lemma compareHands_comparator_witness :
  (2 ≤ length aceKing)%nat ∧ (2 ≤ length pocketSevens)%nat ∧
  ∃ x, compareHands aceKing pocketSevens = Returned x ∧
       compareHands pocketSevens aceKing = Returned (- x).
Proof.
  assert (2 ≤ length aceKing)%nat as Ha by (simpl; lia).
  assert (2 ≤ length pocketSevens)%nat as Hp by (simpl; lia).
  split; [exact Ha|]. split; [exact Hp|].
  destruct (proj1 (compareHands_comparator aceKing pocketSevens aceKing)
              Ha Hp Ha) as (x & y & z & Hx & _ & _ & Hswap & _).
  exists x. split; [exact Hx|exact Hswap].
Defined.

(** ** Hand strength *)

Lemma Qclamp_range (lo hi x : Q) :
  (lo <= hi)%Q → (lo <= Qmax lo (Qmin hi x) <= hi)%Q.
Proof.
  intros Hle. split; [apply Q.le_max_l|].
  apply Q.max_lub; [done|apply Q.le_min_l].
Qed.

Lemma Qclamp_le (lo hi x b : Q) :
  (lo <= b)%Q → (x <= b)%Q → (Qmax lo (Qmin hi x) <= b)%Q.
Proof.
  intros Hlo Hx. apply Q.max_lub; [done|].
  eapply Qle_trans; [apply Q.le_min_r|done].
Qed.

Lemma foldl_add_ranks (cards : list Card) (a : Z) :
  foldl Z.add a (map (λ c, rankValues (card_rank c)) cards)
  ≤ a + 14 * Z.of_nat (length cards).
Proof.
  revert a. induction cards as [|c cards IH]; intros a; simpl; [lia|].
  pose proof (rankValues_range (card_rank c)) as Hc. unfold isRankValue in Hc.
  specialize (IH (a + rankValues (card_rank c))). lia.
Qed.

Lemma calculateHandStrength_defined heroCards board :
  heroCards ≠ [] →
  ∃ strength, calculateHandStrength heroCards board = Some strength ∧
    (0 <= strength <= 1)%Q ∧
    ((length (heroCards ++ board) < 5)%nat → (strength <= 0.065)%Q).
Proof.
  intros Hne. unfold calculateHandStrength. cbv zeta.
  rewrite length_map.
  assert (0 < length heroCards)%nat as Hpos
    by (destruct heroCards; [done|simpl; lia]).
  rewrite bool_decide_false by lia.
  eexists. split; [reflexivity|]. split.
  { apply Qclamp_range. lra. }
  intros Hfew. apply Qclamp_le; [lra|].
  unfold evaluateHand. rewrite decide_True by done. simpl rank.
  pose proof (foldl_add_ranks heroCards 0) as Hsum.
  set (total := foldl Z.add 0 _) in *.
  assert (0 < inject_Z (Z.of_nat (length heroCards)))%Q as Hn.
  { rewrite <-(Zlt_Qlt 0). lia. }
  assert (inject_Z total / inject_Z (Z.of_nat (length heroCards)) <= 14)%Q
    as Havg.
  { apply Qle_shift_div_r; [done|].
    change 14%Q with (inject_Z 14). rewrite <-inject_Z_mult, <-Zle_Qle. lia. }
  change (inject_Z 0) with 0%Q.
  set (avg := (inject_Z total / _)%Q) in *. clearbody avg.
  unfold Qdiv. change (/ 100)%Q with 0.01%Q. lra.
Qed.

(** X10.  [calculateHandStrength] is not a number without hero cards, and
    otherwise lies between 0 and 1; while the hero cards and the board are
    fewer than five cards together, as before the flop, it is at most
    0.065, whatever the hand. *)
Theorem calculateHandStrength_range heroCards board :
  (heroCards = [] → calculateHandStrength heroCards board = None) ∧
  (heroCards ≠ [] →
   ∃ strength, calculateHandStrength heroCards board = Some strength ∧
     (0 <= strength <= 1)%Q ∧
     ((length (heroCards ++ board) < 5)%nat → (strength <= 0.065)%Q)).
Proof.
  split; [by intros ->|apply calculateHandStrength_defined].
Qed.

Lemma calculateHandStrength_range_witness :
  aceKing ≠ [] ∧ (length (aceKing ++ []) < 5)%nat ∧
  ∃ strength, calculateHandStrength aceKing [] = Some strength ∧
              (strength <= 0.065)%Q.
Proof.
  assert (aceKing ≠ []) as Hne by discriminate.
  assert (length (aceKing ++ []) < 5)%nat as Hfew by (simpl; lia).
  split; [exact Hne|]. split; [exact Hfew|].
  destruct (proj2 (calculateHandStrength_range aceKing []) Hne)
    as (strength & Hs & _ & Hpre).
  exists strength. split; [exact Hs|exact (Hpre Hfew)].
Defined.

(** ** The two board analysers *)

Lemma sum_list_ge (l : list nat) c k :
  Forall (λ x, 1 ≤ x)%nat l → c ∈ l → (k ≤ c)%nat →
  (length l + k ≤ sum_list l + 1)%nat.
Proof.
  induction 1 as [|x l Hx Hl IH]; intros Hc Hge.
  - by apply elem_of_nil in Hc.
  - assert (length l ≤ sum_list l)%nat as Hlen.
    { clear -Hl. induction Hl; simpl; lia. }
    apply elem_of_cons in Hc as [->|Hc]; simpl; [lia|].
    specialize (IH Hc Hge). lia.
Qed.

Lemma sum_list_ones (l : list nat) :
  Forall (λ x, 1 ≤ x)%nat l →
  (∀ c, c ∈ l → ¬ (2 ≤ c)%nat) → sum_list l = length l.
Proof.
  induction 1 as [|x l Hx Hl IH]; intros Hsmall; [done|].
  simpl. rewrite IH by (intros c Hc; apply Hsmall; by right).
  assert (¬ (2 ≤ x)%nat) by (apply Hsmall; by left). lia.
Qed.

(** Some rank is counted twice exactly when there are fewer ranks than
    cards. *)
Lemma paired_spec rs :
  existsb (λ c, bool_decide (2 ≤ c)%nat)
          (map_to_list (rankCountsOf rs)).*2 = true ↔
  (length (map_to_list (rankCountsOf rs)).*1 < length rs)%nat.
Proof.
  destruct (rankCountsOf_total rs) as [Hsum Hpos].
  assert (Forall (λ x, 1 ≤ x)%nat (map_to_list (rankCountsOf rs)).*2) as Hall.
  { apply Forall_fmap, Forall_forall. intros [k x] Hkx. simpl.
    apply elem_of_map_to_list in Hkx. by apply (Hpos k). }
  rewrite !length_fmap in *. split.
  - intros (c & Hc%list_elem_of_In & Hge%bool_decide_eq_true)%existsb_exists.
    pose proof (sum_list_ge _ c 2 Hall Hc Hge) as Hlarge.
    rewrite length_fmap in Hlarge. lia.
  - intros Hlt. apply not_false_iff_true. intros Hnone.
    rewrite (sum_list_ones _ Hall), length_fmap in Hsum; [lia|].
    intros c Hc Hge. apply not_true_iff_false in Hnone. apply Hnone.
    apply existsb_exists. exists c.
    split; [by apply list_elem_of_In|by apply bool_decide_eq_true].
Qed.

Lemma foldl_max_ge (x k : Z) (l : list Z) :
  k ≤ foldl Z.max x l ↔ k ≤ x ∨ ∃ y, y ∈ l ∧ k ≤ y.
Proof.
  revert x. induction l as [|z l IH]; intros x; simpl.
  - split; [by left|]. intros [?|(y & Hy & _)]; [done|].
    by apply elem_of_nil in Hy.
  - rewrite IH. split.
    + intros [Hm|(y & Hy & Hk)].
      * destruct (Z.max_spec x z) as [[? Heq]|[? Heq]]; rewrite Heq in Hm.
        -- right. exists z. split; [by left|done].
        -- by left.
      * right. exists y. split; [by right|done].
    + intros [Hx|(y & [->|Hy]%elem_of_cons & Hk)].
      * left. lia.
      * left. lia.
      * right. by exists y.
Qed.

(** Some suit is counted three times exactly when the largest count is at
    least three. *)
Lemma flushDraw_spec (counts : list nat) :
  existsb (λ count, bool_decide (3 ≤ count)%nat) counts
  = bool_decide (3 ≤ Math_max (Z.of_nat <$> counts)).
Proof.
  apply eq_true_iff_eq. rewrite bool_decide_eq_true, existsb_exists.
  destruct counts as [|c counts]; simpl.
  { split; [by intros (? & [] & _)|intros; lia]. }
  rewrite foldl_max_ge. split.
  - intros (x & [<-|Hx] & Hge%bool_decide_eq_true); [left; lia|].
    right. exists (Z.of_nat x).
    split; [by apply list_elem_of_fmap_2, list_elem_of_In|lia].
  - intros [Hc|(y & (x & -> & Hx)%list_elem_of_fmap & Hge)].
    + exists c. split; [by left|]. apply bool_decide_eq_true. lia.
    + exists x. split; [right; by apply list_elem_of_In|].
      apply bool_decide_eq_true. lia.
Qed.

Lemma tallySuit_countSuit suitCounts s :
  tallySuit suitCounts s = AdvancedGTOSolver.countSuit suitCounts s.
Proof.
  induction suitCounts as [|[k n] rest IH]; simpl; [done|].
  by rewrite IH.
Qed.

Lemma foldl_tallySuit suitCounts ss :
  foldl tallySuit suitCounts ss
  = foldl AdvancedGTOSolver.countSuit suitCounts ss.
Proof.
  revert suitCounts. induction ss as [|s ss IH]; intros suitCounts; simpl;
    [done|].
  by rewrite tallySuit_countSuit, IH.
Qed.

(** X11.  On a board of three cards or more the engine's analyser and the
    solver's agree on whether the board is paired and on whether it holds
    a flush draw, and the engine's wetness lies between 0.3 and 1. *)
Theorem analyzeBoardTexture_agrees board :
  (3 ≤ length board)%nat →
  ∃ t, AdvancedGTOSolver.analyzeAdvancedBoardTexture board
       = AdvancedGTOSolver.analysed t ∧
    Texture.paired (analyzeBoardTexture board) = AdvancedGTOSolver.paired t ∧
    Texture.flushDraw (analyzeBoardTexture board)
      = Some (AdvancedGTOSolver.flushDraw t) ∧
    (0.3 <= Texture.wetness (analyzeBoardTexture board) <= 1)%Q.
Proof.
  intros Hlen.
  unfold AdvancedGTOSolver.analyzeAdvancedBoardTexture, analyzeBoardTexture.
  rewrite decide_False, (bool_decide_false (length board < 3)%nat) by lia.
  cbv zeta. eexists. split; [reflexivity|].
  cbn [Texture.paired Texture.flushDraw Texture.wetness
       AdvancedGTOSolver.paired AdvancedGTOSolver.flushDraw].
  assert (rankCountsOf (sortAsc (map (λ c, rankValues (card_rank c)) board))
          = rankCountsOf (map (λ c, rankValues (card_rank c)) board)) as ->.
  { apply rankCountsOf_perm. unfold sortAsc. apply merge_sort_Permutation. }
  split; [|split].
  - apply eq_true_iff_eq. rewrite paired_spec, bool_decide_eq_true.
    by rewrite (length_map (λ c, rankValues (card_rank c)) board).
  - f_equal. unfold AdvancedGTOSolver.suitCountsOf.
    rewrite foldl_tallySuit. apply flushDraw_spec.
  - split.
    + apply Q.min_glb; [lra|].
      repeat match goal with
             | |- context [if ?b then _ else _] => destruct b
             end; lra.
    + apply Q.le_min_l.
Qed.

Lemma analyzeBoardTexture_agrees_witness :
  (3 ≤ length jackTenEight)%nat ∧
  (0.3 <= Texture.wetness (analyzeBoardTexture jackTenEight) <= 1)%Q.
Proof.
  assert (3 ≤ length jackTenEight)%nat as Hlen by (simpl; lia).
  split; [exact Hlen|].
  destruct (analyzeBoardTexture_agrees jackTenEight Hlen)
    as (t & _ & _ & _ & Hw).
  exact Hw.
Defined.

(** * Further properties of the earlier solver *)

(** ** Approximate equity *)

(** A used-card list shorter than the deck leaves a card unseen. *)
Lemma unseen_card (usedCards : list Card) :
  (length usedCards < 52)%nat → ∃ card, card ∉ usedCards.
Proof.
  intros Hlen.
  destruct (decide (Forall (λ card, card ∈ usedCards) createDeck))
    as [Hall|Hsome].
  - rewrite Forall_forall in Hall.
    pose proof (NoDup_submseteq _ _ createDeck_NoDup Hall) as Hsub.
    apply submseteq_length in Hsub. simpl in Hsub. lia.
  - apply not_Forall_Exists in Hsome; [|intros c; apply _].
    apply Exists_exists in Hsome as (card & _ & Hcard). by exists card.
Qed.

(** X12.  The approximate equity of the earlier solver is not a number
    without hero cards and otherwise lies between 0.1 and 0.9; with fewer
    than four known cards, as before the flop, it is the floor 0.1
    whatever the hand. *)
Theorem calculateApproximateEquity_floor heroHand board :
  (heroHand = [] → GTOSolver.calculateApproximateEquity heroHand board = None) ∧
  (heroHand ≠ [] → (length (heroHand ++ board) < 52)%nat →
   ∃ equity,
     GTOSolver.calculateApproximateEquity heroHand board = Some equity ∧
     (0.1 <= equity <= 0.9)%Q ∧
     ((length (heroHand ++ board) < 4)%nat → (equity == 0.1)%Q)).
Proof.
  split; [by intros ->|].
  intros Hne Hlen. unfold GTOSolver.calculateApproximateEquity.
  destruct (calculateHandStrength_defined heroHand board Hne)
    as (hs & -> & [Hhs0 Hhs1] & Hpre).
  assert (∃ ds, calculateDrawStrength heroHand board = Some ds ∧
                ((length (heroHand ++ board) < 4)%nat → (ds == 0)%Q))
    as (ds & -> & Hds).
  { destruct (decide (length board < 5)%nat) as [Hb|Hb].
    - destruct (calculateDrawStrength_defined heroHand board Hb
                  (unseen_card _ Hlen)) as (ds & Hds & _ & Hzero).
      by exists ds.
    - exists 0%Q. split; [|done].
      unfold calculateDrawStrength. rewrite bool_decide_true by lia. done. }
  cbv zeta. eexists. split; [reflexivity|]. split.
  { apply Qclamp_range. lra. }
  intros Hfew. rewrite length_app in Hfew.
  assert (0 < length heroHand)%nat
    by (destruct heroHand; [done|simpl; lia]).
  unfold analyzeBoardTexture. rewrite bool_decide_true by lia.
  cbn [Texture.wetness]. change (Qle_bool 0.5 0.7) with true. cbn [negb].
  specialize (Hds ltac:(rewrite length_app; lia)).
  specialize (Hpre ltac:(rewrite length_app; lia)).
  apply Q.max_l. eapply Qle_trans; [apply Q.le_min_r|].
  rewrite Hds. lra.
Qed.

Lemma calculateApproximateEquity_floor_witness :
  aceKing ≠ [] ∧ (length (aceKing ++ []) < 52)%nat ∧
  (length (aceKing ++ []) < 4)%nat ∧
  ∃ equity, GTOSolver.calculateApproximateEquity aceKing [] = Some equity ∧
            (equity == 0.1)%Q.
Proof.
  assert (aceKing ≠ []) as Hne by discriminate.
  assert (length (aceKing ++ []) < 52)%nat as Hlen by (simpl; lia).
  assert (length (aceKing ++ []) < 4)%nat as Hfew by (simpl; lia).
  split; [exact Hne|]. split; [exact Hlen|]. split; [exact Hfew|].
  destruct (proj2 (calculateApproximateEquity_floor aceKing []) Hne Hlen)
    as (equity & He & _ & Hfloor).
  exists equity. split; [exact He|exact (Hfloor Hfew)].
Defined.

(** ** Sampling an action *)

Section sampling.
Local Open Scope Q_scope.

(** When the sampling loop returns, it returns a key whose weight carried
    the running sum from below [rand] to [rand] or above. *)
Lemma sampleFrom_Some rand cumulative (strategy : Strategy) action :
  GTOSolver.sampleFrom rand cumulative strategy = Some action →
  cumulative < rand →
  ∃ w, (action, w) ∈ strategy ∧ 0 < w.
Proof.
  revert cumulative.
  induction strategy as [|[k w] rest IH]; intros cumulative; simpl; [done|].
  destruct (Qle_bool rand (cumulative + w)) eqn:Hle.
  - intros [= ->] Hlt. apply Qle_bool_iff in Hle.
    exists w. split; [by left|lra].
  - intros Hs Hlt.
    assert (cumulative + w < rand) as Hlt'.
    { apply Qnot_le_lt. intros Hle'%Qle_bool_iff. congruence. }
    destruct (IH _ Hs Hlt') as (w' & Hin & Hw'). exists w'. split; [by right|done].
Qed.

(** The loop returns as soon as the running sum reaches [rand], which it
    does at the latest on the last key when [rand] is at most the total. *)
Lemma sampleFrom_total rand cumulative (strategy : Strategy) :
  rand <= cumulative + totalWeight strategy →
  strategy ≠ [] →
  ∃ action, GTOSolver.sampleFrom rand cumulative strategy = Some action.
Proof.
  revert cumulative.
  induction strategy as [|[k w] rest IH]; intros cumulative Hle Hne; [done|].
  simpl. destruct (Qle_bool rand (cumulative + w)) eqn:Hhead; [by eexists|].
  rewrite totalWeight_cons in Hle.
  destruct rest as [|e rest'].
  - exfalso. unfold totalWeight in Hle. cbn [fmap list_fmap foldl] in Hle.
    assert (rand <= cumulative + w) as Hle'%Qle_bool_iff by lra. congruence.
  - apply IH; [lra|done].
Qed.

Lemma heavier_key (strategy : Strategy) a b :
  GTOSolver.heavier strategy a b = a ∨ GTOSolver.heavier strategy a b = b.
Proof.
  unfold GTOSolver.heavier.
  destruct (getProp strategy a), (getProp strategy b);
    try destruct (Qle_bool _ _); auto.
Qed.

Lemma foldl_heavier_key (strategy : Strategy) a (keys : list string) :
  foldl (GTOSolver.heavier strategy) a keys ∈ a :: keys.
Proof.
  revert a. induction keys as [|b keys IH]; intros a; simpl; [by left|].
  destruct (heavier_key strategy a b) as [-> | ->].
  - specialize (IH a). apply elem_of_cons in IH as [->|IH]; [by left|].
    by right; right.
  - right. apply IH.
Qed.

(** X13.  [getGTOAction] throws on the empty strategy and otherwise
    returns one of the strategy's keys; when the random number is positive
    and at most the total weight, the key it returns has a positive
    weight: an action of weight 0 is never drawn. *)
Theorem getGTOAction_draws_key rand (strategy : Strategy) :
  (strategy = [] → GTOSolver.getGTOAction rand strategy = Thrown "TypeError") ∧
  (strategy ≠ [] →
   ∃ action, GTOSolver.getGTOAction rand strategy = Returned action ∧
     action ∈ strategy.*1 ∧
     (0 < rand → rand <= totalWeight strategy →
      ∃ w, (action, w) ∈ strategy ∧ 0 < w)).
Proof.
  split; [by intros ->|]. intros Hne.
  unfold GTOSolver.getGTOAction.
  destruct (GTOSolver.sampleFrom rand 0 strategy) as [action|] eqn:Hs.
  - exists action. split; [done|].
    destruct (Qlt_le_dec 0 rand) as [Hpos|Hneg].
    + destruct (sampleFrom_Some _ _ _ _ Hs Hpos) as (w & Hin & Hw).
      split; [|by intros _ _; exists w].
      apply (list_elem_of_fmap_2 fst) in Hin. exact Hin.
    + split; [|intros Hpos; lra].
      clear Hne. revert Hs. generalize 0 at 1.
      induction strategy as [|[k w] rest IH]; intros c; simpl; [done|].
      destruct (Qle_bool rand (c + w)).
      * intros [= ->]. by left.
      * intros Hs. right. by apply (IH (c + w)).
  - destruct strategy as [|first rest]; [done|].
    eexists. split; [reflexivity|]. split.
    + change ((first :: rest).*1) with (first.1 :: rest.*1).
      apply foldl_heavier_key.
    + intros Hpos Hle.
      destruct (sampleFrom_total rand 0 (first :: rest)) as [a Ha];
        [lra|done|congruence].
Qed.

Lemma getGTOAction_draws_key_witness :
  mostlyCheck ≠ [] ∧ 0 < 0.9 ∧ 0.9 <= totalWeight mostlyCheck ∧
  ∃ action w, GTOSolver.getGTOAction 0.9 mostlyCheck = Returned action ∧
              (action, w) ∈ mostlyCheck ∧ 0 < w.
Proof.
  assert (mostlyCheck ≠ []) as Hne by discriminate.
  assert (0 < 0.9) as Hpos by reflexivity.
  assert (0.9 <= totalWeight mostlyCheck) as Hle by (vm_compute; discriminate).
  split; [exact Hne|]. split; [exact Hpos|]. split; [exact Hle|].
  destruct (proj2 (getGTOAction_draws_key 0.9 mostlyCheck) Hne)
    as (action & Ha & _ & Hw).
  destruct (Hw Hpos Hle) as (w & Hin & Hwpos).
  exists action, w. split; [exact Ha|]. split; [exact Hin|exact Hwpos].
Defined.

End sampling.

(** * Further properties of the advanced solver *)

Section advanced_metrics.
Local Open Scope Q_scope.
Import AdvancedGTOSolver.

Lemma evaluateHand_rank_range cards : (0 ≤ rank (evaluateHand cards) ≤ 8)%Z.
Proof.
  destruct (decide (length cards < 5)%nat) as [Hlt|Hge].
  - unfold evaluateHand. rewrite decide_True by done. simpl. lia.
  - destruct (evaluateHand_best cards) as (combo & Hin & -> & _); [lia|].
    apply combo_length in Hin.
    pose proof (evaluateFiveCards_classified combo Hin) as Hc.
    unfold classified in Hc. fold (rankValuesOf combo) in Hc.
    unfold evaluateFiveCards. fold (rankValuesOf combo).
    destruct (classify _ _) as [rk v d k]. simpl in *.
    apply andb_true_iff in Hc as [Hc _]. unbool. done.
Qed.

(** X14.  [classifyHand] is monotone: a higher equity never gives a weaker
    category. *)
Theorem classifyHand_monotone (equity1 equity2 : Q) :
  equity1 <= equity2 →
  (strengthOf (classifyHand equity1) ≤ strengthOf (classifyHand equity2))%nat.
Proof.
  intros Hle. unfold classifyHand.
  repeat match goal with
         | |- context [Qle_bool ?a ?b] =>
             let H := fresh "H" in
             destruct (Qle_bool a b) eqn:H;
             [apply Qle_bool_iff in H
             |assert (b < a) by (apply Qnot_le_lt; intros ?%Qle_bool_iff;
                                 congruence); clear H]
         end; simpl; try lia; exfalso; lra.
Qed.

Lemma classifyHand_monotone_witness :
  0.42 <= 0.78 ∧
  (strengthOf (classifyHand 0.42) ≤ strengthOf (classifyHand 0.78))%nat.
Proof.
  assert (0.42 <= 0.78) as Hle by (vm_compute; discriminate).
  split; [exact Hle|]. exact (classifyHand_monotone 0.42 0.78 Hle).
Defined.

Lemma tableOr_overpair boardTexture :
  0.72 <= tableOr overpairEquity boardTexture 0.78 <= 0.85.
Proof.
  unfold tableOr. destruct (typeName boardTexture) as [[]|]; simpl; lra.
Qed.

Lemma tableOr_topPair boardTexture :
  0.58 <= tableOr topPairEquity boardTexture 0.63 <= 0.70.
Proof.
  unfold tableOr. destruct (typeName boardTexture) as [[]|]; simpl; lra.
Qed.

(** The base equity is at least 0.18 and at most 1.10, and above 0.90 only
    for a flush or better. *)
Lemma baseEquityOf_range heroHand board boardTexture :
  0.18 <= baseEquityOf heroHand board boardTexture <= 1.10 ∧
  ((rank (evaluateHand (heroHand ++ board)) ≤ 4)%Z →
   baseEquityOf heroHand board boardTexture <= 0.90).
Proof.
  unfold baseEquityOf. cbv zeta.
  pose proof (tableOr_overpair boardTexture) as Hop.
  pose proof (tableOr_topPair boardTexture) as Htp.
  pose proof (evaluateHand_rank_range (heroHand ++ board)) as Hrk.
  set (rk := rank (evaluateHand (heroHand ++ board))) in *.
  destruct (_ && _); [split; [lra|intros _; lra]|].
  destruct (_ && _).
  { destruct (minOf _); repeat case_bool_decide; split; try lra;
      intros _; lra. }
  destruct (bool_decide (_ !! _ = _)).
  { destruct (_ !! _); repeat case_bool_decide; split; try lra;
      intros _; lra. }
  case_bool_decide as Htwo.
  { assert (0 <= inject_Z (rk - 2) <= 6) as [H0 H6].
    { split; [rewrite <-(Zle_Qle 0)|change 6 with (inject_Z 6);
                                      rewrite <-Zle_Qle]; lia. }
    split; [lra|]. intros Hfour.
    assert (inject_Z (rk - 2) <= 2).
    { change 2 with (inject_Z 2). rewrite <-Zle_Qle. lia. }
    lra. }
  set (draws := analyzeDraws heroHand board).
  destruct (Draws.flushDraw draws), (Draws.straightDraw draws),
    (Draws.gutshot draws), (Draws.overcard draws);
    try destruct (maxOf _); repeat case_bool_decide;
    split; try lra; intros _; lra.
Qed.

(** X15.  The accurate equity always lies between 0.17 and 0.95: the
    lower clamp at 0.05 is never reached; and it reaches 0.95, the equity
    classified as the nuts, only with a flush or better. *)
Theorem calculateAccurateEquity_range heroHand board boardTexture :
  let equity := calculateAccurateEquity heroHand board boardTexture in
  0.17 <= equity <= 0.95 ∧
  (classifyHand equity = nuts →
   (5 ≤ rank (evaluateHand (heroHand ++ board)))%Z).
Proof.
  intros equity. subst equity. unfold calculateAccurateEquity. cbv zeta.
  destruct (baseEquityOf_range heroHand board boardTexture)
    as [[Hlo Hhi] Hmade].
  set (base := baseEquityOf heroHand board boardTexture) in *.
  set (adjusted := if below _ _ then _ else _).
  assert (0.17 <= adjusted ∧ (base <= 0.90 → adjusted < 0.95)) as [Ha Hb].
  { subst adjusted. destruct (above _ _), (below _ _); split; lra. }
  split.
  - split; [|apply Qclamp_range; lra].
    apply Q.max_le_iff. right. apply Q.min_glb; lra.
  - intros Hnuts.
    destruct (decide (rank (evaluateHand (heroHand ++ board)) ≤ 4)%Z)
      as [Hfew|]; [|lia].
    exfalso. specialize (Hb (Hmade Hfew)).
    assert (Qmax 0.05 (Qmin 0.95 adjusted) < 0.95) as Hlt.
    { apply Q.max_lub_lt; [lra|].
      eapply Qle_lt_trans; [apply Q.le_min_r|done]. }
    unfold classifyHand in Hnuts.
    destruct (Qle_bool 0.95 _) eqn:Hq.
    + apply Qle_bool_iff in Hq. lra.
    + repeat destruct (Qle_bool _ _); discriminate.
Qed.

Lemma calculateAccurateEquity_range_witness :
  let equity := calculateAccurateEquity aceKingSuited royalFlop preflop in
  classifyHand equity = nuts ∧
  (5 ≤ rank (evaluateHand (aceKingSuited ++ royalFlop)))%Z.
Proof.
  intros equity.
  assert (classifyHand equity = nuts) as Hnuts by (vm_compute; reflexivity).
  split; [exact Hnuts|].
  exact (proj2 (calculateAccurateEquity_range aceKingSuited royalFlop preflop)
           Hnuts).
Defined.

Lemma preflopChecked_all : forCardPairs preflopChecked = true.
Proof. vm_compute. reflexivity. Qed.

(** X16.  Before the flop the metrics of two hole cards know three cases
    only: every pocket pair, deuces as well as aces, has equity 0.78 and is
    a strong hand; any other hand with an ace or a king has equity
    0.35 + 0.05 and is marginal at best; every other hand has equity 0.35
    and is weak. *)
Theorem preflop_metrics (c0 c1 : Card) :
  let metrics := calculateComprehensiveMetrics [c0; c1] [] in
  let equity := Metrics.equity metrics in
  let category := Metrics.handCategory metrics in
  Metrics.boardTexture metrics = preflop ∧
  (card_rank c0 = card_rank c1 → equity == 0.78 ∧ category = strong) ∧
  (card_rank c0 ≠ card_rank c1 →
   (13 ≤ Z.max (rankValues (card_rank c0)) (rankValues (card_rank c1)))%Z →
   equity == 0.35 + 0.05 ∧ (strengthOf category ≤ 1)%nat) ∧
  (card_rank c0 ≠ card_rank c1 →
   (Z.max (rankValues (card_rank c0)) (rankValues (card_rank c1)) < 13)%Z →
   equity == 0.35 ∧ category = weak).
Proof.
  intros metrics equity category.
  pose proof (forCardPairs_spec _ c0 c1 preflopChecked_all) as Hc.
  unfold preflopChecked in Hc. cbv zeta in Hc.
  fold metrics in Hc. fold equity in Hc. fold category in Hc.
  split; [done|].
  repeat case_bool_decide; unbool;
    match goal with H : Qeq_bool _ _ = true |- _ =>
      apply Qeq_bool_iff in H end;
    repeat split; intros; try done; try lia.
Qed.

Lemma preflop_metrics_witness :
  let metrics :=
    calculateComprehensiveMetrics
      [mkCard R2 Spades; mkCard R2 Hearts] [] in
  Metrics.equity metrics == 0.78 ∧ Metrics.handCategory metrics = strong.
Proof.
  intros metrics.
  exact (proj1 (proj2 (preflop_metrics (mkCard R2 Spades) (mkCard R2 Hearts)))
           eq_refl).
Defined.

(** X17.  The range advantage lies between -0.10 and 0.18 and is never
    described as 'significant villain'; on a board of fewer than three
    cards it is 0 or 0.05 and described as 'neutral'. *)
Theorem calculateRangeAdvantage_bounds position villainPosition board
    preflopAction :
  let advantage :=
    calculateRangeAdvantage position villainPosition board preflopAction in
  -0.10 <= RangeAdvantage.value advantage <= 0.18 ∧
  RangeAdvantage.description advantage ≠ "significant villain"%string ∧
  ((length board < 3)%nat →
   RangeAdvantage.description advantage = "neutral"%string ∧
   (RangeAdvantage.value advantage == 0 ∨
    RangeAdvantage.value advantage == 0.05)).
Proof.
  intros advantage. subst advantage. unfold calculateRangeAdvantage.
  cbv zeta. unfold analyzeAdvancedBoardTexture.
  destruct (decide (length board < 3)%nat) as [Hlt|Hge].
  - simpl. case_bool_decide; vm_compute; intuition discriminate.
  - match goal with |- context [analysed ?t] => generalize t end.
    intros t. unfold textureFlag.
    destruct (bool_decide (2 ≤ highCards t)%nat),
      (String.eqb preflopAction "srp"), (lowBoard t), (flushDraw t),
      (connected t), (bool_decide (_ < _)%Z);
      (split; [vm_compute; intuition discriminate|]);
      (split; [vm_compute; discriminate|intros; lia]).
Qed.

Lemma calculateRangeAdvantage_bounds_witness :
  (length (@nil Card) < 3)%nat ∧
  RangeAdvantage.description (calculateRangeAdvantage "BTN" "BB" [] "srp")
    = "neutral"%string.
Proof.
  assert (length (@nil Card) < 3)%nat as Hlen by (simpl; lia).
  split; [exact Hlen|].
  exact (proj1 (proj2 (proj2 (calculateRangeAdvantage_bounds
                                "BTN" "BB" [] "srp")) Hlen)).
Defined.

End advanced_metrics.

(** ** Draws *)

Section draws.
Import AdvancedGTOSolver.

Lemma occurrences_snoc s ss x :
  occurrences s (ss ++ [x])
  = (occurrences s ss + if decide (x = s) then 1 else 0)%nat.
Proof.
  unfold occurrences. rewrite filter_app, length_app. f_equal.
  destruct (decide (x = s)) as [->|Hne].
  - by rewrite filter_cons_True.
  - by rewrite filter_cons_False.
Qed.

Lemma occurrences_two s1 s2 ss :
  s1 ≠ s2 → (occurrences s1 ss + occurrences s2 ss ≤ length ss)%nat.
Proof.
  intros Hne. unfold occurrences.
  induction ss as [|x ss IH]; simpl; [lia|].
  rewrite !filter_cons.
  destruct (decide (x = s1)), (decide (x = s2)); simpl; try lia. congruence.
Qed.

Lemma countSuit_keys suitCounts x :
  (countSuit suitCounts x).*1
  = if decide (x ∈ suitCounts.*1) then suitCounts.*1
    else suitCounts.*1 ++ [x].
Proof.
  induction suitCounts as [|[k n] rest IH].
  { destruct (decide (x ∈ [].*1)) as [[]%elem_of_nil|]; done. }
  cbn [countSuit]. destruct (decide (k = x)) as [->|Hne].
  - change (((x, n) :: rest).*1) with (x :: rest.*1).
    change (((x, (n + 1)%nat) :: rest).*1) with (x :: rest.*1).
    destruct (decide (x ∈ x :: rest.*1)) as [|Hnin]; [done|].
    exfalso. apply Hnin. by left.
  - change (((k, n) :: rest).*1) with (k :: rest.*1).
    change (((k, n) :: countSuit rest x).*1)
      with (k :: (countSuit rest x).*1).
    rewrite IH. destruct (decide (x ∈ rest.*1)) as [Hin|Hnin].
    + destruct (decide (x ∈ k :: rest.*1)) as [|Hnin]; [done|].
      exfalso. apply Hnin. by right.
    + destruct (decide (x ∈ k :: rest.*1)) as [[->|?]%elem_of_cons|]; done.
Qed.

Lemma countSuit_other suitCounts x s n :
  s ≠ x → (s, n) ∈ countSuit suitCounts x ↔ (s, n) ∈ suitCounts.
Proof.
  intros Hne. induction suitCounts as [|[k m] rest IH]; simpl.
  { rewrite list_elem_of_singleton. split; [intros [= -> _]; done|].
    intros []%elem_of_nil. }
  destruct (decide (k = x)) as [->|Hkx].
  - rewrite !elem_of_cons. split; (intros [[= -> _]|?]; [done|by right]).
  - rewrite !elem_of_cons, IH. done.
Qed.

Lemma countSuit_same suitCounts x n :
  NoDup suitCounts.*1 →
  (x, n) ∈ countSuit suitCounts x ↔
    (∃ m, (x, m) ∈ suitCounts ∧ n = S m) ∨
    ((x ∉ suitCounts.*1) ∧ n = 1%nat).
Proof.
  induction suitCounts as [|[k m] rest IH]; simpl; intros Hnd.
  { rewrite list_elem_of_singleton. split.
    - intros [= ->]. right. split; [apply not_elem_of_nil|done].
    - intros [(m & []%elem_of_nil & _)|[_ ->]]. done. }
  apply NoDup_cons in Hnd as [Hk Hnd].
  destruct (decide (k = x)) as [->|Hkx].
  - rewrite elem_of_cons. split.
    + intros [[= ->]|Hin].
      * left. exists m. split; [by left|lia].
      * exfalso. apply Hk. by apply (list_elem_of_fmap_2 fst) in Hin.
    + intros [(m' & Hin & ->)|[Hnin _]].
      * apply elem_of_cons in Hin as [[= ->]|Hin].
        -- left. f_equal. lia.
        -- exfalso. apply Hk. by apply (list_elem_of_fmap_2 fst) in Hin.
      * exfalso. apply Hnin. by left.
  - rewrite elem_of_cons, (IH Hnd). split.
    + intros [[= ? _]|[(m' & Hin & ->)|[Hnin ->]]]; [done| |].
      * left. exists m'. split; [by right|done].
      * right. split; [|done]. intros [?|?]%elem_of_cons; done.
    + intros [(m' & Hin & ->)|[Hnin ->]].
      * apply elem_of_cons in Hin as [[= ? _]|Hin]; [done|].
        right. left. by exists m'.
      * right. right. split; [|done]. intros ?. apply Hnin. by right.
Qed.

(** The counts kept by the [forEach] loop: one entry per suit that occurs,
    with the number of its occurrences. *)
Lemma suitCountsOf_spec ss :
  NoDup (suitCountsOf ss).*1 ∧
  ∀ s n, (s, n) ∈ suitCountsOf ss ↔ n = occurrences s ss ∧ (0 < n)%nat.
Proof.
  unfold suitCountsOf.
  induction ss as [|x ss [IHnd IH]] using rev_ind.
  { simpl. split; [constructor|]. intros s n. split.
    - intros []%elem_of_nil.
    - intros [-> H]. unfold occurrences in H. simpl in H. lia. }
  rewrite foldl_app. simpl. set (acc := foldl countSuit [] ss) in *.
  split.
  { rewrite countSuit_keys. destruct (decide (x ∈ acc.*1)); [done|].
    apply NoDup_app. split; [done|]. split; [|apply NoDup_singleton].
    intros y Hy ->%list_elem_of_singleton. done. }
  intros s n. rewrite occurrences_snoc.
  destruct (decide (x = s)) as [->|Hne].
  - rewrite (countSuit_same _ _ _ IHnd). split.
    + intros [(m & Hin & ->)|[Hnin ->]].
      * apply IH in Hin as [-> ?]. lia.
      * destruct (decide (0 < occurrences s ss)%nat) as [Hpos|Hz]; [|lia].
        exfalso. apply Hnin.
        assert ((s, occurrences s ss) ∈ acc) as Hin by by apply IH.
        by apply (list_elem_of_fmap_2 fst) in Hin.
    + intros [-> _].
      destruct (decide (0 < occurrences s ss)%nat) as [Hpos|Hz].
      * left. exists (occurrences s ss). split; [by apply IH|lia].
      * right. split; [|lia].
        intros ((s' & m) & Hs & Hin)%list_elem_of_fmap. simpl in Hs. subst s'.
        apply IH in Hin. lia.
  - rewrite countSuit_other by done. rewrite IH. lia.
Qed.

Lemma some_count (p : nat → bool) ss :
  existsb p (suitCountsOf ss).*2 = true
  ↔ ∃ s, p (occurrences s ss) = true ∧ (0 < occurrences s ss)%nat.
Proof.
  destruct (suitCountsOf_spec ss) as [_ Hspec].
  rewrite existsb_exists. split.
  - intros (n & Hin & Hp). apply list_elem_of_In in Hin.
    apply list_elem_of_fmap in Hin as ((s & m) & -> & Hin). simpl in *.
    apply Hspec in Hin as [-> ?]. by exists s.
  - intros (s & Hp & Hpos). exists (occurrences s ss). split; [|done].
    apply list_elem_of_In, list_elem_of_fmap.
    exists (s, occurrences s ss). split; [done|]. by apply Hspec.
Qed.

(** X18.  [analyzeDraws] reports a flush draw exactly when four or more of
    the hero and board cards share a suit, and a backdoor flush exactly
    when some suit occurs three times; among six cards or fewer the two
    exclude each other. *)
Theorem analyzeDraws_flush heroHand board :
  let draws := analyzeDraws heroHand board in
  let suits := map card_suit (heroHand ++ board) in
  (Draws.flushDraw draws = true ↔ ∃ s, (4 ≤ occurrences s suits)%nat) ∧
  (Draws.backdoorFlush draws = true ↔ ∃ s, occurrences s suits = 3%nat) ∧
  ((length (heroHand ++ board) ≤ 6)%nat →
   Draws.flushDraw draws = true → Draws.backdoorFlush draws = false).
Proof.
  intros draws suits.
  assert (Draws.flushDraw draws = true ↔ ∃ s, (4 ≤ occurrences s suits)%nat)
    as Hflush.
  { unfold draws, analyzeDraws. cbv zeta.
    destruct (spanFlags _ _) as [sd gs]. cbn [Draws.flushDraw].
    rewrite <-map_app. fold suits. rewrite some_count. split.
    - intros (s & Hs%bool_decide_eq_true & _). by exists s.
    - intros (s & Hs). exists s. split; [by apply bool_decide_eq_true|lia]. }
  assert (Draws.backdoorFlush draws = true ↔ ∃ s, occurrences s suits = 3%nat)
    as Hback.
  { unfold draws, analyzeDraws. cbv zeta.
    destruct (spanFlags _ _) as [sd gs]. cbn [Draws.backdoorFlush].
    rewrite <-map_app. fold suits. rewrite some_count. split.
    - intros (s & Hs%bool_decide_eq_true & _). by exists s.
    - intros (s & Hs). exists s. split; [by apply bool_decide_eq_true|lia]. }
  split; [done|]. split; [done|].
  intros Hlen [s1 H1]%Hflush.
  apply not_true_is_false. intros [s2 H2]%Hback.
  assert (s1 ≠ s2) as Hne by (intros ->; lia).
  pose proof (occurrences_two s1 s2 suits Hne) as Hsum.
  assert (length suits = length (heroHand ++ board)) as Hsuits
    by apply length_map.
  lia.
Qed.

Lemma analyzeDraws_flush_witness :
  let draws := analyzeDraws aceKingSuited royalFlop in
  (length (aceKingSuited ++ royalFlop) ≤ 6)%nat ∧
  Draws.flushDraw draws = true ∧ Draws.backdoorFlush draws = false.
Proof.
  intros draws.
  assert (length (aceKingSuited ++ royalFlop) ≤ 6)%nat as Hlen
    by (simpl; lia).
  assert (Draws.flushDraw draws = true) as Hflush by reflexivity.
  split; [exact Hlen|]. split; [exact Hflush|].
  exact (proj2 (proj2 (analyzeDraws_flush aceKingSuited royalFlop))
           Hlen Hflush).
Defined.

(** *** Straight draws *)

Lemma elem_of_newSet x l : x ∈ newSet l ↔ x ∈ l.
Proof.
  induction l as [|y l IH]; simpl; [done|].
  rewrite !elem_of_cons, list_elem_of_filter, IH.
  destruct (decide (x = y)); tauto.
Qed.

Lemma StronglySorted_filter {A} (R : relation A) (P : A → Prop)
    `{!∀ x, Decision (P x)} l :
  StronglySorted R l → StronglySorted R (filter P l).
Proof.
  induction 1 as [|x l Hs IH Hall]; [constructor|].
  rewrite filter_cons. destruct (decide (P x)); [|done].
  constructor; [done|]. apply Forall_forall.
  intros y [_ Hy]%list_elem_of_filter.
  rewrite Forall_forall in Hall. by apply Hall.
Qed.

(** The unique ranks of a list sorted in decreasing order decrease
    strictly. *)
Lemma newSet_decreasing l :
  StronglySorted (flip Z.le) l → StronglySorted Z.gt (newSet l).
Proof.
  induction 1 as [|x l Hs IH Hall]; simpl; [constructor|].
  constructor; [by apply StronglySorted_filter|].
  apply Forall_forall.
  intros y [Hne Hy]%list_elem_of_filter.
  apply (proj1 (elem_of_newSet y l)) in Hy.
  rewrite Forall_forall in Hall. specialize (Hall y Hy).
  unfold flip in Hall. lia.
Qed.

Lemma sortDesc_StronglySorted l : StronglySorted (flip Z.le) (sortDesc l).
Proof.
  apply Sorted_StronglySorted; [|apply sortDesc_Sorted].
  intros x y z. unfold flip. lia.
Qed.

Lemma spanFlags_windows flags u :
  spanFlags flags u
  = (flags.1 || existsb (λ s, bool_decide (s = 3)) (windows u),
     flags.2 || existsb (λ s, bool_decide (s = 4)) (windows u)).
Proof.
  revert flags. induction u as [|a rest IH]; intros [f g].
  { simpl. by rewrite !orb_false_r. }
  destruct rest as [|b [|c [|d rest']]];
    try (simpl; by rewrite !orb_false_r).
  change (spanFlags (f, g) (a :: b :: c :: d :: rest'))
    with (spanFlags
            (if bool_decide (a - d = 3) then (true, (f, g).2)
             else if bool_decide (a - d = 4) then ((f, g).1, true)
             else (f, g))
            (b :: c :: d :: rest')).
  rewrite IH.
  change (windows (a :: b :: c :: d :: rest'))
    with ((a - d) :: windows (b :: c :: d :: rest')).
  cbn [existsb fst snd].
  repeat case_bool_decide; try lia; cbn [fst snd];
    destruct f, g, (existsb _ _), (existsb _ _); done.
Qed.

Lemma existsb_span (n : Z) (spans : list Z) :
  existsb (λ s, bool_decide (s = n)) spans = true ↔ n ∈ spans.
Proof.
  rewrite existsb_exists. split.
  - intros (s & Hin & ->%bool_decide_eq_true). by apply list_elem_of_In.
  - intros Hin. exists n. split; [by apply list_elem_of_In|].
    by apply bool_decide_eq_true.
Qed.

Lemma decreasing_head (a : Z) rest x :
  StronglySorted Z.gt (a :: rest) → x ∈ a :: rest → x ≤ a.
Proof.
  intros [Hall _]%StronglySorted_cons [->|Hx]%elem_of_cons; [lia|].
  rewrite Forall_forall in Hall. specialize (Hall x Hx). lia.
Qed.

Lemma decreasing_tail (a : Z) rest x :
  StronglySorted Z.gt (a :: rest) → x ∈ rest → x < a.
Proof.
  intros [Hall _]%StronglySorted_cons Hx.
  rewrite Forall_forall in Hall. specialize (Hall x Hx). lia.
Qed.

(** In a strictly decreasing list a window of four has span 3 exactly
    when four consecutive numbers are in the list. *)
Lemma windows_three u :
  StronglySorted Z.gt u →
  3 ∈ windows u ↔ ∃ r, r ∈ u ∧ r + 1 ∈ u ∧ r + 2 ∈ u ∧ r + 3 ∈ u.
Proof.
  induction u as [|a rest IH]; intros Hs.
  { simpl. split; [intros []%elem_of_nil|intros (r & []%elem_of_nil & _)]. }
  pose proof Hs as [_ Hrest]%StronglySorted_cons.
  specialize (IH Hrest). split.
  - destruct rest as [|b [|c [|d rest']]];
      try (simpl; by intros []%elem_of_nil).
    change (windows (a :: b :: c :: d :: rest'))
      with ((a - d) :: windows (b :: c :: d :: rest')).
    intros [Hhead|Htail]%elem_of_cons.
    + pose proof (decreasing_tail _ _ b Hs ltac:(by left)).
      pose proof (decreasing_tail _ _ c Hrest ltac:(by left)).
      apply StronglySorted_cons in Hrest as [_ Hrest'].
      pose proof (decreasing_tail _ _ d Hrest' ltac:(by left)).
      exists d. rewrite !elem_of_cons.
      assert (b = d + 2 ∧ c = d + 1 ∧ a = d + 3) as (Hb & Hc & Ha) by lia.
      rewrite Hb, Hc, Ha. tauto.
    + apply IH in Htail as (r & H0 & H1 & H2 & H3).
      exists r. repeat split; by right.
  - intros (r & H0 & H1 & H2 & H3).
    apply elem_of_cons in H3 as [H3|H3].
    + (* the window starts here *)
      apply elem_of_cons in H2 as [H2|H2]; [lia|].
      apply elem_of_cons in H1 as [H1|H1]; [lia|].
      apply elem_of_cons in H0 as [H0|H0]; [lia|].
      destruct rest as [|b rest1]; [by apply elem_of_nil in H2|].
      pose proof (decreasing_head _ _ _ Hrest H2).
      pose proof (decreasing_tail _ _ b Hs ltac:(by left)).
      assert (b = r + 2) as -> by lia.
      apply elem_of_cons in H1 as [H1|H1]; [lia|].
      apply elem_of_cons in H0 as [H0|H0]; [lia|].
      pose proof Hrest as [_ Hrest1]%StronglySorted_cons.
      destruct rest1 as [|c rest2]; [by apply elem_of_nil in H1|].
      pose proof (decreasing_head _ _ _ Hrest1 H1).
      pose proof (decreasing_tail _ _ c Hrest ltac:(by left)).
      assert (c = r + 1) as -> by lia.
      apply elem_of_cons in H0 as [H0|H0]; [lia|].
      pose proof Hrest1 as [_ Hrest2]%StronglySorted_cons.
      destruct rest2 as [|d rest3]; [by apply elem_of_nil in H0|].
      pose proof (decreasing_head _ _ _ Hrest2 H0).
      pose proof (decreasing_tail _ _ d Hrest1 ltac:(by left)).
      assert (d = r) as -> by lia.
      change (windows (a :: (r + 2) :: (r + 1) :: r :: rest3))
        with ((a - r) :: windows ((r + 2) :: (r + 1) :: r :: rest3)).
      apply elem_of_cons. left. lia.
    + pose proof (decreasing_tail _ _ _ Hs H3).
      apply elem_of_cons in H2 as [H2|H2]; [lia|].
      apply elem_of_cons in H1 as [H1|H1]; [lia|].
      apply elem_of_cons in H0 as [H0|H0]; [lia|].
      assert (3 ∈ windows rest) as Hin by (apply IH; by exists r).
      destruct rest as [|b [|c [|d rest']]];
        try (simpl in Hin; by apply elem_of_nil in Hin).
      change (windows (a :: b :: c :: d :: rest'))
        with ((a - d) :: windows (b :: c :: d :: rest')).
      by right.
Qed.

(** And it has span 4 exactly when, of five consecutive numbers, the two
    ends and two of the three between them are in the list. *)
Lemma windows_four u :
  StronglySorted Z.gt u →
  4 ∈ windows u ↔
  ∃ r m, 1 ≤ m ≤ 3 ∧ r ∈ u ∧ r + 4 ∈ u ∧ (r + m ∉ u) ∧
         ∀ k, 1 ≤ k ≤ 3 → k ≠ m → r + k ∈ u.
Proof.
  induction u as [|a rest IH]; intros Hs.
  { simpl. split; [intros []%elem_of_nil|].
    intros (r & m & _ & []%elem_of_nil & _). }
  pose proof Hs as [_ Hrest]%StronglySorted_cons.
  specialize (IH Hrest). split.
  - destruct rest as [|b [|c [|d rest']]];
      try (simpl; by intros []%elem_of_nil).
    change (windows (a :: b :: c :: d :: rest'))
      with ((a - d) :: windows (b :: c :: d :: rest')).
    intros [Hhead|Htail]%elem_of_cons.
    + pose proof (decreasing_tail _ _ b Hs ltac:(by left)).
      pose proof (decreasing_tail _ _ c Hrest ltac:(by left)).
      pose proof Hrest as [_ Hrest']%StronglySorted_cons.
      pose proof (decreasing_tail _ _ d Hrest' ltac:(by left)).
      pose proof Hrest' as [_ Hrest'']%StronglySorted_cons.
      exists d, (6 - (b - d) - (c - d)).
      split; [lia|]. split; [by do 3 right; left|].
      split; [apply elem_of_cons; left; lia|]. split.
      * rewrite !elem_of_cons.
        intros [?|[?|[?|[?|Hin]]]]; try lia.
        pose proof (decreasing_tail _ _ _ Hrest'' Hin). lia.
      * intros k Hk Hkm. rewrite !elem_of_cons.
        assert (d + k = b ∨ d + k = c) as [?|?] by lia; tauto.
    + apply IH in Htail as (r & m & Hm & H0 & H4 & Hnot & Hmid).
      exists r, m. split; [done|]. split; [by right|]. split; [by right|].
      split.
      * pose proof (decreasing_tail _ _ _ Hs H4).
        intros [?|?]%elem_of_cons; [lia|done].
      * intros k Hk Hkm. right. by apply Hmid.
  - intros (r & m & Hm & H0 & H4 & Hnot & Hmid).
    apply elem_of_cons in H4 as [H4|H4].
    + (* the window starts here *)
      assert (∀ x, x ∈ a :: rest → x ≠ r + m) as Hne
        by (intros x Hx ->; done).
      assert (∀ k, 1 ≤ k ≤ 3 → k ≠ m → r + k ∈ rest) as Hmid'.
      { intros k Hk Hkm.
        pose proof (Hmid k Hk Hkm) as [?|?]%elem_of_cons; [lia|done]. }
      apply elem_of_cons in H0 as [H0|H0]; [lia|].
      destruct rest as [|b rest1]; [by apply elem_of_nil in H0|].
      pose proof (decreasing_tail _ _ b Hs ltac:(by left)).
      pose proof (Hne b ltac:(by right; left)).
      pose proof Hrest as [_ Hrest1]%StronglySorted_cons.
      destruct rest1 as [|c rest2].
      { assert (m = 1 ∨ m = 2 ∨ m = 3) as [-> | [-> | ->]] by lia.
        - pose proof (Hmid' 2 ltac:(lia) ltac:(lia)) as Hk2.
          pose proof (Hmid' 3 ltac:(lia) ltac:(lia)) as Hk3.
          apply list_elem_of_singleton in Hk2, Hk3. lia.
        - pose proof (Hmid' 1 ltac:(lia) ltac:(lia)) as Hk1.
          pose proof (Hmid' 3 ltac:(lia) ltac:(lia)) as Hk3.
          apply list_elem_of_singleton in Hk1, Hk3. lia.
        - pose proof (Hmid' 1 ltac:(lia) ltac:(lia)) as Hk1.
          pose proof (Hmid' 2 ltac:(lia) ltac:(lia)) as Hk2.
          apply list_elem_of_singleton in Hk1, Hk2. lia. }
      pose proof (decreasing_tail _ _ c Hrest ltac:(by left)).
      pose proof (Hne c ltac:(by right; right; left)).
      pose proof Hrest1 as [_ Hrest2]%StronglySorted_cons.
      assert (∀ x, x ∈ b :: c :: rest2 → x ≤ b) as Hb
        by (intros x; apply decreasing_head; done).
      assert (∀ x, x ∈ c :: rest2 → x ≤ c) as Hc
        by (intros x; apply decreasing_head; done).
      assert (∀ x, x ∈ b :: c :: rest2 → x = b ∨ x ≤ c) as Hbc.
      { intros x [->|Hx]%elem_of_cons; [by left|right; by apply Hc]. }
      destruct rest2 as [|d rest3].
      { pose proof (Hbc r H0).
        assert (m = 1 ∨ m = 2 ∨ m = 3) as [-> | [-> | ->]] by lia.
        - pose proof (Hbc _ (Hmid' 2 ltac:(lia) ltac:(lia))).
          pose proof (Hbc _ (Hmid' 3 ltac:(lia) ltac:(lia))).
          pose proof (Hc r). rewrite !elem_of_cons in *.
          assert (r = b ∨ r = c) by (destruct H0 as [|[|[]%elem_of_nil]]; tauto).
          lia.
        - pose proof (Hbc _ (Hmid' 1 ltac:(lia) ltac:(lia))).
          pose proof (Hbc _ (Hmid' 3 ltac:(lia) ltac:(lia))).
          rewrite !elem_of_cons in *.
          assert (r = b ∨ r = c) by (destruct H0 as [|[|[]%elem_of_nil]]; tauto).
          lia.
        - pose proof (Hbc _ (Hmid' 1 ltac:(lia) ltac:(lia))).
          pose proof (Hbc _ (Hmid' 2 ltac:(lia) ltac:(lia))).
          rewrite !elem_of_cons in *.
          assert (r = b ∨ r = c) by (destruct H0 as [|[|[]%elem_of_nil]]; tauto).
          lia. }
      pose proof (decreasing_tail _ _ d Hrest1 ltac:(by left)).
      pose proof (Hne d ltac:(by right; right; right; left)).
      assert (∀ x, x ∈ b :: c :: d :: rest3 → x = b ∨ x = c ∨ x ≤ d) as Hbcd.
      { intros x [->|[->|Hx]%elem_of_cons]%elem_of_cons; [tauto..|].
        right; right. by apply (decreasing_head d rest3). }
      change (windows (a :: b :: c :: d :: rest3))
        with ((a - d) :: windows (b :: c :: d :: rest3)).
      apply elem_of_cons. left. pose proof (Hbcd r H0).
      assert (m = 1 ∨ m = 2 ∨ m = 3) as [-> | [-> | ->]] by lia.
      * pose proof (Hbcd _ (Hmid' 2 ltac:(lia) ltac:(lia))).
        pose proof (Hbcd _ (Hmid' 3 ltac:(lia) ltac:(lia))). lia.
      * pose proof (Hbcd _ (Hmid' 1 ltac:(lia) ltac:(lia))).
        pose proof (Hbcd _ (Hmid' 3 ltac:(lia) ltac:(lia))). lia.
      * pose proof (Hbcd _ (Hmid' 1 ltac:(lia) ltac:(lia))).
        pose proof (Hbcd _ (Hmid' 2 ltac:(lia) ltac:(lia))). lia.
    + pose proof (decreasing_tail _ _ _ Hs H4).
      apply elem_of_cons in H0 as [H0|H0]; [lia|].
      assert (4 ∈ windows rest) as Hin.
      { apply IH. exists r, m. split; [done|]. split; [done|].
        split; [done|]. split.
        - intros ?. apply Hnot. by right.
        - intros k Hk Hkm.
          pose proof (Hmid k Hk Hkm) as [?|?]%elem_of_cons; [lia|done]. }
      destruct rest as [|b [|c [|d rest']]];
        try (simpl in Hin; by apply elem_of_nil in Hin).
      change (windows (a :: b :: c :: d :: rest'))
        with ((a - d) :: windows (b :: c :: d :: rest')).
      by right.
Qed.

(** X19.  [analyzeDraws] reports a straight draw exactly when four
    consecutive rank values are among the hero and board cards, and a
    gutshot exactly when, of five consecutive rank values, the two ends and
    exactly two of the three between them are; the ace counts as 14 only. *)
Theorem analyzeDraws_straight heroHand board :
  let draws := analyzeDraws heroHand board in
  let ranks := rankValuesOf (heroHand ++ board) in
  (Draws.straightDraw draws = true ↔
   ∃ r, r ∈ ranks ∧ r + 1 ∈ ranks ∧ r + 2 ∈ ranks ∧ r + 3 ∈ ranks) ∧
  (Draws.gutshot draws = true ↔
   ∃ r m, 1 ≤ m ≤ 3 ∧ r ∈ ranks ∧ r + 4 ∈ ranks ∧ (r + m ∉ ranks) ∧
          ∀ k, 1 ≤ k ≤ 3 → k ≠ m → r + k ∈ ranks).
Proof.
  intros draws ranks. unfold draws, analyzeDraws. cbv zeta.
  rewrite <-map_app. fold (rankValuesOf (heroHand ++ board)). fold ranks.
  rewrite spanFlags_windows. cbn [fst snd orb].
  cbn [Draws.straightDraw Draws.gutshot].
  set (u := newSet (sortDesc ranks)).
  assert (StronglySorted Z.gt u) as Hu
    by apply newSet_decreasing, sortDesc_StronglySorted.
  assert (∀ x, x ∈ u ↔ x ∈ ranks) as Hin.
  { intros x. unfold u. by rewrite elem_of_newSet, sortDesc_Permutation. }
  rewrite !existsb_span, (windows_three u Hu), (windows_four u Hu).
  split.
  - split; intros (r & H0 & H1 & H2 & H3); exists r;
      repeat split; by apply Hin.
  - split; intros (r & m & Hm & H0 & H4 & Hnot & Hmid); exists r, m;
      (split; [done|]); (split; [by apply Hin|]); (split; [by apply Hin|]);
      (split; [by rewrite Hin in * || by rewrite <-Hin in *|]);
      intros k Hk Hkm; apply Hin; by apply Hmid.
Qed.

End draws.

(** ** Blockers *)

Section blockers.
Import AdvancedGTOSolver.

(** The flag [flushDraw] of a texture: three cards or more of one suit on
    a board of at least three cards. *)
Lemma texture_flushDraw board :
  textureFlag flushDraw (analyzeAdvancedBoardTexture board) = true
  ↔ (3 ≤ length board)%nat ∧
    ∃ s, (3 ≤ occurrences s (map card_suit board))%nat.
Proof.
  unfold analyzeAdvancedBoardTexture.
  destruct (decide (length board < 3)%nat) as [Hlt|Hge].
  { simpl. split; [done|lia]. }
  cbv zeta. cbn [textureFlag flushDraw].
  rewrite <-flushDraw_spec, some_count. split.
  - intros (s & Hs%bool_decide_eq_true & _). split; [lia|by exists s].
  - intros [_ (s & Hs)]. exists s. split; [by apply bool_decide_eq_true|lia].
Qed.

(** X20.  The strong blocker is the ace blocker or the flush blocker.  The
    flush blocker is set only on a board with three cards of one suit, and
    then when the hero holds a card of the first suit, in the order of the
    board, that the board shows twice or more; on a board of at most four
    cards this is the suit of the flush draw. *)
Theorem analyzeBlockers_flush heroHand board :
  let blockers :=
    analyzeBlockers heroHand board (analyzeAdvancedBoardTexture board) in
  let boardSuits := map card_suit board in
  let heroSuits := map card_suit heroHand in
  Blockers.strongBlocker blockers
    = Blockers.aceBlocker blockers || Blockers.flushBlocker blockers ∧
  (Blockers.flushBlocker blockers = true →
   (∃ s, (3 ≤ occurrences s boardSuits)%nat) ∧
   ∃ s, (2 ≤ occurrences s boardSuits)%nat ∧ s ∈ heroSuits) ∧
  ((length board ≤ 4)%nat →
   (Blockers.flushBlocker blockers = true
    ↔ ∃ s, (3 ≤ occurrences s boardSuits)%nat ∧ s ∈ heroSuits)).
Proof.
  intros blockers boardSuits heroSuits.
  pose proof (texture_flushDraw board) as Hfd. fold boardSuits in Hfd.
  destruct (suitCountsOf_spec boardSuits) as [_ Hspec].
  unfold blockers, analyzeBlockers. cbv zeta.
  cbn [Blockers.strongBlocker Blockers.aceBlocker Blockers.flushBlocker].
  fold boardSuits. fold heroSuits. fold (suitCountsOf boardSuits).
  destruct (textureFlag flushDraw (analyzeAdvancedBoardTexture board))
    eqn:Hflag.
  2:{ split; [by rewrite andb_false_r, !orb_false_r|].
      split; [done|]. intros _. split; [done|].
      intros (s & Hs & _).
      assert (false = true) as Hbad; [|done].
      apply Hfd. split; [|by exists s].
      unfold occurrences in Hs. pose proof (length_filter (λ x, x = s) boardSuits).
      unfold boardSuits in *. rewrite length_map in *. lia. }
  destruct (proj1 Hfd eq_refl) as [Hlen (s3 & Hs3)]. clear Hfd.
  destruct (find _ _) as [[flushSuit n]|] eqn:Hfind.
  - apply find_some in Hfind as [Hin Hn]. apply list_elem_of_In in Hin.
    apply bool_decide_eq_true in Hn. cbn [snd] in Hn.
    apply Hspec in Hin as [-> _].
    split; [by rewrite andb_true_r|]. split.
    + intros Hb%bool_decide_eq_true. split; [by exists s3|by exists flushSuit].
    + intros Hfour.
      assert (flushSuit = s3) as ->.
      { destruct (decide (flushSuit = s3)) as [|Hne]; [done|].
        pose proof (occurrences_two _ _ boardSuits Hne).
        unfold boardSuits in *. rewrite length_map in *. lia. }
      rewrite bool_decide_eq_true. split; [by exists s3|].
      intros (s & Hs & Hhero).
      destruct (decide (s = s3)) as [->|Hne]; [done|].
      pose proof (occurrences_two _ _ boardSuits Hne).
      unfold boardSuits in *. rewrite length_map in *. lia.
  - exfalso.
    assert ((s3, occurrences s3 boardSuits) ∈ suitCountsOf boardSuits) as Hin
      by (apply Hspec; split; [done|lia]).
    apply list_elem_of_In in Hin.
    pose proof (find_none _ _ Hfind _ Hin) as Hn. cbn [snd] in Hn.
    apply bool_decide_eq_false in Hn. lia.
Qed.

Lemma analyzeBlockers_flush_witness :
  let blockers :=
    analyzeBlockers aceKingSuited royalFlop
      (analyzeAdvancedBoardTexture royalFlop) in
  (length royalFlop ≤ 4)%nat ∧
  (∃ s, (3 ≤ occurrences s (map card_suit royalFlop))%nat ∧
        s ∈ map card_suit aceKingSuited) ∧
  Blockers.flushBlocker blockers = true.
Proof.
  intros blockers.
  assert (length royalFlop ≤ 4)%nat as Hlen by (simpl; lia).
  assert (∃ s, (3 ≤ occurrences s (map card_suit royalFlop))%nat ∧
               s ∈ map card_suit aceKingSuited) as Hs.
  { exists Spades. split; [vm_compute; lia|]. simpl. by left. }
  split; [exact Hlen|]. split; [exact Hs|].
  exact (proj2 (proj2 (proj2 (analyzeBlockers_flush aceKingSuited royalFlop))
                  Hlen) Hs).
Defined.

End blockers.

(** ** Grading is monotone *)

Section grading.
Local Open Scope Q_scope.
Import AdvancedGTOSolver.

(** The ladder never ranks a more frequent action worse, and never
    charges it more. *)
Lemma grade_monotone (p1 p2 optimalFreq : Q) :
  p2 <= p1 →
  (grade p1 optimalFreq).2 <= (grade p2 optimalFreq).2 ∧
  (severity (grade p1 optimalFreq).1 ≤ severity (grade p2 optimalFreq).1)%nat.
Proof.
  intros Hle. unfold grade.
  pose proof (Q.le_max_l 0 ((optimalFreq - p2) * 0.05)) as Hm0.
  pose proof (Q.le_max_r 0 ((optimalFreq - p2) * 0.05)) as Hm1.
  set (best2 := Qmax 0 ((optimalFreq - p2) * 0.05)) in *. clearbody best2.
  repeat match goal with
         | |- context [Qle_bool ?a ?b] =>
             let H := fresh "H" in
             destruct (Qle_bool a b) eqn:H;
             [apply Qle_bool_iff in H
             |assert (b < a) by (apply Qnot_le_lt; intros ?%Qle_bool_iff;
                                 congruence); clear H];
             cbn [orb fst snd severity]
         end;
    try (exfalso; lra);
    (split; [try apply Q.max_lub; lra|lia]).
Qed.

(** X21.  Grading two actions against the same strategy with
    [evaluateAction]: the action with the higher frequency is never put in
    a worse category and never charged a larger EV loss. *)
Theorem evaluateAction_monotone action1 action2 (gtoStrategy : Strategy)
    r1 r2 :
  evaluateAction action1 gtoStrategy = Returned r1 →
  evaluateAction action2 gtoStrategy = Returned r2 →
  playerFrequency r2 <= playerFrequency r1 →
  evLoss r1 <= evLoss r2 ∧
  (severity (category r1) ≤ severity (category r2))%nat.
Proof.
  intros H1 H2 Hle.
  destruct (sortEntries gtoStrategy) as [|top rest] eqn:Hsorted.
  { unfold evaluateAction in H1. by rewrite Hsorted in H1. }
  destruct (evaluateAction_sorted action1 _ _ _ Hsorted)
    as (r1' & Hr1 & _ & _ & _ & Hc1 & Hl1).
  destruct (evaluateAction_sorted action2 _ _ _ Hsorted)
    as (r2' & Hr2 & _ & _ & _ & Hc2 & Hl2).
  assert (r1' = r1) as -> by congruence.
  assert (r2' = r2) as -> by congruence.
  destruct (grade_monotone _ _ top.2 Hle) as [Hloss Hsev].
  rewrite Hc1, Hc2, Hl1, Hl2. split; [|done].
  apply Q.min_glb; [|apply Q.le_min_r].
  eapply Qle_trans; [apply Q.le_min_l|done].
Qed.

Lemma evaluateAction_monotone_witness :
  ∃ r1 r2,
    evaluateAction "check" mostlyCheck = Returned r1 ∧
    evaluateAction "fold" mostlyCheck = Returned r2 ∧
    playerFrequency r2 <= playerFrequency r1 ∧
    evLoss r1 <= evLoss r2 ∧
    (severity (category r1) ≤ severity (category r2))%nat.
Proof.
  eexists. eexists. split; [reflexivity|]. split; [reflexivity|].
  match goal with
  | |- ?P ∧ _ => assert P as Hle by (vm_compute; discriminate)
  end.
  split; [exact Hle|].
  apply (evaluateAction_monotone "check" "fold" mostlyCheck);
    [reflexivity|reflexivity|exact Hle].
Defined.

End grading.

(** * The training session *)

Section session.
Local Open Scope Q_scope.
Import PokerTrainer.

Lemma playAll_snoc plays played :
  playAll (plays ++ [played]) = playHand (playAll plays) played.
Proof. unfold playAll. by rewrite foldl_app. Qed.

Lemma tally_snoc c plays played :
  tally c (plays ++ [played])
  = (tally c plays + if decide (category played.2 = c) then 1 else 0)%Z.
Proof.
  unfold tally. rewrite filter_app, length_app, filter_cons, filter_nil.
  destruct (decide (category played.2 = c)); simpl; lia.
Qed.

Lemma tally_nonneg c plays : (0 ≤ tally c plays)%Z.
Proof. unfold tally. lia. Qed.

(** Rounding a weighted score. *)
Lemma Math_round_score (weighted total : Z) :
  (0 < total)%Z → (0 ≤ weighted ≤ 100 * total)%Z →
  (0 ≤ Math_round (inject_Z weighted / inject_Z total) ≤ 100)%Z ∧
  (weighted = 100 * total →
   Math_round (inject_Z weighted / inject_Z total) = 100%Z)%Z ∧
  (weighted = 0 →
   Math_round (inject_Z weighted / inject_Z total) = 0%Z)%Z.
Proof.
  intros Htotal [Hlo Hhi]. unfold Math_round.
  assert (0 < inject_Z total) as Hpos by (by rewrite <-(Zlt_Qlt 0)).
  assert (0 <= inject_Z weighted / inject_Z total <= 100) as [Hq0 Hq1].
  { split.
    - apply Qle_shift_div_l; [done|]. rewrite Qmult_0_l.
      by rewrite <-(Zle_Qle 0).
    - apply Qle_shift_div_r; [done|].
      change 100 with (inject_Z 100). by rewrite <-inject_Z_mult, <-Zle_Qle. }
  set (q := inject_Z weighted / inject_Z total) in *.
  split; [|split].
  - split.
    + change 0%Z with (Qfloor 0). apply Qfloor_resp_le. lra.
    + change 100%Z with (Qfloor (100 + (1 # 2))). apply Qfloor_resp_le. lra.
  - intros ->.
    assert (q == 100) as Hq.
    { unfold q. rewrite inject_Z_mult. change (inject_Z 100) with 100.
      field. lra. }
    by rewrite Hq.
  - intros ->.
    assert (q == 0) as Hq by (unfold q, Qdiv; by rewrite Qmult_0_l).
    by rewrite Hq.
Qed.

(** What a session records after any number of hands. *)
Lemma playAll_invariant plays :
  let session := playAll plays in
  hands session = Z.of_nat (length plays) ∧
  moves session = Z.of_nat (length plays) ∧
  bestMoves session = tally Best plays ∧
  correctMoves session = tally Correct plays ∧
  inaccuracies session = tally Inaccuracy plays ∧
  wrongMoves session = tally Wrong plays ∧
  blunders session = tally Blunder plays ∧
  totalEVLoss session == foldl Qplus 0 (map (λ p, evLoss p.2) plays) ∧
  (plays ≠ [] →
   score session
   = Math_round
       (inject_Z (tally Best plays * 100 + tally Correct plays * 80
                  + tally Inaccuracy plays * 50 + tally Wrong plays * 20
                  + tally Blunder plays * 0)
        / inject_Z (Z.of_nat (length plays)))) ∧
  history session = take 20 (reverse (imap itemOf plays)).
Proof.
  induction plays as [|played plays IH] using rev_ind; [done|].
  cbv zeta in *. rewrite playAll_snoc.
  destruct IH as (Hh & Hm & Hb & Hc & Hi & Hw & Hx & Hev & _ & Hhist).
  set (session := playAll plays) in *.
  assert (tally Best plays + tally Correct plays + tally Inaccuracy plays
          + tally Wrong plays + tally Blunder plays
          = Z.of_nat (length plays))%Z as Hsum.
  { clear. induction plays as [|p plays IH] using rev_ind; [done|].
    rewrite !tally_snoc, length_app. simpl.
    destruct (category p.2); simpl; lia. }
  rewrite !tally_snoc, length_app, map_app, foldl_app. simpl length.
  destruct played as [hand evaluation]. cbn [fst snd].
  unfold playHand, handlePlayerAction, dealNewHand. cbn [fst snd].
  unfold addToHistory, updateSessionStats.
  cbn [hands moves score bestMoves correctMoves inaccuracies wrongMoves
       blunders totalEVLoss history].
  rewrite Hh, Hm, Hb, Hc, Hi, Hw, Hx, Hhist.
  assert (take 20 (reverse (imap itemOf (plays ++ [(hand, evaluation)])))
          = (let h := itemOf (length plays) (hand, evaluation)
                      :: take 20 (reverse (imap itemOf plays)) in
             if bool_decide (20 < length h)%nat then pop h else h)) as Hhistory.
  { rewrite imap_app, reverse_app. simpl imap. rewrite Nat.add_0_r.
    change (reverse [?x]) with [x]. cbn [app take]. cbv zeta.
    cbn [length]. rewrite length_take, length_reverse, length_imap.
    case_bool_decide as Hlong.
    - unfold pop. cbn [length]. rewrite length_take, length_reverse, length_imap.
      replace (S (20 `min` length plays) - 1)%nat with 20%nat by lia.
      cbn [take]. by rewrite take_take.
    - f_equal. rewrite !take_ge; [done|..];
        rewrite length_reverse, length_imap; lia. }
  pose proof (tally_nonneg Best plays). pose proof (tally_nonneg Correct plays).
  pose proof (tally_nonneg Inaccuracy plays).
  pose proof (tally_nonneg Wrong plays). pose proof (tally_nonneg Blunder plays).
  destruct (category evaluation) eqn:Hcat; cbn [fst snd];
    rewrite bool_decide_true by lia;
    cbn [hands moves score bestMoves correctMoves inaccuracies wrongMoves
         blunders totalEVLoss history];
    repeat (destruct (decide _) as [|]; try discriminate; try done);
    (split; [lia|]); (split; [lia|]);
    (split; [lia|]); (split; [lia|]); (split; [lia|]); (split; [lia|]);
    (split; [lia|]);
    (split; [cbn [foldl]; by rewrite Hev|]);
    (split; [intros _; do 2 f_equal; f_equal; lia|]);
    rewrite Hhistory; unfold itemOf; cbn [fst snd]; rewrite Hcat;
    reflexivity.
Qed.

Lemma tally_all c c' plays :
  Forall (λ p, category p.2 = c) plays →
  tally c' plays = if decide (c = c') then Z.of_nat (length plays) else 0%Z.
Proof.
  intros Hall. unfold tally. induction Hall as [|p plays Hp _ IH]; simpl.
  { by destruct (decide _). }
  rewrite filter_cons. rewrite Hp.
  destruct (decide (c = c')) as [->|Hne]; simpl; lia.
Qed.

(** X22.  After any number of hands, each dealt and then graded, the
    session has counted every hand and every move, its five counters are
    the numbers of evaluations in the five categories and add up to the
    number of hands, the total EV loss is the sum of the EV losses, and the
    score lies between 0 and 100: it is 100 when every move was a best
    move and 0 when every move was a blunder. *)
Theorem session_statistics plays :
  let session := playAll plays in
  let n := Z.of_nat (length plays) in
  hands session = n ∧ moves session = n ∧
  (bestMoves session = tally Best plays ∧
   correctMoves session = tally Correct plays ∧
   inaccuracies session = tally Inaccuracy plays ∧
   wrongMoves session = tally Wrong plays ∧
   blunders session = tally Blunder plays) ∧
  (bestMoves session + correctMoves session + inaccuracies session
   + wrongMoves session + blunders session = n)%Z ∧
  totalEVLoss session == foldl Qplus 0 (map (λ p, evLoss p.2) plays) ∧
  (0 ≤ score session ≤ 100)%Z ∧
  (plays ≠ [] → Forall (λ p, category p.2 = Best) plays →
   score session = 100%Z) ∧
  (plays ≠ [] → Forall (λ p, category p.2 = Blunder) plays →
   score session = 0%Z).
Proof.
  intros session n.
  destruct (playAll_invariant plays)
    as (Hh & Hm & Hb & Hc & Hi & Hw & Hx & Hev & Hscore & _).
  fold session in Hh, Hm, Hb, Hc, Hi, Hw, Hx, Hev, Hscore.
  assert (tally Best plays + tally Correct plays + tally Inaccuracy plays
          + tally Wrong plays + tally Blunder plays = n)%Z as Hsum.
  { subst n. clear. induction plays as [|p plays IH] using rev_ind; [done|].
    rewrite !tally_snoc, length_app. simpl.
    destruct (category p.2); simpl; lia. }
  pose proof (tally_nonneg Best plays). pose proof (tally_nonneg Correct plays).
  pose proof (tally_nonneg Inaccuracy plays).
  pose proof (tally_nonneg Wrong plays). pose proof (tally_nonneg Blunder plays).
  split; [done|]. split; [done|]. split; [done|].
  split; [by rewrite Hb, Hc, Hi, Hw, Hx|]. split; [done|].
  destruct (decide (plays = [])) as [->|Hne]; [done|].
  assert (0 < n)%Z as Hn by (subst n; destruct plays; [done|simpl; lia]).
  rewrite (Hscore Hne). fold n.
  destruct (Math_round_score
              (tally Best plays * 100 + tally Correct plays * 80
               + tally Inaccuracy plays * 50 + tally Wrong plays * 20
               + tally Blunder plays * 0) n Hn ltac:(lia))
    as (Hrange & Hbest & Hworst).
  split; [done|]. split.
  - intros _ Hall. apply Hbest.
    rewrite !(tally_all Best _ plays Hall). simpl. fold n. lia.
  - intros _ Hall. apply Hworst.
    rewrite !(tally_all Blunder _ plays Hall). simpl. lia.
Qed.

Lemma session_statistics_witness :
  thirtyBest ≠ [] ∧ Forall (λ p, category p.2 = Best) thirtyBest ∧
  score (playAll thirtyBest) = 100%Z.
Proof.
  assert (thirtyBest ≠ []) as Hne by discriminate.
  assert (Forall (λ p, category p.2 = Best) thirtyBest) as Hall
    by (apply Forall_replicate; reflexivity).
  split; [exact Hne|]. split; [exact Hall|].
  exact (proj1 (proj2 (proj2 (proj2 (proj2 (proj2 (proj2
           (session_statistics thirtyBest))))))) Hne Hall).
Defined.

(** X23.  The history of a session holds the last 20 hands played, the
    latest first, each under the number it was dealt as. *)
Theorem session_history plays :
  let session := playAll plays in
  history session = take 20 (reverse (imap itemOf plays)) ∧
  length (history session) = (20 `min` length plays)%nat ∧
  (∀ item, item ∈ history session →
     Z.of_nat (length plays) - 20 < HistoryItem.handNum item
     ≤ Z.of_nat (length plays))%Z.
Proof.
  intros session. subst session.
  destruct (playAll_invariant plays)
    as (_ & _ & _ & _ & _ & _ & _ & _ & _ & Hhistory).
  rewrite Hhistory. clear Hhistory.
  split; [done|]. split.
  { by rewrite length_take, length_reverse, length_imap. }
  intros item (i & Hi)%list_elem_of_lookup.
  apply lookup_take_Some in Hi as [Hi Hlt].
  assert (i < length plays)%nat as Hlen.
  { apply lookup_lt_Some in Hi.
    by rewrite length_reverse, length_imap in Hi. }
  rewrite reverse_lookup in Hi by (by rewrite length_imap).
  rewrite length_imap, list_lookup_imap in Hi.
  destruct (plays !! _) as [p|] eqn:Hp; [|done].
  simpl in Hi. injection Hi as <-. unfold itemOf. simpl. lia.
Qed.

End session.

(** * Shuffling *)

Section shuffling.

Lemma swap_Permutation {A} (i j : nat) (arr : list A) :
  (i < length arr)%nat → (j < length arr)%nat →
  ∃ arr', swap i j arr = Some arr' ∧ arr' ≡ₚ arr.
Proof.
  intros Hi Hj. unfold swap.
  destruct (lookup_lt_is_Some_2 arr i Hi) as [x Hx].
  destruct (lookup_lt_is_Some_2 arr j Hj) as [y Hy].
  rewrite Hx, Hy. simpl. eexists. split; [reflexivity|].
  apply Permutation_inj. split; [by rewrite !length_insert|].
  exists (λ k, if decide (k = j) then i else if decide (k = i) then j else k).
  split.
  - intros k1 k2. repeat destruct (decide _); lia.
  - intros k. rewrite !list_lookup_insert, !length_insert.
    repeat destruct (decide _); try done; try lia; intuition lia.
Qed.

Lemma shuffleFrom_Permutation {A} (i : nat) randoms (shuffled : list A) :
  Forall (λ u, 0 <= u ∧ u < 1)%Q randoms →
  (i < length shuffled ∨ i = 0)%nat → (i ≤ length randoms)%nat →
  ∃ result, shuffleFrom i randoms shuffled = Some (result, drop i randoms) ∧
            result ≡ₚ shuffled.
Proof.
  revert randoms shuffled.
  induction i as [|i IH]; intros randoms shuffled Hrand Hi Hlen.
  { exists shuffled. by rewrite drop_0. }
  destruct randoms as [|u randoms]; [simpl in Hlen; lia|].
  apply Forall_cons in Hrand as [[Hu0 Hu1] Hrand].
  cbn [shuffleFrom]. rewrite (Math_random_valid u) by done.
  cbn [mbind option_bind].
  destruct (randomIndex_lt u (S i + 1) Hu0 Hu1 ltac:(lia)) as (j & -> & Hj).
  cbn [mbind option_bind].
  destruct (swap_Permutation (S i) j shuffled ltac:(lia) ltac:(lia))
    as (swapped & -> & Hswapped).
  cbn [mbind option_bind].
  destruct (IH randoms swapped Hrand) as (result & Hresult & Hperm).
  - left. apply Permutation_length in Hswapped. lia.
  - simpl in Hlen. lia.
  - exists result. split; [done|]. by rewrite Hperm.
Qed.

(** X24.  Given results of [Math.random()], one for every card but one,
    [shuffle] returns a permutation of the deck: no card is lost, none is
    doubled; and it uses one random number per card but one. *)
Theorem shuffle_Permutation {A} randoms (deck : list A) :
  Forall (λ u, 0 <= u ∧ u < 1)%Q randoms →
  (length deck - 1 ≤ length randoms)%nat →
  ∃ shuffled,
    shuffle randoms deck = Some (shuffled, drop (length deck - 1) randoms) ∧
    shuffled ≡ₚ deck.
Proof.
  intros Hrand Hlen. unfold shuffle.
  apply shuffleFrom_Permutation; [done| |done].
  destruct deck; simpl; lia.
Qed.

Lemma shuffle_Permutation_witness :
  ∃ shuffled, shuffle [0.9%Q; 0.1%Q] flopOnly = Some (shuffled, [])
              ∧ shuffled ≡ₚ flopOnly.
Proof.
  apply (shuffle_Permutation [0.9%Q; 0.1%Q] flopOnly).
  - repeat constructor; vm_compute; discriminate.
  - simpl. lia.
Defined.

End shuffling.

(** * Counting the combinations *)

Section counting.

Lemma choose_lt n k : (n < k)%nat → choose n k = 0%nat.
Proof.
  revert k. induction n as [|n IH]; intros [|k] Hlt; simpl; try lia.
  rewrite !IH by lia. done.
Qed.

Lemma choose_diag n : choose n n = 1%nat.
Proof.
  induction n as [|n IH]; simpl; [done|].
  rewrite IH, choose_lt by lia. done.
Qed.

Lemma choose_0 n : choose n 0 = 1%nat.
Proof. by destruct n. Qed.

Lemma choose_1 n : choose n 1 = n.
Proof.
  induction n as [|n IH]; [done|].
  change (choose (S n) 1) with (choose n 0 + choose n 1)%nat.
  rewrite IH, choose_0. lia.
Qed.

Lemma length_flat_map {A B} (f : A → list B) (l : list A) :
  length (flat_map f l) = sum_list (map (λ x, length (f x)) l).
Proof.
  induction l as [|x l IH]; simpl; [done|]. by rewrite length_app, IH.
Qed.

(** The hockey-stick identity, in the shape of the loop of
    [getCombinations]. *)
Lemma choose_sum (k m : nat) :
  (S k ≤ m)%nat →
  sum_list (map (λ i, choose (m - S i) k) (seq 0 (S (m - S k))))
  = choose m (S k).
Proof.
  induction m as [|m IH]; intros Hle; [lia|].
  replace (S m - S k)%nat with (m - k)%nat by lia.
  cbn [seq map sum_list]. rewrite <-seq_shift, map_map.
  replace (S m - 1)%nat with m by lia. cbn [choose]. f_equal.
  destruct (decide (S k ≤ m)%nat) as [Hk|Hk].
  - rewrite <-(IH Hk). replace (m - k)%nat with (S (m - S k)) by lia.
    done.
  - replace (m - k)%nat with 0%nat by lia. simpl.
    rewrite choose_lt by lia. done.
Qed.

Lemma getCombinations_length {A} (n : nat) (arr : list A) :
  length (getCombinations arr (S n)) = choose (length arr) (S n).
Proof.
  revert arr. induction n as [|n IH]; intros arr.
  - cbn [getCombinations]. repeat case_decide.
    + rewrite choose_lt by lia. done.
    + replace (length arr) with 1%nat by lia. done.
    + by rewrite length_map, choose_1.
  - rewrite getCombinations_unfold. repeat case_decide.
    + rewrite choose_lt by lia. done.
    + replace (length arr) with (S (S n)) by lia. by rewrite choose_diag.
    + rewrite length_flat_map, <-choose_sum by lia.
      f_equal. apply map_ext_in. intros i Hi%in_seq.
      destruct (lookup_lt_is_Some_2 arr i ltac:(lia)) as [head ->].
      rewrite length_map, IH, length_drop. done.
Qed.

(** X25.  [getCombinations(arr, size)] returns as many combinations as
    the binomial coefficient says, for every size from 1: 21 hands of
    five out of seven cards. *)
Theorem getCombinations_count {A} (arr : list A) (size : nat) :
  (1 ≤ size)%nat →
  length (getCombinations arr size) = choose (length arr) size.
Proof.
  intros Hsize. destruct size as [|n]; [lia|].
  apply getCombinations_length.
Qed.

Lemma getCombinations_count_witness :
  (1 ≤ 5)%nat ∧ length (getCombinations sevenCards 5) = 21%nat.
Proof.
  assert (1 ≤ 5)%nat as Hsize by lia.
  split; [exact Hsize|]. exact (getCombinations_count sevenCards 5 Hsize).
Defined.

End counting.

(** * Cards as text *)

Section text.

Lemma parseHand_cons rank suitChar rest :
  parseHand (rank :: suitChar :: rest)
  = match parseHand rest with
    | Returned cards =>
        Returned
          ({| textRank := Some rank;
              textSuit :=
                Some (let lowered := toLowerCase suitChar in
                      if bool_decide (lowered = 104%N) then suitUnit Hearts
                      else if bool_decide (lowered = 100%N)
                      then suitUnit Diamonds
                      else if bool_decide (lowered = 99%N) then suitUnit Clubs
                      else if bool_decide (lowered = 115%N)
                      then suitUnit Spades
                      else suitChar) |} :: cards)
    | Thrown error => Thrown error
    end.
Proof. reflexivity. Qed.

Lemma parseHand_length (n : nat) (handStr : JsString) :
  (length handStr ≤ n)%nat →
  if Nat.even (length handStr)
  then ∃ cards, parseHand handStr = Returned cards ∧
                (2 * length cards = length handStr)%nat
  else parseHand handStr = Thrown "TypeError".
Proof.
  revert handStr. induction n as [|n IH]; intros handStr Hlen.
  { destruct handStr; [|simpl in Hlen; lia]. by exists []. }
  destruct handStr as [|rank [|suitChar rest]]; [by exists []|done|].
  specialize (IH rest ltac:(simpl in Hlen; lia)).
  rewrite parseHand_cons. cbn [length Nat.even].
  destruct (Nat.even (length rest)).
  - destruct IH as (cards & -> & Hcards).
    eexists. split; [reflexivity|]. simpl. lia.
  - by rewrite IH.
Qed.

(** X26.  [parseHand] reads back what [cardToString] writes, for any
    number of cards in a row, and [stringToCard] for one card; it reads
    the suit letters h, d, c and s, small or capital, as the suit
    symbols; on a string of odd length it throws, and on one of even
    length it returns half as many cards as the string has characters. *)
Theorem parseHand_round_trip :
  (∀ card, stringToCard (cardToString card) = toText card) ∧
  (∀ cards,
     parseHand (flat_map cardToString cards) = Returned (map toText cards)) ∧
  (∀ written,
     parseHand (flat_map inLetters written)
     = Returned (map (λ w, toText w.2) written)) ∧
  (∀ handStr, Nat.Odd (length handStr) →
     parseHand handStr = Thrown "TypeError") ∧
  (∀ handStr, Nat.Even (length handStr) →
     ∃ cards, parseHand handStr = Returned cards ∧
              (2 * length cards = length handStr)%nat).
Proof.
  split; [done|]. split; [|split; [|split]].
  - induction cards as [|[r s] cards IH]; [done|].
    cbn [flat_map cardToString app card_rank card_suit].
    rewrite parseHand_cons, IH. by destruct s.
  - induction written as [|[upper [r s]] written IH]; [done|].
    cbn [flat_map inLetters app card_rank card_suit fst snd].
    rewrite parseHand_cons, IH. by destruct upper, s.
  - intros handStr Hodd%Nat.odd_spec.
    pose proof (parseHand_length _ handStr (le_n _)) as H.
    rewrite <-Nat.negb_odd, Hodd in H. done.
  - intros handStr Heven%Nat.even_spec.
    pose proof (parseHand_length _ handStr (le_n _)) as H.
    by rewrite Heven in H.
Qed.

Lemma parseHand_round_trip_witness :
  Nat.Odd (length (cardToString (mkCard RA Spades) ++ [75%N])) ∧
  parseHand (cardToString (mkCard RA Spades) ++ [75%N]) = Thrown "TypeError".
Proof.
  assert (Nat.Odd (length (cardToString (mkCard RA Spades) ++ [75%N])))
    as Hodd by (exists 1%nat; reflexivity).
  split; [exact Hodd|].
  exact (proj1 (proj2 (proj2 (proj2 parseHand_round_trip))) _ Hodd).
Defined.

End text.

(** * Scenarios *)

Section scenarios.
Local Open Scope Q_scope.
Import PokerTrainer.

Lemma validRandoms_drop n randoms :
  validRandoms randoms → validRandoms (drop n randoms).
Proof. apply Forall_drop. Qed.

Lemma pickFrom_valid {A} (arr : list A) randoms :
  validRandoms randoms → (1 ≤ length randoms)%nat → arr ≠ [] →
  ∃ item, pickFrom arr randoms = Some (item, drop 1 randoms) ∧ item ∈ arr.
Proof.
  intros Hrand Hlen Hne. destruct randoms as [|u randoms]; [simpl in Hlen; lia|].
  apply Forall_cons in Hrand as [[H0 H1] _].
  unfold pickFrom. rewrite (Math_random_valid u) by done.
  cbn [mbind option_bind].
  destruct (randomIndex_lt u (length arr) H0 H1) as (i & -> & Hi).
  { destruct arr; [done|simpl; lia]. }
  cbn [mbind option_bind].
  destruct (lookup_lt_is_Some_2 arr i Hi) as [item Hitem].
  rewrite Hitem. cbn [mbind option_bind]. exists item.
  split; [done|]. by eapply list_elem_of_lookup_2.
Qed.

(** The seats: the raiser is one of the first four positions, and the
    hero sits behind the raiser. *)
Lemma seats_spec preflopAction randoms :
  validRandoms randoms → (2 ≤ length randoms)%nat →
  ∃ raiserPos heroPos n,
    seats preflopAction randoms = Some (raiserPos, heroPos, drop n randoms) ∧
    (n ≤ 2)%nat ∧
    raiserPos ∈ ["UTG"; "HJ"; "CO"; "BTN"]%string ∧ heroPos ∈ positions ∧
    (indexOf 0 positions raiserPos < indexOf 0 positions heroPos)%Z.
Proof.
  intros Hrand Hlen. unfold seats.
  destruct (String.eqb preflopAction "srp").
  - destruct (pickFrom_valid ["UTG"; "HJ"; "CO"; "BTN"]%string randoms)
      as (raiserPos & -> & Hraiser); [done|lia|done|].
    cbn [mbind option_bind].
    set (callingPositions := drop _ positions).
    destruct (pickFrom_valid callingPositions (drop 1 randoms))
      as (heroPos & -> & Hhero).
    { by apply validRandoms_drop. }
    { rewrite length_drop. lia. }
    { subst callingPositions.
      repeat (apply elem_of_cons in Hraiser as [->|Hraiser]; [done|]).
      by apply elem_of_nil in Hraiser. }
    cbn [mbind option_bind]. rewrite drop_drop.
    exists raiserPos, heroPos, 2%nat. split; [done|]. split; [lia|].
    split; [done|]. subst callingPositions.
    repeat (apply elem_of_cons in Hraiser as [->|Hraiser];
            [vm_compute in Hhero;
             repeat (apply elem_of_cons in Hhero as [->|Hhero];
                     [split; [repeat constructor|done]|]);
             by apply elem_of_nil in Hhero|]).
    by apply elem_of_nil in Hraiser.
  - exists "UTG"%string, "BB"%string, 0%nat. rewrite drop_0.
    split; [done|]. split; [lia|]. split; [by left|].
    split; [repeat constructor|done].
Qed.

Lemma rangeAt_elem table key range :
  PreflopRanges.rangeAt table key = Some range → (key, range) ∈ table.
Proof.
  induction table as [|[k r] table IH]; simpl; [done|].
  destruct (String.eqb_spec k key) as [->|_].
  - intros [= ->]. by left.
  - intros H. right. by apply IH.
Qed.

(** A range is one of the tables' ranges, or empty. *)
Lemma getRange_table position action vsPosition :
  PreflopRanges.getRange position action vsPosition = [] ∨
  ∃ key, (key, PreflopRanges.getRange position action vsPosition)
         ∈ rangeTables.
Proof.
  unfold PreflopRanges.getRange, rangeTables. cbv zeta.
  set (key := String.append position _).
  destruct (String.eqb action "open").
  { destruct (PreflopRanges.rangeAt PreflopRanges.openingRanges position)
      as [range|] eqn:Hopen; [|by left].
    right. exists position. apply elem_of_app. left. by apply rangeAt_elem. }
  destruct (String.eqb action "call" && _).
  { destruct (PreflopRanges.rangeAt PreflopRanges.callingRangesIP key)
      as [range|] eqn:Hip.
    { right. exists key. apply elem_of_app. right. apply elem_of_app. left.
      by apply rangeAt_elem. }
    destruct (PreflopRanges.rangeAt PreflopRanges.callingRangesOOP key)
      as [range|] eqn:Hoop; [|by left].
    right. exists key. apply elem_of_app. right. apply elem_of_app. right.
    apply elem_of_app. left. by apply rangeAt_elem. }
  destruct (String.eqb action "3bet" && _); [|by left].
  destruct (PreflopRanges.rangeAt PreflopRanges.threeBetRanges key)
    as [range|] eqn:Hthree; [|by left].
  right. exists key. apply elem_of_app. right. apply elem_of_app. right.
  apply elem_of_app. right. by apply rangeAt_elem.
Qed.

Lemma rangeTables_made :
  forallb (λ entry, rangeMade entry.2) rangeTables = true.
Proof. vm_compute. reflexivity. Qed.

(** A hand generated for a category of a range of the tables is a hand of
    two different cards of the deck, and has that category. *)
Lemma range_hand_made position action vsPosition category hand :
  category ∈ PreflopRanges.getRange position action vsPosition →
  hand ∈ PreflopRanges.getCategoryHands category →
  handMade hand = true ∧
  PreflopRanges.getHandCategory hand = Returned category.
Proof.
  intros Hcat Hhand.
  destruct (getRange_table position action vsPosition) as [Hempty|[key Hkey]].
  { rewrite Hempty in Hcat. by apply elem_of_nil in Hcat. }
  pose proof rangeTables_made as Hmade.
  rewrite forallb_forall in Hmade.
  specialize (Hmade _ (proj1 (list_elem_of_In _ _) Hkey)).
  cbn [snd] in Hmade. unfold rangeMade in Hmade.
  rewrite forallb_forall in Hmade.
  specialize (Hmade _ (proj1 (list_elem_of_In _ _) Hcat)).
  rewrite forallb_forall in Hmade.
  specialize (Hmade _ (proj1 (list_elem_of_In _ _) Hhand)).
  by apply andb_true_iff in Hmade as [Hm Hc%bool_decide_eq_true].
Qed.


Lemma heroHandFor_spec heroPos raiserPos randoms :
  validRandoms randoms → (2 ≤ length randoms)%nat →
  ∃ hand n,
    heroHandFor heroPos raiserPos randoms
      = Some (Returned hand, drop n randoms) ∧
    (n ≤ 2)%nat ∧ handMade hand = true ∧
    (hand = aceKingHand ∨
     ∃ category,
       category ∈ PreflopRanges.getRange heroPos "call" (Some raiserPos) ∧
       PreflopRanges.getHandCategory hand = Returned category).
Proof.
  intros Hrand Hlen. unfold heroHandFor. cbv zeta.
  set (range := PreflopRanges.getRange heroPos "call" (Some raiserPos)).
  destruct (getRandomHandFromRange_picks range [] randoms Hrand Hlen)
    as [[-> _]|(hand & -> & Hin & _)]; cbn [mbind option_bind].
  - exists aceKingHand, 0%nat. rewrite drop_0.
    split; [done|]. split; [lia|]. split; [done|by left].
  - exists hand, 2%nat. split; [done|]. split; [lia|].
    apply elem_of_getAllHandsFromRange in Hin as (category & Hcat & Hhand).
    destruct (range_hand_made _ _ _ _ _ Hcat Hhand) as [Hm Hc].
    split; [done|]. right. by exists category.
Qed.

Lemma toCard_ofCard h c : toCard h = Some c → h = PreflopRanges.ofCard c.
Proof.
  unfold toCard. destruct h as [[ch|] s];
    cbn [PreflopRanges.rank PreflopRanges.suit]; [|done].
  destruct (find _ ranks) as [r|] eqn:Hfind; [|done].
  intros [= <-]. apply find_some in Hfind as [_ Heq%Ascii.eqb_eq].
  unfold PreflopRanges.ofCard. cbn [card_rank card_suit]. by rewrite Heq.
Qed.

Lemma handMade_cards hand :
  handMade hand = true →
  ∃ c0 c1, hand = [PreflopRanges.ofCard c0; PreflopRanges.ofCard c1] ∧
           c0 ≠ c1.
Proof.
  unfold handMade. destruct hand as [|h0 [|h1 [|??]]]; try done.
  destruct (toCard h0) as [c0|] eqn:H0; [|done].
  destruct (toCard h1) as [c1|] eqn:H1; [|done].
  intros Hne%bool_decide_eq_true. exists c0, c1.
  by rewrite (toCard_ofCard _ _ H0), (toCard_ofCard _ _ H1).
Qed.

Lemma flopDeckChecked_all : forCardPairs flopDeckChecked = true.
Proof. vm_compute. reflexivity. Qed.

Lemma flopFor_spec c0 c1 randoms :
  c0 ≠ c1 → validRandoms randoms → (49 ≤ length randoms)%nat →
  ∃ b0 b1 b2,
    flopFor [PreflopRanges.ofCard c0; PreflopRanges.ofCard c1] randoms
      = Some ([b0; b1; b2], drop 49 randoms) ∧
    NoDup [c0; c1; b0; b1; b2].
Proof.
  intros Hne Hrand Hlen. unfold flopFor. cbv zeta.
  pose proof (forCardPairs_spec _ c0 c1 flopDeckChecked_all) as Hchecked.
  unfold flopDeckChecked in Hchecked. cbv zeta in Hchecked.
  set (deck := filter _ createDeck) in *.
  apply andb_true_iff in Hchecked as [Hfifty%bool_decide_eq_true Hother].
  rewrite decide_False in Hfifty by done.
  rewrite forallb_forall in Hother.
  destruct (shuffleFrom_Permutation (length deck - 1) randoms deck Hrand)
    as (shuffled & Hshuffled & Hperm); [lia..|].
  unfold shuffle. rewrite Hshuffled. cbn [mbind option_bind].
  rewrite Hfifty. change (50 - 1)%nat with 49%nat.
  assert (length shuffled = 50%nat) as Hlen50
    by (by rewrite (Permutation_length Hperm)).
  destruct shuffled as [|b0 [|b1 [|b2 rest]]]; try (simpl in Hlen50; lia).
  exists b0, b1, b2. split; [done|].
  assert (NoDup deck) as Hnd by apply NoDup_filter, createDeck_NoDup.
  rewrite <-Hperm in Hnd.
  assert (∀ b, b ∈ b0 :: b1 :: b2 :: rest → b ≠ c0 ∧ b ≠ c1) as Hb.
  { intros b Hin. rewrite Hperm in Hin.
    specialize (Hother b (proj1 (list_elem_of_In _ _) Hin)).
    by apply bool_decide_eq_true in Hother. }
  apply NoDup_cons in Hnd as [Hn0 Hnd].
  apply NoDup_cons in Hnd as [Hn1 Hnd].
  apply NoDup_cons in Hnd as [Hn2 _].
  destruct (Hb b0 ltac:(by left)), (Hb b1 ltac:(by right; left)),
    (Hb b2 ltac:(by right; right; left)).
  repeat (apply NoDup_cons; split;
          [rewrite ?elem_of_cons, ?elem_of_nil in *; intuition congruence|]).
  apply NoDup_nil_2.
Qed.

Lemma actionFor_spec randoms :
  validRandoms randoms → (2 ≤ length randoms)%nat →
  ∃ action bet n,
    actionFor true 6.5 randoms = Some (action, bet, drop n randoms) ∧
    (n ≤ 2)%nat ∧
    ((action = "facing_bet"%string ∧ 0.33 * 6.5 <= bet ∧ bet < 6.5) ∨
     (action = "check_to_hero"%string ∧ bet == 0)).
Proof.
  intros Hrand Hlen.
  destruct randoms as [|u [|v randoms]]; [simpl in Hlen; lia..|].
  apply Forall_cons in Hrand as [[H10 H11] Hrand].
  apply Forall_cons in Hrand as [[H20 H21] _].
  unfold actionFor. rewrite (Math_random_valid u) by done.
  cbn [mbind option_bind]. destruct (Qle_bool 0.7 u); cbn [negb].
  - exists "check_to_hero"%string, 0, 1%nat.
    split; [done|]. split; [lia|]. by right.
  - rewrite (Math_random_valid v) by done. cbn [mbind option_bind].
    eexists _, _, 2%nat. split; [reflexivity|]. split; [lia|].
    left. split; [done|]. split; lra.
Qed.

Lemma generateScenario_spec preflopAction randoms :
  validRandoms randoms → (55 ≤ length randoms)%nat →
  ∃ scenario rest c0 c1 b0 b1 b2,
    generateScenario preflopAction randoms = Some (scenario, rest) ∧
    let state := Scenario.gameState scenario in
    (Scenario.raiserPos scenario ∈ ["UTG"; "HJ"; "CO"; "BTN"]%string ∧
     Scenario.heroPos scenario ∈ positions ∧
     (indexOf 0 positions (Scenario.raiserPos scenario)
      < indexOf 0 positions (Scenario.heroPos scenario))%Z ∧
     GameState.isHeroIP state = true ∧
     GameState.position state = Scenario.heroPos scenario ∧
     GameState.villainPosition state = Scenario.raiserPos scenario ∧
     ((GameState.action state = "facing_bet"%string ∧
       0.33 * 6.5 <= GameState.betSize state ∧ GameState.betSize state < 6.5)
      ∨ (GameState.action state = "check_to_hero"%string ∧
         GameState.betSize state == 0))) ∧
    (Scenario.heroHand scenario
       = [PreflopRanges.ofCard c0; PreflopRanges.ofCard c1] ∧
     Scenario.board scenario = [b0; b1; b2] ∧
     NoDup [c0; c1; b0; b1; b2] ∧
     GameState.heroHand state = Scenario.heroHand scenario ∧
     GameState.board state = Scenario.board scenario ∧
     (Scenario.heroHand scenario = aceKingHand ∨
      ∃ category,
        category ∈ PreflopRanges.getRange (Scenario.heroPos scenario) "call"
                     (Some (Scenario.raiserPos scenario)) ∧
        PreflopRanges.getHandCategory (Scenario.heroHand scenario)
        = Returned category)).
Proof.
  intros Hrand Hlen. unfold generateScenario.
  destruct (seats_spec preflopAction randoms Hrand ltac:(lia))
    as (raiserPos & heroPos & n1 & -> & Hn1 & Hraiser & Hhero & Hbehind).
  cbn [mbind option_bind].
  set (randoms1 := drop n1 randoms).
  assert (validRandoms randoms1) as Hrand1 by by apply validRandoms_drop.
  assert (53 ≤ length randoms1)%nat as Hlen1
    by (unfold randoms1; rewrite length_drop; lia).
  destruct (heroHandFor_spec heroPos raiserPos randoms1 Hrand1 ltac:(lia))
    as (hand & n2 & -> & Hn2 & Hmade & Hrange).
  cbn [mbind option_bind].
  set (randoms2 := drop n2 randoms1).
  assert (validRandoms randoms2) as Hrand2 by by apply validRandoms_drop.
  assert (51 ≤ length randoms2)%nat as Hlen2
    by (unfold randoms2; rewrite length_drop; lia).
  destruct (handMade_cards hand Hmade) as (c0 & c1 & Hhand & Hne).
  destruct (flopFor_spec c0 c1 randoms2 Hne Hrand2 ltac:(lia))
    as (b0 & b1 & b2 & Hflop & Hnd).
  subst hand. rewrite Hflop. cbn [mbind option_bind].
  rewrite bool_decide_true by done.
  set (randoms3 := drop 49 randoms2).
  assert (validRandoms randoms3) as Hrand3 by by apply validRandoms_drop.
  assert (2 ≤ length randoms3)%nat as Hlen3
    by (unfold randoms3; rewrite length_drop; lia).
  destruct (actionFor_spec randoms3 Hrand3 Hlen3)
    as (action & bet & n3 & -> & _ & Haction).
  cbn [mbind option_bind].
  eexists _, _, c0, c1, b0, b1, b2. split; [reflexivity|].
  cbn [Scenario.gameState Scenario.raiserPos Scenario.heroPos
       Scenario.heroHand Scenario.board GameState.isHeroIP
       GameState.position GameState.villainPosition GameState.action
       GameState.betSize GameState.heroHand GameState.board].
  split; [by repeat split|]. by repeat split.
Qed.



(** X28.  With results of [Math.random()] to read, the scenario holds
    five different cards of the deck: the two of the hero and the three of
    the flop, the same in the scenario and in its game state.  The hero's
    hand is [A♠ K♥], or a hand whose category is in the calling range of
    the hero's seat against the raiser's. *)
Theorem generateScenario_cards preflopAction randoms :
  validRandoms randoms → (55 ≤ length randoms)%nat →
  ∃ scenario rest c0 c1 b0 b1 b2,
    generateScenario preflopAction randoms = Some (scenario, rest) ∧
    let state := Scenario.gameState scenario in
    Scenario.heroHand scenario
      = [PreflopRanges.ofCard c0; PreflopRanges.ofCard c1] ∧
    Scenario.board scenario = [b0; b1; b2] ∧
    NoDup [c0; c1; b0; b1; b2] ∧
    GameState.heroHand state = Scenario.heroHand scenario ∧
    GameState.board state = Scenario.board scenario ∧
    (Scenario.heroHand scenario = aceKingHand ∨
     ∃ category,
       category ∈ PreflopRanges.getRange (Scenario.heroPos scenario) "call"
                    (Some (Scenario.raiserPos scenario)) ∧
       PreflopRanges.getHandCategory (Scenario.heroHand scenario)
       = Returned category).
Proof.
  intros Hrand Hlen.
  destruct (generateScenario_spec preflopAction randoms Hrand Hlen)
    as (scenario & rest & c0 & c1 & b0 & b1 & b2 & Hs & _ & Hcards).
  by exists scenario, rest, c0, c1, b0, b1, b2.
Qed.

Lemma generateScenario_cards_witness :
  validRandoms manyRandoms ∧ (55 ≤ length manyRandoms)%nat ∧
  ∃ scenario rest,
    generateScenario "srp" manyRandoms = Some (scenario, rest) ∧
    length (Scenario.board scenario) = 3%nat.
Proof.
  assert (validRandoms manyRandoms) as Hrand.
  { apply Forall_replicate. split; [vm_compute; discriminate|reflexivity]. }
  assert (55 ≤ length manyRandoms)%nat as Hlen by (vm_compute; lia).
  split; [exact Hrand|]. split; [exact Hlen|].
  destruct (generateScenario_cards "srp" manyRandoms Hrand Hlen)
    as (scenario & rest & c0 & c1 & b0 & b1 & b2 & Hs & _ & Hboard & _).
  exists scenario, rest. split; [exact Hs|]. rewrite Hboard. reflexivity.
Defined.




End scenarios.

(** * The Monte Carlo equity *)

Section monte_carlo.
Local Open Scope Q_scope.

(** Removing used cards leaves at least the deck less their number. *)
Lemma remaining_length usedCards :
  (52 ≤ length (withoutCards usedCards createDeck) + length usedCards)%nat.
Proof.
  unfold withoutCards.
  set (P := λ card, existsb (λ used, sameCard used card) usedCards = false).
  pose proof (filter_app_complement P createDeck) as Hsplit.
  apply Permutation_length in Hsplit. rewrite length_app in Hsplit.
  change (length createDeck) with 52%nat in Hsplit.
  assert (length (filter (λ card, ¬ P card) createDeck) ≤ length usedCards)%nat
    as Hremoved; [|lia].
  apply submseteq_length, NoDup_submseteq.
  { apply NoDup_filter, createDeck_NoDup. }
  intros card [Hused _]%list_elem_of_filter. unfold P in Hused.
  destruct (existsb _ usedCards) eqn:Hex; [|done].
  apply existsb_exists in Hex as (used & Hin%list_elem_of_In & Hsame).
  apply sameCard_spec in Hsame. by subst.
Qed.

Lemma mapM_id_Some {A} (l : list A) : mapM id (map Some l) = Some l.
Proof.
  induction l as [|x l IH]; [done|].
  cbn [map mapM]. cbn. by rewrite IH.
Qed.

Lemma simulate_returns heroCards board randoms :
  validRandoms randoms →
  (length heroCards ≤ 45)%nat → (length board ≤ 5)%nat →
  (51 ≤ length randoms)%nat →
  ∃ outcome n,
    simulate heroCards board randoms = Some (Returned outcome, drop n randoms)
    ∧ (n ≤ 51)%nat.
Proof.
  intros Hrand Hhero Hboard Hlen. unfold simulate. cbv zeta.
  pose proof (remaining_length (heroCards ++ board)) as Hdeck.
  rewrite length_app in Hdeck.
  set (deck := withoutCards (heroCards ++ board) createDeck) in *.
  assert (length deck ≤ 52)%nat as Hmax.
  { unfold deck, withoutCards. apply length_filter. }
  destruct (shuffleFrom_Permutation (length deck - 1) randoms deck Hrand)
    as (shuffled & Hshuffled & Hperm); [lia..|].
  unfold shuffle. rewrite Hshuffled. cbn [mbind option_bind].
  apply Permutation_length in Hperm.
  set (k := (5 - length board)%nat).
  assert (slice 0 (Some (5 - Z.of_nat (length board))%Z) shuffled
          = take k shuffled) as ->.
  { unfold slice, relativeIndex. cbv zeta.
    rewrite bool_decide_false by lia. rewrite bool_decide_false by lia.
    rewrite drop_0. f_equal. unfold k. lia. }
  assert (slice (5 - Z.of_nat (length board))%Z None shuffled
          = drop k shuffled) as ->.
  { unfold slice, relativeIndex. cbv zeta.
    rewrite bool_decide_false by lia.
    replace (Z.to_nat (5 - Z.of_nat (length board)) `min` length shuffled)%nat
      with k by (unfold k; lia).
    apply take_ge. rewrite length_drop. lia. }
  assert (2 ≤ length (drop k shuffled))%nat as Hvillain
    by (rewrite length_drop; unfold k; lia).
  destruct (drop k shuffled) as [|v0 [|v1 rest]]; [simpl in Hvillain; lia..|].
  cbn [lookup list_lookup].
  unfold evaluateHandOf.
  change ([Some v0; Some v1] ++ map Some (board ++ take k shuffled))
    with (map Some (v0 :: v1 :: board ++ take k shuffled)).
  rewrite mapM_id_Some.
  destruct (decide _); destruct (beats _ _); try destruct (_ && _);
    eexists _, (length deck - 1)%nat; (split; [reflexivity|lia]).
Qed.

Lemma simulations_returns numSimulations heroCards board wins ties randoms :
  validRandoms randoms →
  (length heroCards ≤ 45)%nat → (length board ≤ 5)%nat →
  (numSimulations * 51 ≤ length randoms)%nat →
  ∃ wins' ties' n,
    simulations numSimulations heroCards board wins ties randoms
      = Some (Returned (wins', ties'), drop n randoms) ∧
    (wins' + ties' ≤ wins + ties + numSimulations)%nat.
Proof.
  intros Hrand Hhero Hboard. revert wins ties randoms Hrand.
  induction numSimulations as [|numSimulations IH];
    intros wins ties randoms Hrand Hlen.
  { exists wins, ties, 0%nat. rewrite drop_0. split; [done|lia]. }
  cbn [simulations].
  destruct (simulate_returns heroCards board randoms Hrand Hhero Hboard)
    as (outcome & n & Hsim & Hn); [lia|].
  rewrite Hsim. cbn [mbind option_bind].
  assert (∀ w t,
    ∃ wins' ties' n',
      simulations numSimulations heroCards board w t (drop n randoms)
        = Some (Returned (wins', ties'), drop n' randoms) ∧
      (wins' + ties' ≤ w + t + numSimulations)%nat) as Hrest.
  { intros w t.
    destruct (IH w t (drop n randoms)) as (w' & t' & n' & Hs & Hsum).
    { by apply validRandoms_drop. }
    { rewrite length_drop. lia. }
    exists w', t', (n + n')%nat. rewrite <-drop_drop. done. }
  destruct outcome.
  - destruct (Hrest (wins + 1)%nat ties) as (w' & t' & n' & Hs & Hsum).
    exists w', t', n'. split; [done|lia].
  - destruct (Hrest wins (ties + 1)%nat) as (w' & t' & n' & Hs & Hsum).
    exists w', t', n'. split; [done|lia].
  - destruct (Hrest wins ties) as (w' & t' & n' & Hs & Hsum).
    exists w', t', n'. split; [done|lia].
Qed.

(** X29.  With results of [Math.random()] to read, at most five board
    cards and at most 45 hero cards, [calculateEquity] does not throw:
    every simulation finds two cards for the villain.  Without a
    simulation it answers [NaN], and otherwise a number between 0 and
    1. *)
Theorem calculateEquity_range heroCards board numSimulations randoms :
  validRandoms randoms →
  (length heroCards ≤ 45)%nat → (length board ≤ 5)%nat →
  (numSimulations * 51 ≤ length randoms)%nat →
  ∃ result rest,
    calculateEquity heroCards board numSimulations randoms
      = Some (Returned result, rest) ∧
    (numSimulations = 0%nat → result = None) ∧
    ((0 < numSimulations)%nat →
     ∃ equity, result = Some equity ∧ 0 <= equity <= 1).
Proof.
  intros Hrand Hhero Hboard Hlen. unfold calculateEquity.
  destruct (simulations_returns numSimulations heroCards board 0 0 randoms
              Hrand Hhero Hboard Hlen) as (wins & ties & n & -> & Hsum).
  cbn [mbind option_bind]. case_bool_decide as Hzero.
  - eexists _, _. split; [reflexivity|]. split; [done|lia].
  - eexists _, _. split; [reflexivity|]. split; [done|].
    intros Hpos. eexists. split; [reflexivity|].
    assert (0 < inject_Z (Z.of_nat numSimulations)) as Hn.
    { rewrite <-(Zlt_Qlt 0). lia. }
    assert (0 <= inject_Z (Z.of_nat wins)) as Hw.
    { rewrite <-(Zle_Qle 0). lia. }
    assert (0 <= inject_Z (Z.of_nat ties)) as Ht.
    { rewrite <-(Zle_Qle 0). lia. }
    assert (inject_Z (Z.of_nat wins) + inject_Z (Z.of_nat ties)
            <= inject_Z (Z.of_nat numSimulations)) as Hle.
    { rewrite <-inject_Z_plus, <-Zle_Qle. lia. }
    split.
    + apply Qle_shift_div_l; [done|]. lra.
    + apply Qle_shift_div_r; [done|]. lra.
Qed.

Lemma calculateEquity_range_witness :
  ∃ result rest,
    calculateEquity aceKing flopOnly 1 manyRandoms
      = Some (Returned result, rest) ∧
    ∃ equity, result = Some equity ∧ 0 <= equity <= 1.
Proof.
  assert (validRandoms manyRandoms) as Hrand.
  { apply Forall_replicate. split; [vm_compute; discriminate|reflexivity]. }
  destruct (calculateEquity_range aceKing flopOnly 1 manyRandoms Hrand)
    as (result & rest & Hr & _ & Hpos);
    [simpl; lia|simpl; lia|vm_compute; lia|].
  exists result, rest. split; [exact Hr|]. apply Hpos. lia.
Defined.

End monte_carlo.
